(** * MCP server manager: lifecycle commands, termination observers,
      request router and credential write path

    A shallow embedding of the server manager (the second program of
    [src/frontend/src/App.js]), of the [Server] model with its save hook,
    of the routes and middleware of the API, and of the cipher the model
    calls.

    Conventions of the embedding.
    - The MongoDB collection is a finite map from the document identity
      ([_id], in its canonical string form) to the document's fields.
    - [runningServers], the JavaScript [Map], is a finite map from the
      server identity to the handle of the child process.
    - A function of the source is a computation in the monad [M]: it reads
      and updates the [World], may throw an exception, and emits the list of
      the calls it made on the outside (spawn, kill, Registry writes, saves,
      frames sent), in the order in which it made them.
    - Every [async] handler is run from its first statement to its last
      without another handler in between. A database read by identity finds
      the document or finds nothing, and a write succeeds; the query of the
      request router is cast and compiled first, and is rejected when that
      fails.
    - Identities on the command channel are strings in the form the
      database prints them, so [serverId] and [server._id.toString()] are
      the same key.
    - A JavaScript string is held in its UTF-8 form, byte by byte.
    - [requestCount] and the clock are integers; JavaScript numbers are
      taken in the range where they are exact. *)

From Stdlib Require Import ZArith Ascii String Btauto.
From stdpp Require Import gmap strings list fin_maps.

Local Open Scope string_scope.
Local Open Scope list_scope.

(** ** Data model *)

(** [status: enum ['creating', 'running', 'stopped', 'failed']] *)
Inductive Status := creating | running | stopped | failed.

#[global] Instance Status_eq_dec : EqDecision Status.
Proof. solve_decision. Defined.

(** The properties of [server.config] that the launchers read; a property
    that is absent is [None]. *)
Record Config := {
  allowedDirectories : option (list string);
  command : option string;
  args : option (list string);
  env : option (gmap string string)
}.

(** A document of the [Server] collection. [apiKeys] and [config] have no
    default in the manager's schema, so either may be undefined ([None]). *)
Record ServerRecord := {
  name : string;
  type : string;
  owner : string;
  status : Status;
  serverKey : string;
  endpoint : string;
  apiKeys : option (gmap string string);
  config : option Config;
  requestCount : Z;
  lastActivity : Z
}.

Definition set_status (s : Status) (r : ServerRecord) : ServerRecord :=
  {| name := name r; type := type r; owner := owner r; status := s;
     serverKey := serverKey r; endpoint := endpoint r; apiKeys := apiKeys r;
     config := config r; requestCount := requestCount r;
     lastActivity := lastActivity r |}.

Definition set_apiKeys (k : gmap string string) (r : ServerRecord) : ServerRecord :=
  {| name := name r; type := type r; owner := owner r; status := status r;
     serverKey := serverKey r; endpoint := endpoint r; apiKeys := Some k;
     config := config r; requestCount := requestCount r;
     lastActivity := lastActivity r |}.

Definition set_activity (n t : Z) (r : ServerRecord) : ServerRecord :=
  {| name := name r; type := type r; owner := owner r; status := status r;
     serverKey := serverKey r; endpoint := endpoint r; apiKeys := apiKeys r;
     config := config r; requestCount := n; lastActivity := t |}.

(** ** Exceptions, replies and effects *)

Inductive Exn :=
| TypeError (msg : string)
| ReferenceError (msg : string)
| SyntaxError (msg : string)
| CipherError (msg : string)
| CastError (msg : string)
| MongoServerError (msg : string).

(** [error.message] *)
Definition message_of (e : Exn) : string :=
  match e with
  | TypeError m | ReferenceError m | SyntaxError m | CipherError m
  | CastError m | MongoServerError m => m
  end.

(** ** Identities in a query

    A query on a path of type ObjectId casts the string it is given with
    [new ObjectId(s)], as the driver does it in the releases of the
    database layer that still have [document.remove()]: 24 hexadecimal
    digits are read as the identity they spell, 12 bytes of ASCII are
    taken as the identity's bytes, and any other string is refused.
    [ObjectId_cast s] is the string the identity prints as, or [None] when
    the cast throws. *)
Definition is_hex (c : ascii) : bool :=
  let n := nat_of_ascii c in
  (bool_decide (48 ≤ n)%nat && bool_decide (n ≤ 57)%nat)
  || (bool_decide (65 ≤ n)%nat && bool_decide (n ≤ 70)%nat)
  || (bool_decide (97 ≤ n)%nat && bool_decide (n ≤ 102)%nat).

Definition lower_hex (c : ascii) : ascii :=
  let n := nat_of_ascii c in
  if bool_decide (65 ≤ n)%nat && bool_decide (n ≤ 70)%nat
  then ascii_of_nat (n + 32) else c.

Definition hex_digit (n : nat) : ascii :=
  if bool_decide (n < 10)%nat then ascii_of_nat (48 + n) else ascii_of_nat (87 + n).

Fixpoint all_chars (f : ascii → bool) (s : string) : bool :=
  match s with
  | EmptyString => true
  | String c rest => f c && all_chars f rest
  end.

Fixpoint map_chars (f : ascii → ascii) (s : string) : string :=
  match s with
  | EmptyString => EmptyString
  | String c rest => String (f c) (map_chars f rest)
  end.

(** [buffer.toString('hex')] *)
Fixpoint to_hex (s : string) : string :=
  match s with
  | EmptyString => EmptyString
  | String c rest =>
    let n := nat_of_ascii c in
    String (hex_digit (n / 16)) (String (hex_digit (n mod 16)) (to_hex rest))
  end.

Definition ObjectId_cast (s : string) : option string :=
  if bool_decide (String.length s = 24%nat) && all_chars is_hex s then
    Some (map_chars lower_hex s)
  else if bool_decide (String.length s = 12%nat)
          && all_chars (λ c, bool_decide (nat_of_ascii c < 128)%nat) s then
    Some (to_hex s)
  else None.

(** The [server] object of a status reply. *)
Record ServerInfo := {
  info_id : string;
  info_name : string;
  info_type : string;
  info_requestCount : Z;
  info_lastActivity : Z
}.

(** The three shapes of object that the command handlers serialise:
    [{success, message}], [{success: false, message, error}] and
    [{success: true, status, server}]. *)
Inductive Response :=
| Reply (success : bool) (message : string)
| ReplyError (message : string) (error : string)
| ReplyStatus (status : string) (server : ServerInfo).

Definition success_of (r : Response) : bool :=
  match r with
  | Reply b _ => b
  | ReplyError _ _ => false
  | ReplyStatus _ _ => true
  end.

(** The calls a handler makes on the outside, as the trace records them.
    [EClose] is [ws.close()]. *)
Inductive Effect :=
| ESpawn (p : nat) (cmd : string) (argv : list string)
| EKill (p : nat)
| ERegistrySet (id : string) (p : nat)
| ERegistryDelete (id : string)
| ESave (id : string) (server : ServerRecord)
| ESend (ws : nat) (r : Response)
| EClose (ws : nat).

Record World := {
  store : gmap string ServerRecord;
  runningServers : gmap string nat;
  observers : gmap nat string;
  next_process : nat;
  process_env : gmap string string
}.

Definition with_store (s : gmap string ServerRecord) (w : World) : World :=
  {| store := s; runningServers := runningServers w; observers := observers w;
     next_process := next_process w; process_env := process_env w |}.

Definition with_registry (m : gmap string nat) (w : World) : World :=
  {| store := store w; runningServers := m; observers := observers w;
     next_process := next_process w; process_env := process_env w |}.

Definition with_observers (o : gmap nat string) (w : World) : World :=
  {| store := store w; runningServers := runningServers w; observers := o;
     next_process := next_process w; process_env := process_env w |}.

Definition with_next_process (n : nat) (w : World) : World :=
  {| store := store w; runningServers := runningServers w;
     observers := observers w; next_process := n;
     process_env := process_env w |}.

(** ** The monad of handlers *)

Inductive Result (A : Type) :=
| Ok (a : A)
| Throw (e : Exn).
Arguments Ok {A} a.
Arguments Throw {A} e.

Definition M (A : Type) : Type := World → Result A * World * list Effect.

Definition ret {A} (a : A) : M A := λ w, (Ok a, w, []).

Definition throw {A} (e : Exn) : M A := λ w, (Throw e, w, []).

Definition bind {A B} (m : M A) (f : A → M B) : M B := λ w,
  match m w with
  | (Ok a, w1, l1) => let '(r, w2, l2) := f a w1 in (r, w2, l1 ++ l2)
  | (Throw e, w1, l1) => (Throw e, w1, l1)
  end.

(** [try { m } catch (error) { h error }]: what [m] did before it threw
    stays done. *)
Definition try_catch {A} (m : M A) (h : Exn → M A) : M A := λ w,
  match m w with
  | (Ok a, w1, l1) => (Ok a, w1, l1)
  | (Throw e, w1, l1) => let '(r, w2, l2) := h e w1 in (r, w2, l1 ++ l2)
  end.

#[global] Instance M_ret : MRet M := @ret.
#[global] Instance M_bind : MBind M := λ A B f m, bind m f.

Definition emit (e : Effect) : M unit := λ w, (Ok tt, w, [e]).

(** The world and the trace a computation ends with. *)
Definition world_of {A} (x : Result A * World * list Effect) : World := x.1.2.
Definition trace_of {A} (x : Result A * World * list Effect) : list Effect := x.2.
Definition result_of {A} (x : Result A * World * list Effect) : Result A := x.1.1.

(** ** Primitive operations *)

(** [Server.findById(serverId)], for an identity in the form in which the
    database prints one. A string that is not the string of an ObjectId
    ([ObjectId_cast] refuses it) makes the call throw a CastError, a path
    that the embedding leaves out. *)
Definition findById (serverId : string) : M (option ServerRecord) := λ w,
  (Ok (store w !! serverId), w, []).

(** [server.save()] in the manager, whose schema has no hook. *)
Definition save (serverId : string) (server : ServerRecord) : M unit := λ w,
  (Ok tt, with_store (<[serverId := server]> (store w)) w, [ESave serverId server]).

(** [runningServers.has], [.get], [.set], [.delete] *)
Definition registry_has (serverId : string) : M bool := λ w,
  (Ok (bool_decide (is_Some (runningServers w !! serverId))), w, []).

Definition registry_get (serverId : string) : M (option nat) := λ w,
  (Ok (runningServers w !! serverId), w, []).

Definition registry_set (serverId : string) (p : nat) : M unit := λ w,
  (Ok tt, with_registry (<[serverId := p]> (runningServers w)) w,
   [ERegistrySet serverId p]).

Definition registry_delete (serverId : string) : M unit := λ w,
  (Ok tt, with_registry (delete serverId (runningServers w)) w,
   [ERegistryDelete serverId]).

(** [ws.send(JSON.stringify(r))] *)
Definition ws_send (ws : nat) (r : Response) : M unit := emit (ESend ws r).

(** [serverProcess.kill()]; a value that is not a process has no [kill]. *)
Definition kill (serverProcess : option nat) : M unit :=
  match serverProcess with
  | Some p => emit (EKill p)
  | None => throw (TypeError "Cannot read properties of undefined (reading 'kill')")
  end.

(** [spawn(command, args, options)] of [child_process]: a command that is not
    a non-empty string makes the call throw; otherwise a new child process
    is started and its handle returned. A command that cannot be run is
    reported later, by the process's [error] event. *)
Definition spawn (cmd : option string) (argv : list string)
    (options_env : option (gmap string string)) : M nat := λ w,
  match cmd with
  | Some c =>
    if decide (c = "")
    then (Throw (TypeError "The argument 'file' cannot be empty"), w, [])
    else (Ok (next_process w), with_next_process (S (next_process w)) w,
          [ESpawn (next_process w) c argv])
  | None => (Throw (TypeError "The 'file' argument must be of type string"), w, [])
  end.

(** [process.env] *)
Definition global_process_env : M (gmap string string) := λ w,
  (Ok (process_env w), w, []).

(** A symmetric cipher as [crypto-js] offers it: [encrypt(value, key)]
    followed by [toString()], and [decrypt(ciphertext, key)] followed by
    [toString(crypto.enc.Utf8)]; either may throw. The key read from the
    environment may be undefined. *)
Record Cipher := {
  encrypt : string → option string → Result string;
  decrypt : string → option string → Result string
}.

(** What a [crypto] binding exports under the name [AES]. *)
Record CryptoModule := { AES : option Cipher }.

Definition lift {A} (r : Result A) : M A := λ w, (r, w, []).

(** [crypto.AES]: reading a property of [undefined] throws. *)
Definition member_AES (c : CryptoModule) : M Cipher :=
  match AES c with
  | Some aes => mret aes
  | None => throw (TypeError "Cannot read properties of undefined (reading 'decrypt')")
  end.

(** ** The server manager *)

Module Manager.

(** [const crypto = require('crypto')]: Node's own module, which exports no
    [AES]. *)
Definition crypto : CryptoModule := {| AES := None |}.

(** [getDecryptedApiKey(server, key)] *)
Definition getDecryptedApiKey (server : ServerRecord) (key : string) : M string :=
  match apiKeys server with
  | None => mret ""
  | Some keys =>
    match keys !! key with
    | None => mret ""
    | Some value =>
      if decide (value = "") then mret ""
      else
        try_catch
          (penv ← global_process_env;
           let encryptionKey := penv !! "ENCRYPTION_KEY" in
           aes ← member_AES crypto;
           lift (decrypt aes value encryptionKey))
          (λ error, mret "")
    end
  end.

(** [setupProcessHandlers(process, serverId)]: the [error] and [exit]
    handlers close over [serverId]; the world keeps, for every process, the
    identity its handlers were installed with. *)
Definition setupProcessHandlers (p : nat) (serverId : string) : M unit := λ w,
  (Ok tt, with_observers (<[p := serverId]> (observers w)) w, []).

(** [const process = spawn(.., { env: { ...process.env, .. } })]: inside the
    launcher [process] names the constant being declared, which is read
    before it is initialised. *)
Definition local_process_env : M (gmap string string) :=
  throw (ReferenceError "Cannot access 'process' before initialization").

Definition startBraveSearchServer (_id : string) (server : ServerRecord) : M nat :=
  apiKey ← getDecryptedApiKey server "BRAVE_API_KEY";
  penv ← local_process_env;
  p ← spawn (Some "npx") ["-y"; "@modelcontextprotocol/server-brave-search"]
        (Some (<["BRAVE_API_KEY" := apiKey]> penv));
  setupProcessHandlers p _id;;
  mret p.

Definition startGithubServer (_id : string) (server : ServerRecord) : M nat :=
  apiKey ← getDecryptedApiKey server "GITHUB_PERSONAL_ACCESS_TOKEN";
  penv ← local_process_env;
  p ← spawn (Some "npx") ["-y"; "@modelcontextprotocol/server-github"]
        (Some (<["GITHUB_PERSONAL_ACCESS_TOKEN" := apiKey]> penv));
  setupProcessHandlers p _id;;
  mret p.

(** [server.config.x], [const { .. } = server.config]: throws when
    [server.config] is undefined. *)
Definition read_config (server : ServerRecord) : M Config :=
  match config server with
  | Some cfg => mret cfg
  | None => throw (TypeError "Cannot read properties of undefined")
  end.

Definition startFilesystemServer (_id : string) (server : ServerRecord) : M nat :=
  cfg ← read_config server;
  let allowedDirs := default ["/tmp"] (allowedDirectories cfg) in
  p ← spawn (Some "npx")
        (["-y"; "@modelcontextprotocol/server-filesystem"] ++ allowedDirs) None;
  setupProcessHandlers p _id;;
  mret p.

(** [Object.entries(server.apiKeys)] *)
Definition Object_entries (o : option (gmap string string)) : M (list (string * string)) :=
  match o with
  | Some m => mret (map_to_list m)
  | None => throw (TypeError "Cannot convert undefined or null to object")
  end.

(** The loop [for (const [key, value] of entries) decryptedKeys[key] = ..] *)
Fixpoint decrypt_entries (server : ServerRecord) (entries : list (string * string))
    (decryptedKeys : gmap string string) : M (gmap string string) :=
  match entries with
  | [] => mret decryptedKeys
  | (key, value) :: rest =>
    v ← getDecryptedApiKey server key;
    decrypt_entries server rest (<[key := v]> decryptedKeys)
  end.

Definition startCustomServer (_id : string) (server : ServerRecord) : M nat :=
  cfg ← read_config server;
  let argv := default [] (args cfg) in
  let cenv := default ∅ (env cfg) in
  entries ← Object_entries (apiKeys server);
  decryptedKeys ← decrypt_entries server entries ∅;
  penv ← local_process_env;
  p ← spawn (command cfg) argv (Some (decryptedKeys ∪ cenv ∪ penv));
  setupProcessHandlers p _id;;
  mret p.

(** The [switch (server.type)] of [startServer]; [None] is its [default]
    branch. *)
Definition launch (serverId : string) (server : ServerRecord) : M (option nat) :=
  if decide (type server = "brave-search") then
    p ← startBraveSearchServer serverId server; mret (Some p)
  else if decide (type server = "github") then
    p ← startGithubServer serverId server; mret (Some p)
  else if decide (type server = "filesystem") then
    p ← startFilesystemServer serverId server; mret (Some p)
  else if decide (type server = "custom") then
    p ← startCustomServer serverId server; mret (Some p)
  else mret None.

Definition startServer (serverId : string) (ws : nat) : M unit :=
  try_catch
    (server ← findById serverId;
     match server with
     | None => ws_send ws (Reply false "Server not found")
     | Some server =>
       isRunning ← registry_has serverId;
       if (isRunning : bool) then
         ws_send ws (Reply true "Server is already running")
       else
         serverProcess ← launch serverId server;
         match serverProcess with
         | None => ws_send ws (Reply false "Unsupported server type")
         | Some serverProcess =>
           registry_set serverId serverProcess;;
           save serverId (set_status running server);;
           ws_send ws (Reply true "Server started successfully")
         end
     end)
    (λ error, ws_send ws (ReplyError "Failed to start server" (message_of error))).

Definition stopServer (serverId : string) (ws : nat) : M unit :=
  try_catch
    (server ← findById serverId;
     match server with
     | None => ws_send ws (Reply false "Server not found")
     | Some server =>
       isRunning ← registry_has serverId;
       if (isRunning : bool) then
         serverProcess ← registry_get serverId;
         kill serverProcess;;
         registry_delete serverId;;
         save serverId (set_status stopped server);;
         ws_send ws (Reply true "Server stopped successfully")
       else
         ws_send ws (Reply true "Server is not running")
     end)
    (λ error, ws_send ws (ReplyError "Failed to stop server" (message_of error))).

Definition getServerStatus (serverId : string) (ws : nat) : M unit :=
  try_catch
    (server ← findById serverId;
     match server with
     | None => ws_send ws (Reply false "Server not found")
     | Some server =>
       isRunning ← registry_has serverId;
       ws_send ws
         (ReplyStatus (if (isRunning : bool) then "running" else "stopped")
            {| info_id := serverId; info_name := name server;
               info_type := type server;
               info_requestCount := requestCount server;
               info_lastActivity := lastActivity server |})
     end)
    (λ error, ws_send ws (ReplyError "Failed to get server status" (message_of error))).

(** *** The command channel *)

(** Of a decoded frame the handler reads two properties: [command], which is
    [None] when it is absent or not a string, and [serverId], a string as
    the wire format has it. *)
Record Data := { data_command : option string; data_serverId : string }.

(** An inbound frame, by what [JSON.parse] makes of it: a syntax error, the
    value [null], or a value whose properties can be read. *)
Inductive Frame :=
| Undecodable (detail : string)
| DecodesNull
| Decodes (data : Data).

Definition JSON_parse (message : Frame) : M (option Data) :=
  match message with
  | Undecodable detail => throw (SyntaxError detail)
  | DecodesNull => mret None
  | Decodes data => mret (Some data)
  end.

(** [data.command], [data.serverId] *)
Definition read_data (data : option Data) : M Data :=
  match data with
  | Some d => mret d
  | None => throw (TypeError "Cannot read properties of null (reading 'command')")
  end.

(** [ws.on('message', async (message) => ..)] *)
Definition on_message (ws : nat) (message : Frame) : M unit :=
  try_catch
    (data ← JSON_parse message;
     d ← read_data data;
     if decide (data_command d = Some "start") then startServer (data_serverId d) ws
     else if decide (data_command d = Some "stop") then stopServer (data_serverId d) ws
     else if decide (data_command d = Some "status") then getServerStatus (data_serverId d) ws
     else ws_send ws (Reply false "Unknown command"))
    (λ error, ws_send ws (ReplyError "Error processing command" (message_of error))).

(** *** Termination observers *)

(** [server.status = ..] on what [findById] returned: throws on [null]. *)
Definition assign_status (s : Status) (server : option ServerRecord) : M ServerRecord :=
  match server with
  | Some r => mret (set_status s r)
  | None => throw (TypeError "Cannot set properties of null (setting 'status')")
  end.

(** [process.on('error', ..)] for the identity the handler closed over. *)
Definition on_error (serverId : string) (error : string) : M unit :=
  try_catch
    (server ← findById serverId;
     server ← assign_status failed server;
     save serverId server;;
     registry_delete serverId)
    (λ dbError, mret tt).

(** [process.on('exit', ..)]; [code] is [None] when the process was ended by
    a signal. *)
Definition on_exit (serverId : string) (code : option Z) : M unit :=
  try_catch
    (server ← findById serverId;
     server ← assign_status (if decide (code = Some 0%Z) then stopped else failed) server;
     save serverId server;;
     registry_delete serverId)
    (λ dbError, mret tt).

(** *** The request router *)

Record McpRequest := {
  X_Server_Key : option string;
  userId : string;
  req_serverId : string
}.

Inductive HttpBody :=
| ErrorBody (error : string)
| ProcessedBody (server : string) (message : string).

Record HttpResponse := { code : nat; body : HttpBody }.

(** [verifyServerAuth]: a missing or empty header is answered 401. *)
Definition verifyServerAuth (req : McpRequest) (next : M HttpResponse) : M HttpResponse :=
  match X_Server_Key req with
  | None => mret {| code := 401; body := ErrorBody "Authentication required" |}
  | Some serverKey =>
    if decide (serverKey = "")
    then mret {| code := 401; body := ErrorBody "Authentication required" |}
    else next
  end.

(** The documents a compiled filter accepts: the first of them, in the
    order in which the collection lists them. *)
Definition first_match (filter : ServerRecord → bool) : M (option (string * ServerRecord)) := λ w,
  (Ok (List.find (λ d, filter d.2) (map_to_list (store w))), w, []).

Section Router.

(** [{ $regex: pattern }]: the database compiles the pattern, which fails
    for a string that is not a regular expression, and applies the
    expression to a string field. *)
Variable regex_test : string → option (string → bool).

(** [Server.findOne({ owner, endpoint: { $regex } })]. The query is
    rejected with a CastError when [owner] is not the string of an
    ObjectId, and with the database's error when the pattern does not
    compile. *)
Definition findOne (owner_ : string) (pattern : string)
    : M (option (string * ServerRecord)) :=
  match ObjectId_cast owner_ with
  | None => throw (CastError "Cast to ObjectId failed for path owner")
  | Some owner_id =>
    match regex_test pattern with
    | None => throw (MongoServerError "Regular expression is invalid")
    | Some matches =>
      first_match (λ r, bool_decide (owner r = owner_id) && matches (endpoint r))
    end
  end.

(** The handler of [POST /mcp/:userId/:serverId]; [now] is [Date.now()]. *)
Definition mcp_handler (req : McpRequest) (now : Z) : M HttpResponse :=
  try_catch
    (server ← findOne (userId req) (req_serverId req);
     match server with
     | None => mret {| code := 404; body := ErrorBody "Server not found" |}
     | Some (_id, server) =>
       if decide (status server ≠ running) then
         mret {| code := 503; body := ErrorBody "Server is not running" |}
       else
         serverProcess ← registry_get _id;
         match serverProcess with
         | None => mret {| code := 503; body := ErrorBody "Server process not found" |}
         | Some _ =>
           save _id (set_activity (requestCount server + 1) now server);;
           mret {| code := 200;
                   body := ProcessedBody (name server) "Request processed successfully" |}
         end
     end)
    (λ error, mret {| code := 500; body := ErrorBody "Internal server error" |}).

Definition mcp_route (req : McpRequest) (now : Z) : M HttpResponse :=
  verifyServerAuth req (mcp_handler req now).

(** *** The manager as a transition system *)

(** What the event loop delivers: a frame on a connection, the [exit] or
    [error] event of a child process, a proxied request. *)
Inductive Input :=
| InMessage (ws : nat) (message : Frame)
| InExit (p : nat) (code : option Z)
| InError (p : nat) (error : string)
| InRequest (req : McpRequest) (now : Z).

(** An event of a process runs the handler installed on it, if any. *)
Definition observed (p : nat) (handler : string → M unit) : M unit := λ w,
  match observers w !! p with
  | Some serverId => handler serverId w
  | None => (Ok tt, w, [])
  end.

Definition step (i : Input) : M unit :=
  match i with
  | InMessage ws message => on_message ws message
  | InExit p code => observed p (λ serverId, on_exit serverId code)
  | InError p error => observed p (λ serverId, on_error serverId error)
  | InRequest req now => _ ← mcp_route req now; mret tt
  end.

Fixpoint run (inputs : list Input) (w : World) : World :=
  match inputs with
  | [] => w
  | i :: rest => run rest (world_of (step i w))
  end.

(** The manager at start-up: an empty Registry and no child process, over
    whatever the collection holds. *)
Definition boot (documents : gmap string ServerRecord) (penv : gmap string string) : World :=
  {| store := documents; runningServers := ∅; observers := ∅;
     next_process := 0; process_env := penv |}.

Definition reachable (w : World) : Prop :=
  ∃ documents penv inputs, w = run inputs (boot documents penv).

End Router.

End Manager.

(** ** The [Server] model of the API *)

Module Model.

(** A hydrated document: its identity, its fields, and whether the path
    [apiKeys] is marked modified. *)
Record Document := {
  _id : string;
  fields : ServerRecord;
  modified_apiKeys : bool
}.

(** [this.apiKeys]: the schema's default is the empty object. *)
Definition doc_apiKeys (doc : Document) : gmap string string :=
  default ∅ (apiKeys (fields doc)).

(** [doc.apiKeys = v]: the path is marked modified unless the new value is
    deeply equal to the one the document holds. *)
Definition assign_apiKeys (v : gmap string string) (doc : Document) : Document :=
  if decide (doc_apiKeys doc = v) then doc
  else {| _id := _id doc; fields := set_apiKeys v (fields doc);
          modified_apiKeys := true |}.

(** [doc.status = s] *)
Definition assign_status (s : Status) (doc : Document) : Document :=
  {| _id := _id doc; fields := set_status s (fields doc);
     modified_apiKeys := modified_apiKeys doc |}.

(** [Server.findById(id)] *)
Definition findById (id : string) : M (option Document) := λ w,
  (Ok ((λ r, {| _id := id; fields := r; modified_apiKeys := false |}) <$> store w !! id),
   w, []).

(** The write of a document to the collection. *)
Definition write (doc : Document) : M Document := λ w,
  (Ok {| _id := _id doc; fields := fields doc; modified_apiKeys := false |},
   with_store (<[_id doc := fields doc]> (store w)) w,
   [ESave (_id doc) (fields doc)]).

Section Codec.

(** [const crypto = require('crypto-js')] *)
Variable aes : Cipher.

Definition crypto : CryptoModule := {| AES := Some aes |}.

(** The loop [for (const [key, value] of entries) encryptedKeys[key] = ..] *)
Fixpoint encrypt_entries (encryptionKey : option string)
    (entries : list (string * string)) (encryptedKeys : gmap string string)
    : M (gmap string string) :=
  match entries with
  | [] => mret encryptedKeys
  | (key, value) :: rest =>
    c ← (cipher ← member_AES crypto; lift (encrypt cipher value encryptionKey));
    encrypt_entries encryptionKey rest (<[key := c]> encryptedKeys)
  end.

(** [ServerSchema.pre('save', ..)] *)
Definition pre_save (doc : Document) : M Document :=
  if modified_apiKeys doc && bool_decide (0 < size (doc_apiKeys doc))%nat then
    penv ← global_process_env;
    let encryptionKey := penv !! "ENCRYPTION_KEY" in
    encryptedKeys ← encrypt_entries encryptionKey (map_to_list (doc_apiKeys doc)) ∅;
    mret {| _id := _id doc; fields := set_apiKeys encryptedKeys (fields doc);
            modified_apiKeys := modified_apiKeys doc |}
  else mret doc.

(** [doc.save()]: the hook runs, the document is written, and its paths are
    clean again. *)
Definition save (doc : Document) : M Document :=
  doc ← pre_save doc;
  write doc.

(** The loop of [getDecryptedApiKeys]: a value whose decryption throws is
    replaced by the empty string. *)
Fixpoint decrypt_entries (encryptionKey : option string)
    (entries : list (string * string)) (decryptedKeys : gmap string string)
    : M (gmap string string) :=
  match entries with
  | [] => mret decryptedKeys
  | (key, value) :: rest =>
    v ← try_catch
          (cipher ← member_AES crypto; lift (decrypt cipher value encryptionKey))
          (λ error, mret "");
    decrypt_entries encryptionKey rest (<[key := v]> decryptedKeys)
  end.

(** [ServerSchema.methods.getDecryptedApiKeys] *)
Definition getDecryptedApiKeys (doc : Document) : M (gmap string string) :=
  penv ← global_process_env;
  let encryptionKey := penv !! "ENCRYPTION_KEY" in
  decrypt_entries encryptionKey (map_to_list (doc_apiKeys doc)) ∅.

End Codec.

End Model.

(** ** The routes of the API that write a server document *)

Module Routes.

(** [req.user], as [authenticate] attached it. *)
Record User := { id : string; role : string }.

Record ApiResponse := {
  http_code : nat;
  success : bool;
  message : string
}.

(** What [String.prototype.trim] removes: the white space and the line
    terminators of the language. A string is held in its UTF-8 form, so one
    code point is one, two or three bytes here.
    [is_space]: U+0009 to U+000D and U+0020. *)
Definition is_space (c : ascii) : bool :=
  let n := nat_of_ascii c in
  bool_decide (n = 32%nat) || (bool_decide (9 ≤ n)%nat && bool_decide (n ≤ 13)%nat).

(** U+00A0, the bytes C2 A0. *)
Definition is_space2 (c0 c1 : ascii) : bool :=
  bool_decide (nat_of_ascii c0 = 194%nat) && bool_decide (nat_of_ascii c1 = 160%nat).

(** U+1680 (E1 9A 80), U+2000 to U+200A (E2 80 80 to E2 80 8A), U+2028,
    U+2029 and U+202F (E2 80 A8, A9, AF), U+205F (E2 81 9F), U+3000
    (E3 80 80) and U+FEFF (EF BB BF). *)
Definition is_space3 (c0 c1 c2 : ascii) : bool :=
  let a := nat_of_ascii c0 in
  let b := nat_of_ascii c1 in
  let c := nat_of_ascii c2 in
  (bool_decide (a = 225%nat) && bool_decide (b = 154%nat) && bool_decide (c = 128%nat))
  || (bool_decide (a = 226%nat) && bool_decide (b = 128%nat)
      && ((bool_decide (128 ≤ c)%nat && bool_decide (c ≤ 138)%nat)
          || bool_decide (c = 168%nat) || bool_decide (c = 169%nat)
          || bool_decide (c = 175%nat)))
  || (bool_decide (a = 226%nat) && bool_decide (b = 129%nat) && bool_decide (c = 159%nat))
  || (bool_decide (a = 227%nat) && bool_decide (b = 128%nat) && bool_decide (c = 128%nat))
  || (bool_decide (a = 239%nat) && bool_decide (b = 187%nat) && bool_decide (c = 191%nat)).

(** [s.trim() === '']: every code point of [s] is one that [trim] removes. *)
Fixpoint trims_to_empty (s : string) : bool :=
  match s with
  | EmptyString => true
  | String c0 rest =>
    if is_space c0 then trims_to_empty rest
    else
      match rest with
      | EmptyString => false
      | String c1 rest1 =>
        if is_space2 c0 c1 then trims_to_empty rest1
        else
          match rest1 with
          | EmptyString => false
          | String c2 rest2 => is_space3 c0 c1 c2 && trims_to_empty rest2
          end
      end
  end.

(** [!s || s.trim() === ''] for a body property that may be absent. *)
Definition missing (s : option string) : bool :=
  match s with
  | None => true
  | Some s => trims_to_empty s
  end.

Record ApiKeyRequest := {
  params_id : string;
  body_key : option string;
  body_value : option string;
  user : User
}.

(** [validateApiKey] *)
Definition validateApiKey (req : ApiKeyRequest) (next : string → string → M ApiResponse)
    : M ApiResponse :=
  match body_key req, body_value req with
  | Some key, Some value =>
    if trims_to_empty key then
      mret {| http_code := 400; success := false; message := "API key name is required" |}
    else if trims_to_empty value then
      mret {| http_code := 400; success := false; message := "API key value is required" |}
    else next key value
  | None, _ =>
    mret {| http_code := 400; success := false; message := "API key name is required" |}
  | Some key, None =>
    if trims_to_empty key then
      mret {| http_code := 400; success := false; message := "API key name is required" |}
    else
      mret {| http_code := 400; success := false; message := "API key value is required" |}
  end.

(** [server.owner.toString() !== req.user.id && req.user.role !== 'admin'] *)
Definition not_authorized (server : ServerRecord) (u : User) : bool :=
  bool_decide (owner server ≠ id u) && bool_decide (role u ≠ "admin").

Section Codec.

Variable aes : Cipher.

(** [router.put('/:id/apikey', validateApiKey, ..)] *)
Definition put_apikey (req : ApiKeyRequest) : M ApiResponse :=
  validateApiKey req (λ key value,
    try_catch
      (server ← Model.findById (params_id req);
       match server with
       | None =>
         mret {| http_code := 404; success := false; message := "Server not found" |}
       | Some server =>
         if not_authorized (Model.fields server) (user req) then
           mret {| http_code := 403; success := false;
                   message := "Not authorized to modify this server" |}
         else
           let server :=
             Model.assign_apiKeys (<[key := value]> (Model.doc_apiKeys server)) server in
           Model.save aes server;;
           mret {| http_code := 200; success := true;
                   message := "API key saved successfully" |}
       end)
      (λ error,
         mret {| http_code := 500; success := false;
                 message := "Failed to update API key" |})).

Record StatusRequest := {
  status_params_id : string;
  body_status : option string;
  status_user : User
}.

(** [router.put('/:id/status', ..)] *)
Definition put_status (req : StatusRequest) : M ApiResponse :=
  try_catch
    (match body_status req with
     | Some s =>
       match (if decide (s = "running") then Some running
              else if decide (s = "stopped") then Some stopped else None) with
       | None =>
         mret {| http_code := 400; success := false;
                 message := "Valid status is required (running/stopped)" |}
       | Some st =>
         server ← Model.findById (status_params_id req);
         match server with
         | None =>
           mret {| http_code := 404; success := false; message := "Server not found" |}
         | Some server =>
           if not_authorized (Model.fields server) (status_user req) then
             mret {| http_code := 403; success := false;
                     message := "Not authorized to modify this server" |}
           else
             Model.save aes (Model.assign_status st server);;
             mret {| http_code := 200; success := true;
                     message := if decide (st = running)
                                then "Server started successfully"
                                else "Server stopped successfully" |}
         end
       end
     | None =>
       mret {| http_code := 400; success := false;
               message := "Valid status is required (running/stopped)" |}
     end)
    (λ error,
       mret {| http_code := 500; success := false;
               message := "Failed to update server status" |}).

End Codec.

End Routes.

(** ** Sample data *)

Module Sample.

Definition no_config : Config :=
  {| allowedDirectories := None; command := None; args := None; env := None |}.

Definition record (ty : string) (st : Status) (cfg : option Config) : ServerRecord :=
  {| name := "files"; type := ty; owner := "u1"; status := st;
     serverKey := "k1"; endpoint := "https://localhost:3001/mcp/u1/e1";
     apiKeys := Some ∅; config := cfg; requestCount := 0; lastActivity := 0 |}.

(** A manager holding one document, [srv1], and the given Registry. *)
Definition world (r : ServerRecord) (registry : gmap string nat) : World :=
  {| store := {[ "srv1" := r ]}; runningServers := registry; observers := ∅;
     next_process := 0; process_env := ∅ |}.

(** A filesystem server that is running as process 7. *)
Definition running_world : World :=
  world (record "filesystem" running (Some no_config)) {[ "srv1" := 7 ]}.

(** The same server, not running. *)
Definition stopped_world : World :=
  world (record "filesystem" stopped (Some no_config)) ∅.

(** A custom server whose configuration names no command. *)
Definition custom_world : World :=
  world (record "custom" creating (Some no_config)) ∅.

(** A stand-in for the database's matcher: every pattern compiles, and
    matches the texts in which it occurs. *)
Fixpoint occurs (pattern text : string) : bool :=
  String.prefix pattern text ||
  match text with
  | EmptyString => false
  | String _ rest => occurs pattern rest
  end.

Definition regex_test (pattern : string) : option (string → bool) :=
  Some (occurs pattern).

(** A matcher that compiles no pattern with an unbalanced parenthesis at
    its head. *)
Definition strict_regex_test (pattern : string) : option (string → bool) :=
  if String.prefix "(" pattern then None else Some (occurs pattern).

(** An owner and a server of that owner, running as process [7]. *)
Definition owner_id : string := "64b7f0c2a1d3e4f5a6b7c8d9".

Definition routed_record : ServerRecord :=
  {| name := "files"; type := "filesystem"; owner := owner_id; status := running;
     serverKey := "k1"; endpoint := "/mcp/64b7f0c2a1d3e4f5a6b7c8d9/e1";
     apiKeys := None; config := Some no_config;
     requestCount := 4; lastActivity := 10 |}.

Definition routed_world : World :=
  world routed_record {[ "srv1" := 7%nat ]}.

Definition request : Manager.McpRequest :=
  {| Manager.X_Server_Key := Some "k1"; Manager.userId := owner_id;
     Manager.req_serverId := "e1" |}.

(** The collection at start-up: [srv1], a filesystem server still
    [creating]. *)
Definition documents : gmap string ServerRecord :=
  {[ "srv1" := record "filesystem" creating (Some no_config) ]}.

Definition start_frame : Manager.Frame :=
  Manager.Decodes {| Manager.data_command := Some "start";
                     Manager.data_serverId := "srv1" |}.

(** A stand-in for the cipher of [crypto-js], which is not part of the
    repository: the ciphertext is the plaintext tagged with the key, and
    decryption under another key throws. *)
Definition cipher : Cipher :=
  {| encrypt value key :=
       match key with
       | Some k => Ok (k +:+ ":" +:+ value)
       | None => Throw (TypeError "Cannot read properties of undefined")
       end;
     decrypt ciphertext key :=
       match key with
       | Some k =>
         let tag := k +:+ ":" in
         if String.prefix tag ciphertext
         then Ok (substring (String.length tag)
                    (String.length ciphertext - String.length tag) ciphertext)
         else Throw (CipherError "Malformed UTF-8 data")
       | None => Throw (TypeError "Cannot read properties of undefined")
       end |}.

(** An API world: [srv1] with the given credentials, and the key the
    environment supplies. *)
Definition api_world (keys : gmap string string) (k : string) : World :=
  {| store := {[ "srv1" := set_apiKeys keys (record "github" creating None) ]};
     runningServers := ∅; observers := ∅; next_process := 0;
     process_env := {[ "ENCRYPTION_KEY" := k ]} |}.

Definition owner_u1 : Routes.User := {| Routes.id := "u1"; Routes.role := "user" |}.

Definition put (key value : string) : Routes.ApiKeyRequest :=
  {| Routes.params_id := "srv1"; Routes.body_key := Some key;
     Routes.body_value := Some value; Routes.user := owner_u1 |}.

(** A document whose credentials have just been assigned. *)
Definition fresh_document (keys : gmap string string) : Model.Document :=
  {| Model._id := "srv1";
     Model.fields := set_apiKeys keys (record "github" creating None);
     Model.modified_apiKeys := true |}.

End Sample.

(** ** Vocabulary of the statements *)

(** In a trace, every termination signal comes after the removal of the
    Registry entry of [serverId]. *)
Definition removed_before_kill (serverId : string) (t : list Effect) : Prop :=
  ∀ i p, t !! i = Some (EKill p) →
    ∃ j, (j < i)%nat ∧ t !! j = Some (ERegistryDelete serverId).

(** A decoded frame whose command is none of start, stop, status. *)
Definition unknown_command (d : Manager.Data) : Prop :=
  Manager.data_command d ≠ Some "start" ∧
  Manager.data_command d ≠ Some "stop" ∧
  Manager.data_command d ≠ Some "status".

(** The frames the command channel cannot serve, each with the reply it is
    due: a decoded frame with an unknown command; an undecodable frame; and
    the value [null], which decodes but has no property to read. *)
Inductive bad_frame : Manager.Frame → Response → Prop :=
| bad_unknown (d : Manager.Data) :
    unknown_command d →
    bad_frame (Manager.Decodes d) (Reply false "Unknown command")
| bad_undecodable (detail : string) :
    bad_frame (Manager.Undecodable detail)
      (ReplyError "Error processing command" detail)
| bad_null :
    bad_frame Manager.DecodesNull
      (ReplyError "Error processing command"
         "Cannot read properties of null (reading 'command')").

(** The world after a process has been spawned for [serverId] and its
    handlers installed. *)
Definition spawned (serverId : string) (w : World) : World :=
  with_observers (<[next_process w := serverId]> (observers w))
    (with_next_process (S (next_process w)) w).

(** What the router's query comes to for a request: the database rejects
    it (the owner is not the string of an ObjectId, or the pattern does not
    compile), or it runs and finds no document, or it resolves to the first
    document of that owner whose endpoint the pattern matches. *)
Inductive Resolution :=
| QueryRejected
| NoRecord
| Resolves (id : string) (server : ServerRecord).

Definition resolved (regex_test : string → option (string → bool))
    (req : Manager.McpRequest) (w : World) : Resolution :=
  match ObjectId_cast (Manager.userId req), regex_test (Manager.req_serverId req) with
  | Some owner_id, Some matches =>
    match List.find (λ d, bool_decide (owner d.2 = owner_id) && matches (endpoint d.2))
            (map_to_list (store w)) with
    | Some (id, server) => Resolves id server
    | None => NoRecord
    end
  | _, _ => QueryRejected
  end.

(** The record as the router saves it on the forwarded path:
    [server.requestCount += 1; server.lastActivity = Date.now()]. *)
Definition accounted (now : Z) (server : ServerRecord) : ServerRecord :=
  {| name := name server; type := type server; owner := owner server;
     status := status server; serverKey := serverKey server;
     endpoint := endpoint server; apiKeys := apiKeys server;
     config := config server;
     requestCount := requestCount server + 1; lastActivity := now |}.

(** What the loop of [getDecryptedApiKeys] stores for the stored value
    [c]: its decryption, or the empty string when decryption throws. *)
Definition decrypt_or_empty (aes : Cipher) (key : option string) (c : string) : string :=
  match decrypt aes c key with
  | Ok v => v
  | Throw _ => ""
  end.

(** ** Further vocabulary: the manager *)

(** The world after [startServer] has launched a process for [serverId],
    registered it and persisted [running]. *)
Definition started (serverId : string) (server : ServerRecord) (w : World) : World :=
  with_store (<[serverId := set_status running server]> (store w))
    (with_registry (<[serverId := next_process w]> (runningServers w))
       (spawned serverId w)).

(** Every Registry entry holds a process that was spawned, carries the
    termination handlers of that very identity, and belongs to a stored
    record whose persisted status is [running]. *)
Definition registry_sound (w : World) : Prop :=
  ∀ serverId p, runningServers w !! serverId = Some p →
    observers w !! p = Some serverId ∧ (p < next_process w)%nat ∧
    ∃ server, store w !! serverId = Some server ∧ status server = running.

(** An effect that writes to a connection: a frame sent, or a close. *)
Definition on_connection (e : Effect) : bool :=
  match e with
  | ESend _ _ | EClose _ => true
  | _ => false
  end.

(** The types whose launcher reads [process.env] inside the declaration of
    its own [process] constant. *)
Definition reads_own_process (ty : string) : Prop :=
  ty = "brave-search" ∨ ty = "github" ∨ ty = "custom".

Module More.

Definition github_world : World :=
  Sample.world (Sample.record "github" creating (Some Sample.no_config)) ∅.

Definition stop_frame : Manager.Frame :=
  Manager.Decodes {| Manager.data_command := Some "stop";
                     Manager.data_serverId := "srv1" |}.

End More.

(** The four things an event can do to the manager's world: nothing; start a
    server; end one (stop, exit, error), which persists a status other than
    [running] and drops the Registry entry; count a proxied request. *)
Inductive step_shape (w : World) : World → Prop :=
| shape_same : step_shape w w
| shape_started (serverId : string) (server : ServerRecord) :
    store w !! serverId = Some server →
    runningServers w !! serverId = None →
    step_shape w (started serverId server w)
| shape_ended (serverId : string) (server : ServerRecord) (s : Status) :
    store w !! serverId = Some server →
    s ≠ running →
    step_shape w
      (with_registry (delete serverId (runningServers w))
         (with_store (<[serverId := set_status s server]> (store w)) w))
| shape_counted (serverId : string) (server : ServerRecord) (n t : Z) :
    store w !! serverId = Some server →
    status server = running →
    step_shape w
      (with_store (<[serverId := set_activity n t server]> (store w)) w).

(** ** The other routes of the API and its middleware *)

Module Api.

(** The generated entry of [mcpServers]: [{command, args, env}]. *)
Record McpServerEntry := {
  entry_command : string;
  entry_args : list string;
  entry_env : gmap string string
}.

(** [ServerSchema.methods.generateClaudeConfig]: the object under
    [mcpServers], keyed by the server's type. *)
Definition generateClaudeConfig (server : ServerRecord) : gmap string McpServerEntry :=
  {[ type server :=
       {| entry_command := "curl";
          entry_args := ["-s"; endpoint server];
          entry_env := {[ "SERVER_KEY" := serverKey server ]} |} ]}.

(** A document read with [.select('-serverKey -apiKeys')]. *)
Record Selected := {
  sel_id : string;
  sel_name : string;
  sel_type : string;
  sel_owner : string;
  sel_status : Status;
  sel_endpoint : string;
  sel_config : option Config;
  sel_requestCount : Z;
  sel_lastActivity : Z
}.

Definition select (id : string) (server : ServerRecord) : Selected :=
  {| sel_id := id; sel_name := name server; sel_type := type server;
     sel_owner := owner server; sel_status := status server;
     sel_endpoint := endpoint server; sel_config := config server;
     sel_requestCount := requestCount server;
     sel_lastActivity := lastActivity server |}.

(** The bodies these routes send: [{success, message}], [{success: true,
    server}] and [{success: true, config: {mcpServers}}]. *)
Inductive Body :=
| Message (success : bool) (message : string)
| WithServer (server : Selected)
| WithConfig (mcpServers : gmap string McpServerEntry).

Record Response := { code : nat; body : Body }.

Record IdRequest := { params_id : string; user : Routes.User }.

(** [router.get('/:id', ..)] *)
Definition get_server (req : IdRequest) : M Response :=
  try_catch
    (server ← Model.findById (params_id req);
     match server with
     | None => mret {| code := 404; body := Message false "Server not found" |}
     | Some server =>
       if Routes.not_authorized (Model.fields server) (user req) then
         mret {| code := 403;
                 body := Message false "Not authorized to access this server" |}
       else
         mret {| code := 200;
                 body := WithServer (select (Model._id server) (Model.fields server)) |}
     end)
    (λ error, mret {| code := 500; body := Message false "Failed to retrieve server" |}).

(** [router.get('/:id/config', ..)] *)
Definition get_config (req : IdRequest) : M Response :=
  try_catch
    (server ← Model.findById (params_id req);
     match server with
     | None => mret {| code := 404; body := Message false "Server not found" |}
     | Some server =>
       if Routes.not_authorized (Model.fields server) (user req) then
         mret {| code := 403;
                 body := Message false "Not authorized to access this server" |}
       else
         let config := generateClaudeConfig (Model.fields server) in
         mret {| code := 200; body := WithConfig config |}
     end)
    (λ error,
       mret {| code := 500; body := Message false "Failed to generate configuration" |}).

(** The fields of a [User] document that the code here reads or writes. *)
Record UserRecord := {
  servers : list string;
  active : bool;
  apiRequestCount : Z
}.

(** [User.updateOne({ _id: owner }, { $pull: { servers: id } })] *)
Definition pull_server (owner id : string) (users : gmap string UserRecord)
    : gmap string UserRecord :=
  alter (λ u, {| servers := filter (λ s, s ≠ id) (servers u); active := active u;
                 apiRequestCount := apiRequestCount u |}) owner users.

(** [server.remove()] *)
Definition remove (doc : Model.Document) : M unit := λ w,
  (Ok tt, with_store (delete (Model._id doc) (store w)) w, []).

(** [router.delete('/:id', ..)]; the collection of users is passed in and
    returned. *)
Definition delete_server (req : IdRequest) (users : gmap string UserRecord)
    : M (Response * gmap string UserRecord) :=
  try_catch
    (server ← Model.findById (params_id req);
     match server with
     | None => mret ({| code := 404; body := Message false "Server not found" |}, users)
     | Some server =>
       if Routes.not_authorized (Model.fields server) (user req) then
         mret ({| code := 403;
                  body := Message false "Not authorized to delete this server" |}, users)
       else
         let users := pull_server (owner (Model.fields server)) (Model._id server) users in
         remove server;;
         mret ({| code := 200; body := Message true "Server deleted successfully" |}, users)
     end)
    (λ error,
       mret ({| code := 500; body := Message false "Failed to delete server" |}, users)).

(** [validateServerCreation]: [None] when the request may pass. *)
Definition validateServerCreation (body_name body_type : option string) : option Response :=
  if Routes.missing body_name then
    Some {| code := 400; body := Message false "Server name is required" |}
  else
    match body_type with
    | Some ty =>
      if decide (ty ≠ "" ∧ ty ∈ ["brave-search"; "github"; "filesystem"; "custom"])
      then None
      else Some {| code := 400; body := Message false "Valid server type is required" |}
    | None => Some {| code := 400; body := Message false "Valid server type is required" |}
    end.

(** [s.replace(pattern, '')]: the first occurrence of the pattern is cut
    out. *)
Fixpoint remove_first (pattern s : string) : string :=
  if String.prefix pattern s then
    substring (String.length pattern) (String.length s - String.length pattern) s
  else
    match s with
    | EmptyString => EmptyString
    | String c rest => String c (remove_first pattern rest)
    end.

(** The payload of a token: [decoded.id], [decoded.role]. *)
Record Token := { token_id : string; token_role : string }.

Section Authenticate.

(** [jwt.verify(token, secret)]: the payload, or an exception. *)
Variable jwt_verify : string → option string → Result Token.

(** [authenticate]: the checks run inside the [try]; [next] is the rest of
    the chain, run with [req.user], and an exception of the chain is not one
    that this [catch] sees. *)
Definition authenticate (authorization : option string)
    (users : gmap string UserRecord) (next : Routes.User → M Response) : M Response :=
  let token := remove_first "Bearer " <$> authorization in
  match token with
  | None => mret {| code := 401; body := Message false "No token, authorization denied" |}
  | Some token =>
    if decide (token = "") then
      mret {| code := 401; body := Message false "No token, authorization denied" |}
    else
      checked ← try_catch
        (penv ← global_process_env;
         decoded ← lift (jwt_verify token (penv !! "JWT_SECRET"));
         match users !! token_id decoded with
         | None =>
           mret (inl {| code := 401;
                        body := Message false "Invalid token: user not found" |})
         | Some u =>
           if active u then
             mret (inr {| Routes.id := token_id decoded;
                          Routes.role := token_role decoded |})
           else mret (inl {| code := 401; body := Message false "Account disabled" |})
         end)
        (λ error, mret (inl {| code := 401; body := Message false "Token is not valid" |}));
      match checked with
      | inl response => mret response
      | inr u => next u
      end
  end.

End Authenticate.

(** *** The rate limiter *)

(** A pending [setTimeout] callback: it closes over the [user] document of
    its request, that is, the user's identity and the count the document
    held when the request was let through. *)
Record Timer := { timer_user : string; timer_count : Z }.

Record Limiter := {
  users : gmap string UserRecord;
  timers : list Timer
}.

Definition set_count (n : Z) (u : UserRecord) : UserRecord :=
  {| servers := servers u; active := active u; apiRequestCount := n |}.

(** [rateLimiter], for the user [uid] of the request; [maxRequests] is the
    number the setting [MAX_REQUESTS_PER_MINUTE] stands for, 100 when it is
    unset. The result is [None] when [next()] is called. A user that is not
    found makes [user.apiRequestCount] throw, and the [catch] calls
    [next()]. *)
Definition rateLimiter (maxRequests : Z) (uid : string) (s : Limiter)
    : option Response * Limiter :=
  match users s !! uid with
  | None => (None, s)
  | Some u =>
    let count := (apiRequestCount u + 1)%Z in
    let saved := <[uid := set_count count u]> (users s) in
    if (maxRequests <? count)%Z then
      (Some {| code := 429;
               body := Message false "Rate limit exceeded. Please try again later." |},
       {| users := saved; timers := timers s |})
    else
      (None,
       {| users := saved;
          timers := timers s ++ [{| timer_user := uid; timer_count := count |}] |})
  end.

(** The callback of the oldest pending timer runs: it lowers the count of
    the document it closed over and saves that path. *)
Definition fire (s : Limiter) : Limiter :=
  match timers s with
  | [] => s
  | t :: rest =>
    {| users := alter (set_count (timer_count t - 1)) (timer_user t) (users s);
       timers := rest |}
  end.

(** [n] requests of the same user, one after the other. *)
Fixpoint requests (maxRequests : Z) (uid : string) (n : nat) (s : Limiter) : Limiter :=
  match n with
  | O => s
  | S n => requests maxRequests uid n (rateLimiter maxRequests uid s).2
  end.

Fixpoint fire_all (n : nat) (s : Limiter) : Limiter :=
  match n with
  | O => s
  | S n => fire_all n (fire s)
  end.

(** The timers that [n] admitted requests leave, for a user whose count
    was [c]: they close over the counts [c + 1], .., [c + n]. *)
Fixpoint burst_timers (uid : string) (c : Z) (n : nat) : list Timer :=
  match n with
  | O => []
  | S n => {| timer_user := uid; timer_count := (c + 1)%Z |}
           :: burst_timers uid (c + 1) n
  end.

End Api.

(** ** Further sample data: the API *)

Module MoreApi.

Definition stranger : Routes.User := {| Routes.id := "u2"; Routes.role := "user" |}.

Definition admin : Routes.User := {| Routes.id := "root"; Routes.role := "admin" |}.

Definition users : gmap string Api.UserRecord :=
  {[ "u1" := {| Api.servers := ["srv0"; "srv1"]; Api.active := true;
                Api.apiRequestCount := 0 |} ]}.

(** A stand-in for [jsonwebtoken]: a token is the user's identity, and it
    verifies as an ordinary user when the secret is set. *)
Definition jwt_verify (token : string) (secret : option string) : Result Api.Token :=
  match secret with
  | Some _ => Ok {| Api.token_id := token; Api.token_role := "user" |}
  | None => Throw (TypeError "secretOrPublicKey must have a value")
  end.

(** An API world whose environment sets no [ENCRYPTION_KEY]. *)
Definition keyless_world : World :=
  {| store := {[ "srv1" := set_apiKeys ∅ (Sample.record "github" creating None) ]};
     runningServers := ∅; observers := ∅; next_process := 0; process_env := ∅ |}.

(** The filesystem server [srv1], running as process 0 with its handlers
    installed. *)
Definition live_world : World :=
  {| store := {[ "srv1" := Sample.record "filesystem" running (Some Sample.no_config) ]};
     runningServers := {[ "srv1" := 0%nat ]}; observers := {[ 0%nat := "srv1" ]};
     next_process := 1; process_env := ∅ |}.

(** U+00A0 (no-break space) and U+3000 (ideographic space) followed by a
    tab: strings that [trim] empties. *)
Definition no_break_space : string :=
  String (ascii_of_nat 194) (String (ascii_of_nat 160) EmptyString).

Definition wide_blank : string :=
  String (ascii_of_nat 227) (String (ascii_of_nat 128) (String (ascii_of_nat 128)
    (String (ascii_of_nat 9) EmptyString))).

End MoreApi.
(** ** The cipher of the API: the [crypto-js] package

    [part_001] binds [crypto] to the [crypto-js] package, which is not part
    of the repository. Its [AES] helper is embedded here from the
    algorithms it implements: a key and an initialisation vector derived
    from the passphrase and an 8-byte salt with MD5 (OpenSSL's
    [EVP_BytesToKey], one iteration), AES-256 in CBC mode with PKCS#7
    padding, and the OpenSSL container ["Salted__"], salt, ciphertext, in
    Base64. A byte is an [ascii]; the first component of [Ascii] is the
    least significant bit. *)

Module CryptoJS.

(** *** Bytes *)

Definition zero : ascii := Ascii false false false false false false false false.

Definition byte (n : N) : ascii := ascii_of_N n.

Definition bxor (a b : ascii) : ascii :=
  match a, b with
  | Ascii a0 a1 a2 a3 a4 a5 a6 a7, Ascii b0 b1 b2 b3 b4 b5 b6 b7 =>
    Ascii (xorb a0 b0) (xorb a1 b1) (xorb a2 b2) (xorb a3 b3)
          (xorb a4 b4) (xorb a5 b5) (xorb a6 b6) (xorb a7 b7)
  end.

(** *** MD5 *)

Module MD5.

Local Open Scope N_scope.

Definition w32 (n : N) : N := N.land n 0xffffffff.

Definition add32 (a b : N) : N := w32 (a + b).

Definition rotl32 (x s : N) : N :=
  w32 (N.lor (N.shiftl x s) (N.shiftr x (32 - s))).

Definition not32 (x : N) : N := N.lxor x 0xffffffff.

(** [floor(2^32 * abs(sin(i + 1)))] *)
Definition T : list N :=
  [ 0xd76aa478; 0xe8c7b756; 0x242070db; 0xc1bdceee;
    0xf57c0faf; 0x4787c62a; 0xa8304613; 0xfd469501;
    0x698098d8; 0x8b44f7af; 0xffff5bb1; 0x895cd7be;
    0x6b901122; 0xfd987193; 0xa679438e; 0x49b40821;
    0xf61e2562; 0xc040b340; 0x265e5a51; 0xe9b6c7aa;
    0xd62f105d; 0x02441453; 0xd8a1e681; 0xe7d3fbc8;
    0x21e1cde6; 0xc33707d6; 0xf4d50d87; 0x455a14ed;
    0xa9e3e905; 0xfcefa3f8; 0x676f02d9; 0x8d2a4c8a;
    0xfffa3942; 0x8771f681; 0x6d9d6122; 0xfde5380c;
    0xa4beea44; 0x4bdecfa9; 0xf6bb4b60; 0xbebfbc70;
    0x289b7ec6; 0xeaa127fa; 0xd4ef3085; 0x04881d05;
    0xd9d4d039; 0xe6db99e5; 0x1fa27cf8; 0xc4ac5665;
    0xf4292244; 0x432aff97; 0xab9423a7; 0xfc93a039;
    0x655b59c3; 0x8f0ccc92; 0xffeff47d; 0x85845dd1;
    0x6fa87e4f; 0xfe2ce6e0; 0xa3014314; 0x4e0811a1;
    0xf7537e82; 0xbd3af235; 0x2ad7d2bb; 0xeb86d391 ]%N.

Definition shifts : list N :=
  [ 7; 12; 17; 22; 7; 12; 17; 22; 7; 12; 17; 22; 7; 12; 17; 22;
    5; 9; 14; 20; 5; 9; 14; 20; 5; 9; 14; 20; 5; 9; 14; 20;
    4; 11; 16; 23; 4; 11; 16; 23; 4; 11; 16; 23; 4; 11; 16; 23;
    6; 10; 15; 21; 6; 10; 15; 21; 6; 10; 15; 21; 6; 10; 15; 21 ]%N.

Record State := { A : N; B : N; C : N; D : N }.

Definition initial : State :=
  {| A := 0x67452301; B := 0xefcdab89; C := 0x98badcfe; D := 0x10325476 |}%N.

(** One of the 64 operations, on the block [M] of 16 words. *)
Definition operation (M : list N) (s : State) (i : N) : State :=
  let '(f, g) :=
    if (i <? 16)%N then
      (N.lor (N.land (B s) (C s)) (N.land (not32 (B s)) (D s)), i)
    else if (i <? 32)%N then
      (N.lor (N.land (D s) (B s)) (N.land (not32 (D s)) (C s)), (5 * i + 1) mod 16)
    else if (i <? 48)%N then
      (N.lxor (B s) (N.lxor (C s) (D s)), (3 * i + 5) mod 16)
    else
      (N.lxor (C s) (N.lor (B s) (not32 (D s))), (7 * i) mod 16) in
  let sum := add32 (add32 (add32 f (A s)) (nth (N.to_nat i) T 0)) (nth (N.to_nat g) M 0) in
  {| A := D s; B := add32 (B s) (rotl32 sum (nth (N.to_nat i) shifts 0));
     C := B s; D := C s |}.

Definition process_block (s : State) (M : list N) : State :=
  let s' := foldl (operation M) s (N.of_nat <$> seq 0%nat 64%nat) in
  {| A := add32 (A s) (A s'); B := add32 (B s) (B s');
     C := add32 (C s) (C s'); D := add32 (D s) (D s') |}.

(** A word from four bytes, and back, least significant byte first. *)
Definition word_le (b0 b1 b2 b3 : ascii) : N :=
  (N_of_ascii b0 + 256 * (N_of_ascii b1 + 256 * (N_of_ascii b2 + 256 * N_of_ascii b3)))%N.

Definition bytes_le (n : N) : list ascii :=
  [ byte (n mod 256); byte ((n / 256) mod 256);
    byte ((n / 65536) mod 256); byte ((n / 16777216) mod 256) ]%N.

Fixpoint words_le (l : list ascii) : list N :=
  match l with
  | b0 :: b1 :: b2 :: b3 :: rest => word_le b0 b1 b2 b3 :: words_le rest
  | _ => []
  end.

(** The blocks of 16 words of a padded message. *)
Fixpoint blocks_of (n : nat) (ws : list N) : list (list N) :=
  match n with
  | O => []
  | S n' => take 16%nat ws :: blocks_of n' (drop 16%nat ws)
  end.

(** The message followed by the byte 80, zero bytes up to 56 modulo 64, and
    its length in bits on 64 bits. *)
Definition padded (m : list ascii) : list ascii :=
  let len := length m in
  let zeros := ((119 - len mod 64) mod 64)%nat in
  let bits := 8 * N.of_nat len in
  m ++ [byte 128] ++ replicate zeros zero
    ++ bytes_le (bits mod 4294967296) ++ bytes_le ((bits / 4294967296) mod 4294967296).

Definition hash (m : list ascii) : list ascii :=
  let p := padded m in
  let s := foldl process_block initial (blocks_of (length p / 64)%nat (words_le p)) in
  bytes_le (A s) ++ bytes_le (B s) ++ bytes_le (C s) ++ bytes_le (D s).

End MD5.

(** *** AES-256 *)

Module AES.

(** Multiplication by [x] in GF(2^8), modulo [x^8 + x^4 + x^3 + x + 1]. *)
Definition xtime (a : ascii) : ascii :=
  match a with
  | Ascii b0 b1 b2 b3 b4 b5 b6 b7 =>
    Ascii b7 (xorb b0 b7) b1 (xorb b2 b7) (xorb b3 b7) b4 b5 b6
  end.

Definition scale (b : bool) (a : ascii) : ascii := if b then a else zero.

(** The product of two elements of the field. *)
Definition gmul (a b : ascii) : ascii :=
  match b with
  | Ascii b0 b1 b2 b3 b4 b5 b6 b7 =>
    let a1 := xtime a in let a2 := xtime a1 in let a3 := xtime a2 in
    let a4 := xtime a3 in let a5 := xtime a4 in let a6 := xtime a5 in
    let a7 := xtime a6 in
    bxor (scale b0 a) (bxor (scale b1 a1) (bxor (scale b2 a2) (bxor (scale b3 a3)
      (bxor (scale b4 a4) (bxor (scale b5 a5) (bxor (scale b6 a6) (scale b7 a7)))))))
  end.

(** The inverse in the field, [a^254]; zero is sent to zero. *)
Definition inverse (a : ascii) : ascii :=
  let a2 := gmul a a in let a4 := gmul a2 a2 in let a8 := gmul a4 a4 in
  let a16 := gmul a8 a8 in let a32 := gmul a16 a16 in let a64 := gmul a32 a32 in
  let a128 := gmul a64 a64 in
  gmul a128 (gmul a64 (gmul a32 (gmul a16 (gmul a8 (gmul a4 a2))))).

Definition rotl1 (a : ascii) : ascii :=
  match a with
  | Ascii b0 b1 b2 b3 b4 b5 b6 b7 => Ascii b7 b0 b1 b2 b3 b4 b5 b6
  end.

Definition sbox (a : ascii) : ascii :=
  let x := inverse a in
  let x1 := rotl1 x in let x2 := rotl1 x1 in let x3 := rotl1 x2 in let x4 := rotl1 x3 in
  bxor x (bxor x1 (bxor x2 (bxor x3 (bxor x4 (byte 99))))).

Definition inv_sbox (a : ascii) : ascii :=
  let a1 := rotl1 a in let a3 := rotl1 (rotl1 a1) in let a6 := rotl1 (rotl1 (rotl1 a3)) in
  inverse (bxor a1 (bxor a3 (bxor a6 (byte 5)))).

(** A column of the state, top row first, and the state, left column
    first. *)
Definition Column : Type := ascii * ascii * ascii * ascii.
Definition Block : Type := Column * Column * Column * Column.

Definition map_column (f : ascii → ascii) (c : Column) : Column :=
  let '(r0, r1, r2, r3) := c in (f r0, f r1, f r2, f r3).

Definition xor_column (c d : Column) : Column :=
  let '(c0, c1, c2, c3) := c in
  let '(d0, d1, d2, d3) := d in
  (bxor c0 d0, bxor c1 d1, bxor c2 d2, bxor c3 d3).

Definition map_block (f : Column → Column) (s : Block) : Block :=
  let '(c0, c1, c2, c3) := s in (f c0, f c1, f c2, f c3).

Definition xor_block (s k : Block) : Block :=
  let '(s0, s1, s2, s3) := s in
  let '(k0, k1, k2, k3) := k in
  (xor_column s0 k0, xor_column s1 k1, xor_column s2 k2, xor_column s3 k3).

Definition sub_bytes : Block → Block := map_block (map_column sbox).
Definition inv_sub_bytes : Block → Block := map_block (map_column inv_sbox).

Definition shift_rows (s : Block) : Block :=
  let '((a0, a1, a2, a3), (b0, b1, b2, b3), (c0, c1, c2, c3), (d0, d1, d2, d3)) := s in
  ((a0, b1, c2, d3), (b0, c1, d2, a3), (c0, d1, a2, b3), (d0, a1, b2, c3)).

Definition inv_shift_rows (s : Block) : Block :=
  let '((a0, a1, a2, a3), (b0, b1, b2, b3), (c0, c1, c2, c3), (d0, d1, d2, d3)) := s in
  ((a0, d1, c2, b3), (b0, a1, d2, c3), (c0, b1, a2, d3), (d0, c1, b2, a3)).

Definition m2 (a : ascii) : ascii := xtime a.
Definition m3 (a : ascii) : ascii := bxor (xtime a) a.
Definition m9 (a : ascii) : ascii := bxor (xtime (xtime (xtime a))) a.
Definition m11 (a : ascii) : ascii :=
  bxor (xtime (xtime (xtime a))) (bxor (xtime a) a).
Definition m13 (a : ascii) : ascii :=
  bxor (xtime (xtime (xtime a))) (bxor (xtime (xtime a)) a).
Definition m14 (a : ascii) : ascii :=
  bxor (xtime (xtime (xtime a))) (bxor (xtime (xtime a)) (xtime a)).

Definition mix_column (c : Column) : Column :=
  let '(a, b, c, d) := c in
  (bxor (m2 a) (bxor (m3 b) (bxor c d)),
   bxor a (bxor (m2 b) (bxor (m3 c) d)),
   bxor a (bxor b (bxor (m2 c) (m3 d))),
   bxor (m3 a) (bxor b (bxor c (m2 d)))).

Definition inv_mix_column (c : Column) : Column :=
  let '(a, b, c, d) := c in
  (bxor (m14 a) (bxor (m11 b) (bxor (m13 c) (m9 d))),
   bxor (m9 a) (bxor (m14 b) (bxor (m11 c) (m13 d))),
   bxor (m13 a) (bxor (m9 b) (bxor (m14 c) (m11 d))),
   bxor (m11 a) (bxor (m13 b) (bxor (m9 c) (m14 d)))).

Definition mix_columns : Block → Block := map_block mix_column.
Definition inv_mix_columns : Block → Block := map_block inv_mix_column.

(** The key schedule of a key of eight words: sixty words, of which word
    [i] is word [i - 8] combined with a function of word [i - 1]. The list
    is kept latest word first while it grows. *)
Definition rot_word (c : Column) : Column :=
  let '(a, b, c, d) := c in (b, c, d, a).

Definition schedule_step (i : nat) (rcon : ascii) (prev : Column) : Column :=
  if (i mod 8 =? 0)%nat then
    xor_column (map_column sbox (rot_word prev)) (rcon, zero, zero, zero)
  else if (i mod 8 =? 4)%nat then map_column sbox prev
  else prev.

Fixpoint expand (n : nat) (i : nat) (rcon : ascii) (ws : list Column) : list Column :=
  match n with
  | O => ws
  | S n' =>
    match ws with
    | w1 :: _ :: _ :: _ :: _ :: _ :: _ :: w8 :: _ =>
      expand n' (S i) (if (i mod 8 =? 0)%nat then xtime rcon else rcon)
        (xor_column w8 (schedule_step i rcon w1) :: ws)
    | _ => ws
    end
  end.

Fixpoint round_keys (ws : list Column) : list Block :=
  match ws with
  | c0 :: c1 :: c2 :: c3 :: rest => (c0, c1, c2, c3) :: round_keys rest
  | _ => []
  end.

(** The fifteen round keys of a 32-byte key. *)
Definition key_schedule (k : Block * Block) : list Block :=
  let '((k0, k1, k2, k3), (k4, k5, k6, k7)) := k in
  round_keys (rev (expand 52 8 (byte 1) [k7; k6; k5; k4; k3; k2; k1; k0])).

Definition round (s k : Block) : Block :=
  xor_block (mix_columns (shift_rows (sub_bytes s))) k.

Definition inv_round (k s : Block) : Block :=
  inv_sub_bytes (inv_shift_rows (inv_mix_columns (xor_block s k))).

Definition final_round (s k : Block) : Block :=
  xor_block (shift_rows (sub_bytes s)) k.

Definition inv_final_round (k s : Block) : Block :=
  inv_sub_bytes (inv_shift_rows (xor_block s k)).

(** The rounds after the first key has been added: every key but the last
    closes a full round, the last one the final round; and their inverse,
    the keys being taken last first. *)
Fixpoint rounds (s : Block) (ks : list Block) : Block :=
  match ks with
  | [] => s
  | k :: rest =>
    match rest with
    | [] => final_round s k
    | _ :: _ => rounds (round s k) rest
    end
  end.

Fixpoint inv_rounds (ks : list Block) (s : Block) : Block :=
  match ks with
  | [] => s
  | k :: rest =>
    match rest with
    | [] => inv_final_round k s
    | _ :: _ => inv_round k (inv_rounds rest s)
    end
  end.

(** The cipher and its inverse on one block. *)
Definition encrypt_block (ks : list Block) (s : Block) : Block :=
  match ks with
  | [] => s
  | first :: rest => rounds (xor_block s first) rest
  end.

Definition decrypt_block (ks : list Block) (s : Block) : Block :=
  match ks with
  | [] => s
  | first :: rest => xor_block (inv_rounds rest s) first
  end.

End AES.

(** *** Byte sequences as blocks: CBC and PKCS#7 *)

Definition bytes_of_column (c : AES.Column) : list ascii :=
  let '(r0, r1, r2, r3) := c in [r0; r1; r2; r3].

Definition bytes_of_block (s : AES.Block) : list ascii :=
  let '(c0, c1, c2, c3) := s in
  bytes_of_column c0 ++ bytes_of_column c1 ++ bytes_of_column c2 ++ bytes_of_column c3.

(** The sixteen bytes at the head of a sequence; a word array reads a byte
    it does not hold as zero. *)
Definition block_at (l : list ascii) : AES.Block :=
  let b i := nth i l zero in
  ((b 0, b 1, b 2, b 3), (b 4, b 5, b 6, b 7),
   (b 8, b 9, b 10, b 11), (b 12, b 13, b 14, b 15))%nat.

Fixpoint blocks (n : nat) (l : list ascii) : list AES.Block :=
  match n with
  | O => []
  | S n' => block_at l :: blocks n' (drop 16 l)
  end.

Definition flat (bs : list AES.Block) : list ascii := concat (bytes_of_block <$> bs).

(** [CBC.Encryptor.processBlock] and [CBC.Decryptor.processBlock], block
    after block; [prev] is the initialisation vector, then the previous
    block of ciphertext. *)
Fixpoint cbc_encrypt (ks : list AES.Block) (prev : AES.Block) (ps : list AES.Block)
    : list AES.Block :=
  match ps with
  | [] => []
  | p :: rest =>
    let c := AES.encrypt_block ks (AES.xor_block p prev) in
    c :: cbc_encrypt ks c rest
  end.

Fixpoint cbc_decrypt (ks : list AES.Block) (prev : AES.Block) (cs : list AES.Block)
    : list AES.Block :=
  match cs with
  | [] => []
  | c :: rest => AES.xor_block (AES.decrypt_block ks c) prev :: cbc_decrypt ks c rest
  end.

(** [Pkcs7.pad]: between one and sixteen bytes, each holding their
    number. *)
Definition pkcs7_pad (l : list ascii) : list ascii :=
  let n := (16 - length l mod 16)%nat in
  l ++ replicate n (ascii_of_nat n).

(** [Pkcs7.unpad]: the last byte is taken as the number of padding bytes
    and that many bytes are dropped, without a look at them; a count beyond
    the length leaves no byte. *)
Definition pkcs7_unpad (l : list ascii) : list ascii :=
  take (length l - nat_of_ascii (List.last l zero)) l.

(** *** Base64 *)

Module Base64.

(** A group of six bits is held in the low bits of a byte. *)
Definition sextet_char (s : ascii) : ascii :=
  let n := N_of_ascii s in
  if (n <? 26)%N then byte (65 + n)
  else if (n <? 52)%N then byte (71 + n)
  else if (n <? 62)%N then byte (n - 4)
  else if (n =? 62)%N then "+"%char
  else "/"%char.

(** [reverseMap[c]], read as zero where it is undefined. *)
Definition char_sextet (c : ascii) : ascii :=
  let n := N_of_ascii c in
  if (65 <=? n)%N && (n <=? 90)%N then byte (n - 65)
  else if (97 <=? n)%N && (n <=? 122)%N then byte (n - 71)
  else if (48 <=? n)%N && (n <=? 57)%N then byte (n + 4)
  else if (n =? 43)%N then byte 62
  else if (n =? 47)%N then byte 63
  else zero.

(** The four groups of three bytes. *)
Definition group0 (x : ascii) : ascii :=
  match x with
  | Ascii _ _ x2 x3 x4 x5 x6 x7 => Ascii x2 x3 x4 x5 x6 x7 false false
  end.

Definition group1 (x y : ascii) : ascii :=
  match x, y with
  | Ascii x0 x1 _ _ _ _ _ _, Ascii _ _ _ _ y4 y5 y6 y7 =>
    Ascii y4 y5 y6 y7 x0 x1 false false
  end.

Definition group2 (y z : ascii) : ascii :=
  match y, z with
  | Ascii y0 y1 y2 y3 _ _ _ _, Ascii _ _ _ _ _ _ z6 z7 =>
    Ascii z6 z7 y0 y1 y2 y3 false false
  end.

Definition group3 (z : ascii) : ascii :=
  match z with
  | Ascii z0 z1 z2 z3 z4 z5 _ _ => Ascii z0 z1 z2 z3 z4 z5 false false
  end.

(** [Base64.stringify] *)
Fixpoint stringify (l : list ascii) : list ascii :=
  match l with
  | [] => []
  | x :: l1 =>
    match l1 with
    | [] => [sextet_char (group0 x); sextet_char (group1 x zero); "="; "="]%char
    | y :: l2 =>
      match l2 with
      | [] => [sextet_char (group0 x); sextet_char (group1 x y);
               sextet_char (group2 y zero); "="%char]
      | z :: rest =>
        sextet_char (group0 x) :: sextet_char (group1 x y)
          :: sextet_char (group2 y z) :: sextet_char (group3 z) :: stringify rest
      end
    end
  end.

(** The three bytes that the loop of [Base64.parse] builds from the
    characters at [i - 1] and [i], for [i % 4] equal to 1, 2 and 3: the low
    eight bits of [(u << 2 * (i % 4)) | (v >>> (6 - 2 * (i % 4)))]. *)
Definition join1 (u v : ascii) : ascii :=
  match u, v with
  | Ascii u0 u1 u2 u3 u4 u5 _ _, Ascii _ _ _ _ v4 v5 _ _ =>
    Ascii v4 v5 u0 u1 u2 u3 u4 u5
  end.

Definition join2 (u v : ascii) : ascii :=
  match u, v with
  | Ascii u0 u1 u2 u3 _ _ _ _, Ascii _ _ v2 v3 v4 v5 _ _ =>
    Ascii v2 v3 v4 v5 u0 u1 u2 u3
  end.

Definition join3 (u v : ascii) : ascii :=
  match u, v with
  | Ascii u0 u1 _ _ _ _ _ _, Ascii v0 v1 v2 v3 v4 v5 _ _ =>
    Ascii v0 v1 v2 v3 v4 v5 u0 u1
  end.

(** The string up to its first padding character. *)
Fixpoint before_padding (l : list ascii) : list ascii :=
  match l with
  | [] => []
  | c :: rest => if Ascii.eqb c "=" then [] else c :: before_padding rest
  end.

(** The value of [reverseMap] at each code unit of the string. A string is
    held in its UTF-8 form: a character beyond ASCII is one code unit, or
    two when it lies beyond U+FFFF, and none of them is in the map.
    [pending] counts the bytes still to come of the character being
    read. *)
Fixpoint units (pending : nat) (l : list ascii) : list ascii :=
  match l with
  | [] => []
  | c :: rest =>
    let n := N_of_ascii c in
    if (n <? 128)%N then char_sextet c :: units 0 rest
    else if (n <? 192)%N then
      match pending with
      | S p => units p rest
      | O => zero :: units 0 rest
      end
    else if (n <? 224)%N then zero :: units 1 rest
    else if (n <? 240)%N then zero :: units 2 rest
    else zero :: zero :: units 3 rest
  end.

(** The loop of [parseLoop] over the code units, four at a time. *)
Fixpoint parse_loop (us : list ascii) : list ascii :=
  match us with
  | [] => []
  | u0 :: us1 =>
    match us1 with
    | [] => []
    | u1 :: us2 =>
      match us2 with
      | [] => [join1 u0 u1]
      | u2 :: us3 =>
        match us3 with
        | [] => [join1 u0 u1; join2 u1 u2]
        | u3 :: rest => join1 u0 u1 :: join2 u1 u2 :: join3 u2 u3 :: parse_loop rest
        end
      end
    end
  end.

(** [Base64.parse] *)
Definition parse (l : list ascii) : list ascii :=
  parse_loop (units 0 (before_padding l)).

End Base64.

(** *** UTF-8 *)

Module Utf8.

Definition between (lo hi : N) (c : ascii) : bool :=
  (lo <=? N_of_ascii c)%N && (N_of_ascii c <=? hi)%N.

Definition continuation : ascii → bool := between 128 191.

(** The byte sequences that are the UTF-8 form of a string. *)
Fixpoint well_formed (l : list ascii) : bool :=
  match l with
  | [] => true
  | c0 :: r0 =>
    if between 0 127 c0 then well_formed r0
    else
      match r0 with
      | [] => false
      | c1 :: r1 =>
        if between 194 223 c0 then continuation c1 && well_formed r1
        else
          match r1 with
          | [] => false
          | c2 :: r2 =>
            if between 224 224 c0 then
              between 160 191 c1 && continuation c2 && well_formed r2
            else if between 225 236 c0 || between 238 239 c0 then
              continuation c1 && continuation c2 && well_formed r2
            else if between 237 237 c0 then
              between 128 159 c1 && continuation c2 && well_formed r2
            else
              match r2 with
              | [] => false
              | c3 :: r3 =>
                if between 240 240 c0 then
                  between 144 191 c1 && continuation c2 && continuation c3
                  && well_formed r3
                else if between 241 243 c0 then
                  continuation c1 && continuation c2 && continuation c3
                  && well_formed r3
                else if between 244 244 c0 then
                  between 128 143 c1 && continuation c2 && continuation c3
                  && well_formed r3
                else false
              end
          end
      end
  end.

(** [Utf8.parse]: the bytes of the string. *)
Definition parse (s : string) : list ascii := list_ascii_of_string s.

(** [Utf8.stringify]: [decodeURIComponent(escape(..))], which throws on
    bytes that are not the UTF-8 form of a string. *)
Definition stringify (l : list ascii) : Result string :=
  if well_formed l then Ok (string_of_list_ascii l)
  else Throw (CipherError "Malformed UTF-8 data").

End Utf8.

(** *** The password-based cipher *)

(** The salt: [WordArray.random(64 / 8)], two words. *)
Definition Salt : Type := AES.Column * AES.Column.

Definition salt_bytes (s : Salt) : list ascii :=
  bytes_of_column s.1 ++ bytes_of_column s.2.

(** [EvpKDF] with MD5 and one iteration, for a key of eight words and an
    initialisation vector of four: each digest continues the previous one
    over the password and the salt. *)
Definition kdf (password salt : list ascii) : (AES.Block * AES.Block) * AES.Block :=
  let d1 := MD5.hash (password ++ salt) in
  let d2 := MD5.hash (d1 ++ password ++ salt) in
  let d3 := MD5.hash (d2 ++ password ++ salt) in
  ((block_at d1, block_at d2), block_at d3).

(** The first two words of the OpenSSL container. *)
Definition magic : list ascii := list_ascii_of_string "Salted__".

(** [AES.encrypt(message, passphrase).toString()], for the salt that the
    call draws. *)
Definition AES_encrypt (salt : Salt) (message passphrase : string) : string :=
  let '(key, iv) := kdf (Utf8.parse passphrase) (salt_bytes salt) in
  let padded := pkcs7_pad (Utf8.parse message) in
  let ciphertext :=
    flat (cbc_encrypt (AES.key_schedule key) iv (blocks (length padded / 16) padded)) in
  string_of_list_ascii (Base64.stringify (magic ++ salt_bytes salt ++ ciphertext)).

(** The decryptor on the bytes of a ciphertext: every block is processed,
    the last one filled with zeros if it is short; the bytes past the
    length of the ciphertext are dropped, then the padding. *)
Definition decrypt_bytes (derived : (AES.Block * AES.Block) * AES.Block)
    (ciphertext : list ascii) : Result string :=
  let '(key, iv) := derived in
  let n := length ciphertext in
  let plaintext :=
    take n (flat (cbc_decrypt (AES.key_schedule key) iv
                    (blocks ((n + 15) / 16) ciphertext))) in
  Utf8.stringify (pkcs7_unpad plaintext).

(** [AES.decrypt(ciphertext, passphrase).toString(Utf8)]. A ciphertext
    that opens with ["Salted__"] carries its salt in the next eight bytes;
    with fewer than sixteen bytes in all, no block is processed. For any
    other ciphertext the key derivation draws a salt of its own,
    [random]. *)
Definition AES_decrypt (random : Salt) (ciphertext passphrase : string) : Result string :=
  let raw := Base64.parse (list_ascii_of_string ciphertext) in
  if bool_decide (take 8 raw = magic) then
    match drop 8 raw with
    | s0 :: s1 :: s2 :: s3 :: s4 :: s5 :: s6 :: s7 :: c =>
      decrypt_bytes (kdf (Utf8.parse passphrase) [s0; s1; s2; s3; s4; s5; s6; s7]) c
    | _ => Ok ""
    end
  else decrypt_bytes (kdf (Utf8.parse passphrase) (salt_bytes random)) raw.

(** [crypto.AES] of [crypto-js]. With an undefined key the cipher is
    created on the key itself, and reading [key.words] throws. [salt]
    gives the salt drawn when a message is encrypted. *)
Definition cipher (salt : string → Salt) (random : Salt) : Cipher :=
  {| encrypt message key :=
       match key with
       | Some passphrase => Ok (AES_encrypt (salt message) message passphrase)
       | None => Throw (TypeError "Cannot read properties of undefined (reading 'words')")
       end;
     decrypt ciphertext key :=
       match key with
       | Some passphrase => AES_decrypt random ciphertext passphrase
       | None => Throw (TypeError "Cannot read properties of undefined (reading 'words')")
       end |}.

End CryptoJS.

Arguments CryptoJS.AES_encrypt : simpl never.
Arguments CryptoJS.AES_decrypt : simpl never.

(** Sample data for the cipher: a salt, the cipher that draws it every
    time, and a API world per encryption key. *)
Module CodecSample.

Definition salt : CryptoJS.Salt := (("s", "a", "l", "t"), ("s", "a", "l", "t"))%char.

Definition cryptojs : Cipher := CryptoJS.cipher (λ _, salt) salt.

(** [crypto.AES.encrypt("secret", "k1").toString()] for that salt. *)
Definition stored : string := "U2FsdGVkX19zYWx0c2FsdHRv7Vg5wGJ4zuk0srjOM/U=".

End CodecSample.


(** * Properties *)

(** ** Registry and store bookkeeping *)

Lemma registry_has_Some (w : World) (serverId : string) (p : nat) :
  runningServers w !! serverId = Some p →
  bool_decide (is_Some (runningServers w !! serverId)) = true.
Proof. intros H. apply bool_decide_eq_true. rewrite H. eauto. Qed.

Lemma registry_has_None (w : World) (serverId : string) :
  runningServers w !! serverId = None →
  bool_decide (is_Some (runningServers w !! serverId)) = false.
Proof. intros H. apply bool_decide_eq_false. rewrite H. apply is_Some_None. Qed.

Ltac handler :=
  cbv [Manager.startServer Manager.stopServer Manager.getServerStatus
       Manager.on_exit Manager.on_error Manager.assign_status
       try_catch mbind M_bind bind mret M_ret ret throw findById save
       registry_has registry_get registry_set registry_delete ws_send emit kill].

(** ** Stop *)

(** What [stopServer] does to a server that is in the store and in the
    Registry. *)
Lemma stopServer_running (w : World) (serverId : string) (ws : nat)
    (server : ServerRecord) (p : nat) :
  store w !! serverId = Some server →
  runningServers w !! serverId = Some p →
  Manager.stopServer serverId ws w =
    (Ok tt,
     with_store (<[serverId := set_status stopped server]> (store w))
       (with_registry (delete serverId (runningServers w)) w),
     [EKill p; ERegistryDelete serverId; ESave serverId (set_status stopped server);
      ESend ws (Reply true "Server stopped successfully")]).
Proof.
  intros Hs Hr. handler.
  rewrite Hs, (registry_has_Some _ _ _ Hr), Hr. reflexivity.
Qed.

Lemma stopServer_not_running (w : World) (serverId : string) (ws : nat)
    (server : ServerRecord) :
  store w !! serverId = Some server →
  runningServers w !! serverId = None →
  Manager.stopServer serverId ws w =
    (Ok tt, w, [ESend ws (Reply true "Server is not running")]).
Proof.
  intros Hs Hr. handler.
  rewrite Hs, (registry_has_None _ _ Hr). reflexivity.
Qed.

(** C1, as stated, fails: stopping the running server [srv1] signals the
    process first, while its Registry entry is still present; the removal
    comes second. *)
Lemma C1_stop_order_counterexample :
  trace_of (Manager.stopServer "srv1" 0 Sample.running_world) !! 0%nat = Some (EKill 7) ∧
  ¬ removed_before_kill "srv1"
      (trace_of (Manager.stopServer "srv1" 0 Sample.running_world)).
Proof.
  split; [reflexivity |].
  intros H. destruct (H 0%nat 7%nat) as (j & Hj & _); [reflexivity | lia].
Qed.

(** C1 (amended): for a server that is in the store and has a live Registry
    entry, [stopServer] first signals termination to the stored handle, then
    removes the Registry entry, then persists [stopped], then answers; the
    entry is gone and the record is [stopped] afterwards. *)
Theorem C1_stop_order (w : World) (serverId : string) (ws : nat)
    (server : ServerRecord) (p : nat) :
  store w !! serverId = Some server →
  runningServers w !! serverId = Some p →
  let out := Manager.stopServer serverId ws w in
  trace_of out =
    [EKill p; ERegistryDelete serverId;
     ESave serverId (set_status stopped server);
     ESend ws (Reply true "Server stopped successfully")] ∧
  runningServers (world_of out) !! serverId = None ∧
  status <$> store (world_of out) !! serverId = Some stopped.
Proof.
  intros Hs Hr out. subst out.
  rewrite (stopServer_running _ _ _ _ _ Hs Hr).
  cbn [trace_of world_of fst snd]. split; [reflexivity |]. split.
  - cbn. apply lookup_delete_eq.
  - cbn. rewrite lookup_insert_eq. reflexivity.
Qed.

Lemma C1_stop_order_witness :
  trace_of (Manager.stopServer "srv1" 3 Sample.running_world) =
    [EKill 7; ERegistryDelete "srv1";
     ESave "srv1" (set_status stopped (Sample.record "filesystem" running (Some Sample.no_config)));
     ESend 3 (Reply true "Server stopped successfully")].
Proof.
  refine (proj1 (C1_stop_order Sample.running_world "srv1" 3
            (Sample.record "filesystem" running (Some Sample.no_config)) 7 _ _));
    reflexivity.
Defined.

(** ** Start *)

(** C3: when the server is in the store and already has a Registry entry,
    [startServer] answers success ("Server is already running"), spawns
    nothing, and leaves the Registry, the stored record and the rest of the
    world as they were. *)
Theorem C3_start_running_is_noop (w : World) (serverId : string) (ws : nat)
    (server : ServerRecord) (p : nat) :
  store w !! serverId = Some server →
  runningServers w !! serverId = Some p →
  Manager.startServer serverId ws w =
    (Ok tt, w, [ESend ws (Reply true "Server is already running")]).
Proof.
  intros Hs Hr. handler.
  rewrite Hs, (registry_has_Some _ _ _ Hr). reflexivity.
Qed.

Lemma C3_start_running_is_noop_witness :
  Manager.startServer "srv1" 0 Sample.running_world =
    (Ok tt, Sample.running_world, [ESend 0 (Reply true "Server is already running")]).
Proof.
  apply (C3_start_running_is_noop Sample.running_world "srv1" 0
           (Sample.record "filesystem" running (Some Sample.no_config)) 7);
    reflexivity.
Defined.

(** C4: for a server that is in the store and has no Registry entry,
    [stopServer] answers success and does nothing else: no termination
    signal, the world unchanged. Hence, whatever the first [stopServer] on a
    stored server met, a second one right after it only answers success. *)
Theorem C4_stop_absent_is_noop (w : World) (serverId : string) (ws : nat)
    (server : ServerRecord) :
  store w !! serverId = Some server →
  (runningServers w !! serverId = None →
   Manager.stopServer serverId ws w =
     (Ok tt, w, [ESend ws (Reply true "Server is not running")])) ∧
  (let w1 := world_of (Manager.stopServer serverId ws w) in
   Manager.stopServer serverId ws w1 =
     (Ok tt, w1, [ESend ws (Reply true "Server is not running")])).
Proof.
  intros Hs. split.
  - intros Hr. exact (stopServer_not_running _ _ _ _ Hs Hr).
  - destruct (runningServers w !! serverId) as [p|] eqn:Hr.
    + rewrite (stopServer_running _ _ _ _ _ Hs Hr). cbn [world_of fst snd].
      apply (stopServer_not_running _ _ _ (set_status stopped server)).
      * cbn. apply lookup_insert_eq.
      * cbn. apply lookup_delete_eq.
    + rewrite (stopServer_not_running _ _ _ _ Hs Hr). cbn [world_of fst snd].
      exact (stopServer_not_running _ _ _ _ Hs Hr).
Qed.

Lemma C4_stop_absent_is_noop_witness :
  Manager.stopServer "srv1" 0 Sample.stopped_world =
    (Ok tt, Sample.stopped_world, [ESend 0 (Reply true "Server is not running")]) ∧
  trace_of (Manager.stopServer "srv1" 0
              (world_of (Manager.stopServer "srv1" 0 Sample.running_world))) =
    [ESend 0 (Reply true "Server is not running")].
Proof.
  split.
  - apply (proj1 (C4_stop_absent_is_noop Sample.stopped_world "srv1" 0
             (Sample.record "filesystem" stopped (Some Sample.no_config)) eq_refl)).
    reflexivity.
  - rewrite (proj2 (C4_stop_absent_is_noop Sample.running_world "srv1" 0
             (Sample.record "filesystem" running (Some Sample.no_config)) eq_refl)).
    reflexivity.
Defined.

(** ** Status *)

(** C10: a status command, for an identity that is in the store or not,
    leaves the world as it was, Registry and stored records included; all it
    does is send one reply. *)
Theorem C10_status_is_read_only (w : World) (serverId : string) (ws : nat) :
  let out := Manager.getServerStatus serverId ws w in
  world_of out = w ∧
  runningServers (world_of out) = runningServers w ∧
  store (world_of out) = store w ∧
  ∃ r, trace_of out = [ESend ws r].
Proof.
  cbn zeta. handler.
  destruct (store w !! serverId); cbn; eauto 10.
Qed.

(** ** Launching *)

(** In the manager [getDecryptedApiKey] always returns the empty string:
    either the key is not set, or reading [crypto.AES] throws and the
    handler substitutes the empty string. *)
Lemma getDecryptedApiKey_empty (server : ServerRecord) (key : string) (w : World) :
  Manager.getDecryptedApiKey server key w = (Ok "", w, []).
Proof.
  unfold Manager.getDecryptedApiKey.
  destruct (apiKeys server) as [keys|]; [| reflexivity].
  destruct (keys !! key) as [value|]; [| reflexivity].
  destruct (decide (value = "")); reflexivity.
Qed.

Lemma decrypt_entries_pure (server : ServerRecord) (entries : list (string * string))
    (acc : gmap string string) (w : World) :
  ∃ m, Manager.decrypt_entries server entries acc w = (Ok m, w, []).
Proof.
  revert acc. induction entries as [| [key value] rest IH]; intros acc.
  - eexists. reflexivity.
  - cbn [Manager.decrypt_entries]. unfold mbind, M_bind, bind.
    rewrite getDecryptedApiKey_empty.
    destruct (IH (<[key := ""]> acc)) as [m Hm]. rewrite Hm. eauto.
Qed.

(** The three ways [launch] can end: it throws, having done nothing; it
    meets an unsupported type, having done nothing; it has spawned one
    process and installed its handlers. *)
Lemma launch_cases (serverId : string) (server : ServerRecord) (w : World) :
  (∃ e, Manager.launch serverId server w = (Throw e, w, [])) ∨
  Manager.launch serverId server w = (Ok None, w, []) ∨
  (∃ c argv, Manager.launch serverId server w =
     (Ok (Some (next_process w)), spawned serverId w, [ESpawn (next_process w) c argv])).
Proof.
  unfold Manager.launch.
  destruct (decide (type server = "brave-search")).
  { left. unfold Manager.startBraveSearchServer, mbind, M_bind, bind.
    rewrite getDecryptedApiKey_empty. cbn. eauto. }
  destruct (decide (type server = "github")).
  { left. unfold Manager.startGithubServer, mbind, M_bind, bind.
    rewrite getDecryptedApiKey_empty. cbn. eauto. }
  destruct (decide (type server = "filesystem")).
  { unfold Manager.startFilesystemServer, Manager.read_config, mbind, M_bind, bind.
    destruct (config server) as [cfg|]; cbn; [| eauto].
    right. right. eauto. }
  destruct (decide (type server = "custom")).
  { left. unfold Manager.startCustomServer, Manager.read_config,
      Manager.Object_entries, mbind, M_bind, bind.
    destruct (config server) as [cfg|]; cbn; [| eauto].
    destruct (apiKeys server) as [keys|]; cbn; [| eauto].
    destruct (decrypt_entries_pure server (map_to_list keys) ∅ w) as [m Hm].
    rewrite Hm. cbn. eauto. }
  right. left. reflexivity.
Qed.

(** C5, as stated, fails: the custom server [srv1] has no command in its
    configuration, launching it throws, and after [startServer] its record
    still says [creating]: [failed] was not persisted. *)
Lemma C5_launch_failure_counterexample :
  (∃ e, result_of (Manager.launch "srv1"
                     (Sample.record "custom" creating (Some Sample.no_config))
                     Sample.custom_world) = Throw e) ∧
  status <$> store (world_of (Manager.startServer "srv1" 0 Sample.custom_world)) !! "srv1"
    = Some creating ∧
  status <$> store (world_of (Manager.startServer "srv1" 0 Sample.custom_world)) !! "srv1"
    ≠ Some failed.
Proof.
  split; [eexists; reflexivity |]. split; [reflexivity | discriminate].
Qed.

(** C5 (amended): when the server is in the store, is not running, and
    launching its process throws, [startServer] answers
    [{success: false, message: "Failed to start server", error}] and
    changes nothing: the Registry is untouched, so there is no entry for the
    identity afterwards, and the stored record is as it was. *)
Theorem C5_launch_failure (w : World) (serverId : string) (ws : nat)
    (server : ServerRecord) (e : Exn) :
  store w !! serverId = Some server →
  runningServers w !! serverId = None →
  result_of (Manager.launch serverId server w) = Throw e →
  Manager.startServer serverId ws w =
    (Ok tt, w, [ESend ws (ReplyError "Failed to start server" (message_of e))]) ∧
  runningServers (world_of (Manager.startServer serverId ws w)) !! serverId = None ∧
  store (world_of (Manager.startServer serverId ws w)) !! serverId = Some server.
Proof.
  intros Hs Hr He.
  assert (Manager.startServer serverId ws w =
            (Ok tt, w, [ESend ws (ReplyError "Failed to start server" (message_of e))]))
    as Heq.
  { handler. rewrite Hs, (registry_has_None _ _ Hr).
    destruct (launch_cases serverId server w) as [[e' H] | [H | (c & argv & H)]];
      rewrite H in He |- *; cbn in He; [| discriminate | discriminate].
    injection He as ->. reflexivity. }
  rewrite Heq. cbn [world_of fst snd]. auto.
Qed.

Lemma C5_launch_failure_witness :
  ∃ error,
    Manager.startServer "srv1" 0 Sample.custom_world =
      (Ok tt, Sample.custom_world,
       [ESend 0 (ReplyError "Failed to start server" error)]).
Proof.
  eexists.
  refine (proj1 (C5_launch_failure Sample.custom_world "srv1" 0
            (Sample.record "custom" creating (Some Sample.no_config))
            (ReferenceError "Cannot access 'process' before initialization") _ _ _));
    reflexivity.
Defined.

(** ** The command channel *)

Ltac channel :=
  cbv [Manager.on_message Manager.JSON_parse Manager.read_data
       try_catch mbind M_bind bind mret M_ret ret throw ws_send emit].

Lemma on_message_bad (w : World) (ws : nat) (frame : Manager.Frame) (r : Response) :
  bad_frame frame r →
  Manager.on_message ws frame w = (Ok tt, w, [ESend ws r]).
Proof.
  intros [d (H1 & H2 & H3) | detail |]; channel; [| reflexivity | reflexivity].
  destruct (decide (Manager.data_command d = Some "start")); [done |].
  destruct (decide (Manager.data_command d = Some "stop")); [done |].
  destruct (decide (Manager.data_command d = Some "status")); [done |].
  reflexivity.
Qed.

Lemma on_message_status (w : World) (ws : nat) (serverId : string)
    (server : ServerRecord) :
  store w !! serverId = Some server →
  Manager.on_message ws
    (Manager.Decodes {| Manager.data_command := Some "status";
                        Manager.data_serverId := serverId |}) w =
  (Ok tt, w,
   [ESend ws
      (ReplyStatus
         (if bool_decide (is_Some (runningServers w !! serverId))
          then "running" else "stopped")
         {| info_id := serverId; info_name := name server;
            info_type := type server;
            info_requestCount := requestCount server;
            info_lastActivity := lastActivity server |})]).
Proof.
  intros Hs. channel. cbn [Manager.data_command Manager.data_serverId].
  destruct (decide (Some "status" = Some "start")); [discriminate |].
  destruct (decide (Some "status" = Some "stop")); [discriminate |].
  destruct (decide (Some "status" = Some "status")); [| congruence].
  handler. rewrite Hs. reflexivity.
Qed.

(** C8: a frame that decodes to a value whose command is none of start,
    stop, status is answered [{success: false, message: "Unknown command"}];
    a frame that does not decode is answered
    [{success: false, message: "Error processing command", error}] with the
    decoder's message (and so is the value [null], of which no command can
    be read). In each case that one reply is all the handler does: it does
    not close the connection, the world is unchanged, so any next frame on
    the connection is served as if the bad frame had not arrived, and a
    status command for a stored server then succeeds. *)
Theorem C8_bad_frame_keeps_connection (w : World) (ws : nat)
    (frame : Manager.Frame) (r : Response) :
  bad_frame frame r →
  let out := Manager.on_message ws frame w in
  out = (Ok tt, w, [ESend ws r]) ∧
  success_of r = false ∧
  (∀ c, EClose c ∉ trace_of out) ∧
  (∀ next, Manager.on_message ws next (world_of out) = Manager.on_message ws next w) ∧
  (∀ serverId server,
     store w !! serverId = Some server →
     ∃ reply,
       trace_of (Manager.on_message ws
                   (Manager.Decodes {| Manager.data_command := Some "status";
                                       Manager.data_serverId := serverId |})
                   (world_of out)) = [ESend ws reply] ∧
       success_of reply = true).
Proof.
  intros Hbad out. subst out. rewrite (on_message_bad w ws frame r Hbad).
  cbn [world_of trace_of fst snd]. split; [reflexivity |]. split.
  { destruct Hbad; reflexivity. }
  split.
  { intros c Hc. apply list_elem_of_singleton in Hc. discriminate. }
  split; [reflexivity |].
  intros serverId server Hs. rewrite (on_message_status w ws serverId server Hs).
  eexists. split; reflexivity.
Qed.

Lemma C8_bad_frame_keeps_connection_witness :
  Manager.on_message 4 (Manager.Undecodable "Unexpected token h in JSON at position 0")
    Sample.running_world =
    (Ok tt, Sample.running_world,
     [ESend 4 (ReplyError "Error processing command"
                 "Unexpected token h in JSON at position 0")]) ∧
  Manager.on_message 4
    (Manager.Decodes {| Manager.data_command := Some "restart";
                        Manager.data_serverId := "srv1" |})
    Sample.running_world =
    (Ok tt, Sample.running_world, [ESend 4 (Reply false "Unknown command")]).
Proof.
  pose proof (C8_bad_frame_keeps_connection Sample.running_world 4 _ _
                (bad_undecodable "Unexpected token h in JSON at position 0")) as H1.
  assert (unknown_command {| Manager.data_command := Some "restart";
                             Manager.data_serverId := "srv1" |}) as Hu.
  { repeat split; discriminate. }
  pose proof (C8_bad_frame_keeps_connection Sample.running_world 4 _ _
                (bad_unknown _ Hu)) as H2.
  cbv zeta in H1, H2. destruct H1 as [H1 _]. destruct H2 as [H2 _].
  split; [exact H1 | exact H2].
Defined.

(** ** The request router *)

Section RouterFacts.

Variable regex_test : string → option (string → bool).

Lemma resolved_in_store (req : Manager.McpRequest) (w : World)
    (id : string) (server : ServerRecord) :
  resolved regex_test req w = Resolves id server →
  store w !! id = Some server ∧
  ObjectId_cast (Manager.userId req) = Some (owner server) ∧
  ∃ matches, regex_test (Manager.req_serverId req) = Some matches ∧
             matches (endpoint server) = true.
Proof.
  unfold resolved. intros H.
  destruct (ObjectId_cast (Manager.userId req)) as [owner_id|]; [| discriminate].
  destruct (regex_test (Manager.req_serverId req)) as [matches|]; [| discriminate].
  destruct (List.find _ _) as [[id' server']|] eqn:Hfind; [| discriminate].
  injection H as -> ->.
  apply find_some in Hfind as [Hin Hf].
  apply list_elem_of_In, elem_of_map_to_list in Hin. cbn in Hf.
  apply andb_true_iff in Hf as [Ho Hm]. apply bool_decide_eq_true in Ho.
  subst owner_id. eauto.
Qed.

Lemma mcp_route_authenticated (req : Manager.McpRequest) (now : Z) (w : World)
    (key : string) :
  Manager.X_Server_Key req = Some key → key ≠ "" →
  Manager.mcp_route regex_test req now w = Manager.mcp_handler regex_test req now w.
Proof.
  intros Hk Hne. unfold Manager.mcp_route, Manager.verifyServerAuth.
  rewrite Hk. destruct (decide (key = "")); [done | reflexivity].
Qed.

Lemma mcp_handler_cases (req : Manager.McpRequest) (now : Z) (w : World) :
  Manager.mcp_handler regex_test req now w =
  match resolved regex_test req w with
  | QueryRejected =>
    (Ok {| Manager.code := 500;
           Manager.body := Manager.ErrorBody "Internal server error" |}, w, [])
  | NoRecord =>
    (Ok {| Manager.code := 404; Manager.body := Manager.ErrorBody "Server not found" |}, w, [])
  | Resolves id server =>
    if decide (status server ≠ running) then
      (Ok {| Manager.code := 503; Manager.body := Manager.ErrorBody "Server is not running" |}, w, [])
    else
      match runningServers w !! id with
      | None =>
        (Ok {| Manager.code := 503;
               Manager.body := Manager.ErrorBody "Server process not found" |}, w, [])
      | Some _ =>
        (Ok {| Manager.code := 200;
               Manager.body := Manager.ProcessedBody (name server)
                                 "Request processed successfully" |},
         with_store (<[id := accounted now server]> (store w)) w,
         [ESave id (accounted now server)])
      end
  end.
Proof.
  unfold Manager.mcp_handler, Manager.findOne, Manager.first_match, resolved,
    try_catch, mbind, M_bind, bind, throw.
  destruct (ObjectId_cast (Manager.userId req)) as [owner_id|]; [| reflexivity].
  destruct (regex_test (Manager.req_serverId req)) as [matches|]; [| reflexivity].
  destruct (List.find _ _) as [[id server]|]; [| reflexivity].
  destruct (decide (status server ≠ running)); [reflexivity |].
  cbn. destruct (runningServers w !! id); reflexivity.
Qed.

(** C9: a request that carries a server key is forwarded (answered 200)
    exactly when the record it resolves to has persisted status [running]
    and the Registry holds an entry for that record. When the query runs
    and no record resolves the answer is 404; when the status is not
    [running] or the Registry has no entry the answer is 503; in both cases
    nothing is saved. On the forwarded path the record is saved once, with
    [requestCount] one higher than it was (for a count in the range where
    JavaScript numbers are exact) and [lastActivity] equal to the current
    time, every other field and the Registry being as they were.
    A query that the database rejects is answered 500 and changes
    nothing. *)
Theorem C9_router_requires_liveness (req : Manager.McpRequest) (now : Z)
    (w : World) (key : string) :
  Manager.X_Server_Key req = Some key → key ≠ "" →
  let out := Manager.mcp_route regex_test req now w in
  (resolved regex_test req w = NoRecord →
   out = (Ok {| Manager.code := 404;
                Manager.body := Manager.ErrorBody "Server not found" |}, w, [])) ∧
  (∀ id server,
     resolved regex_test req w = Resolves id server →
     status server ≠ running ∨ runningServers w !! id = None →
     ∃ reason, out = (Ok {| Manager.code := 503;
                            Manager.body := Manager.ErrorBody reason |}, w, [])) ∧
  (∀ id server p,
     resolved regex_test req w = Resolves id server →
     status server = running →
     runningServers w !! id = Some p →
     ∃ saved w',
       out = (Ok {| Manager.code := 200;
                    Manager.body := Manager.ProcessedBody (name server)
                                      "Request processed successfully" |},
              w', [ESave id saved]) ∧
       store w' = <[id := saved]> (store w) ∧
       ((0 ≤ requestCount server < 2 ^ 53)%Z →
        requestCount saved = (requestCount server + 1)%Z) ∧
       lastActivity saved = now ∧
       (name saved, type saved, owner saved, status saved) =
         (name server, type server, owner server, running) ∧
       (serverKey saved, endpoint saved, apiKeys saved, config saved) =
         (serverKey server, endpoint server, apiKeys server, config server) ∧
       runningServers w' = runningServers w ∧
       observers w' = observers w ∧
       next_process w' = next_process w) ∧
  (∀ r,
     result_of out = Ok r → Manager.code r = 200%nat →
     ∃ id server p,
       resolved regex_test req w = Resolves id server ∧
       store w !! id = Some server ∧
       status server = running ∧
       runningServers w !! id = Some p) ∧
  (resolved regex_test req w = QueryRejected →
   out = (Ok {| Manager.code := 500;
                Manager.body := Manager.ErrorBody "Internal server error" |}, w, [])).
Proof.
  intros Hk Hne out. subst out.
  rewrite (mcp_route_authenticated req now w key Hk Hne), mcp_handler_cases.
  repeat split.
  - intros ->. reflexivity.
  - intros id server -> [Hst | Hreg].
    + destruct (decide (status server ≠ running)); [eauto | done].
    + destruct (decide (status server ≠ running)); [eauto |].
      rewrite Hreg. eauto.
  - intros id server p -> Hst Hreg.
    destruct (decide (status server ≠ running)); [done |].
    rewrite Hreg. eexists _, _. split; [reflexivity |].
    cbn. rewrite Hst. repeat split.
  - intros r Hr Hc.
    destruct (resolved regex_test req w) as [| |id server] eqn:Hres.
    + cbn in Hr. injection Hr as <-. discriminate.
    + cbn in Hr. injection Hr as <-. discriminate.
    + destruct (decide (status server ≠ running)) as [|Hrun].
      { cbn in Hr. injection Hr as <-. discriminate. }
      destruct (runningServers w !! id) as [p|] eqn:Hreg.
      * exists id, server, p. split; [reflexivity |].
        split; [apply (proj1 (resolved_in_store req w id server Hres)) |].
        split; [| assumption].
        destruct (decide (status server = running)); [assumption | contradiction].
      * cbn in Hr. injection Hr as <-. discriminate.
  - intros ->. reflexivity.
Qed.

End RouterFacts.

Lemma C9_router_requires_liveness_witness :
  let out := Manager.mcp_route Sample.regex_test Sample.request 1000 Sample.routed_world in
  Manager.code <$> (match result_of out with Ok r => Some r | Throw _ => None end)
    = Some 200%nat ∧
  requestCount <$> store (world_of out) !! "srv1" = Some 5%Z ∧
  lastActivity <$> store (world_of out) !! "srv1" = Some 1000%Z.
Proof.
  assert (resolved Sample.regex_test Sample.request Sample.routed_world =
            Resolves "srv1" Sample.routed_record) as Hres by reflexivity.
  pose proof (C9_router_requires_liveness Sample.regex_test Sample.request 1000
                Sample.routed_world "k1" eq_refl ltac:(discriminate)) as H.
  cbv zeta in H. destruct H as (_ & _ & H & _).
  specialize (H _ _ 7%nat Hres eq_refl eq_refl).
  destruct H as (saved & w' & Hout & Hstore & Hcount & Hlast & _).
  cbv zeta. rewrite Hout. unfold world_of, result_of. cbn [fst snd].
  rewrite Hstore, lookup_insert_eq. cbn. rewrite Hcount, Hlast; [| cbn; lia].
  repeat split.
Defined.

(** The cast of an identity: 24 hexadecimal digits are taken in lower
    case, 12 bytes are taken as the identity's bytes, anything else is
    refused. *)
Lemma ObjectId_cast_examples :
  ObjectId_cast "64B7F0C2A1D3E4F5A6B7C8D9" = Some "64b7f0c2a1d3e4f5a6b7c8d9" ∧
  ObjectId_cast "abcdefghijkl" = Some "6162636465666768696a6b6c" ∧
  ObjectId_cast "u1" = None ∧
  ObjectId_cast "64b7f0c2a1d3e4f5a6b7c8dz" = None.
Proof. repeat split; reflexivity. Qed.

(** A request whose owner is not the string of an ObjectId, and one whose
    pattern does not compile, are answered 500 and change nothing. *)
Lemma mcp_route_rejected_examples :
  Manager.mcp_route Sample.regex_test
    {| Manager.X_Server_Key := Some "k1"; Manager.userId := "u1";
       Manager.req_serverId := "e1" |} 1000 Sample.routed_world =
    (Ok {| Manager.code := 500;
           Manager.body := Manager.ErrorBody "Internal server error" |},
     Sample.routed_world, []) ∧
  Manager.mcp_route Sample.strict_regex_test
    {| Manager.X_Server_Key := Some "k1"; Manager.userId := Sample.owner_id;
       Manager.req_serverId := "(e1" |} 1000 Sample.routed_world =
    (Ok {| Manager.code := 500;
           Manager.body := Manager.ErrorBody "Internal server error" |},
     Sample.routed_world, []).
Proof. split; reflexivity. Qed.

(** ** Termination observers *)

(** What an observer does when the record it was installed for is in the
    store: it persists the status, then removes the Registry entry. *)
Lemma on_exit_present (w : World) (serverId : string) (code : option Z)
    (server : ServerRecord) :
  store w !! serverId = Some server →
  Manager.on_exit serverId code w =
    (let s := if decide (code = Some 0%Z) then stopped else failed in
     (Ok tt,
      with_registry (delete serverId (runningServers w))
        (with_store (<[serverId := set_status s server]> (store w)) w),
      [ESave serverId (set_status s server); ERegistryDelete serverId])).
Proof. intros Hs. handler. rewrite Hs. reflexivity. Qed.

Lemma on_error_present (w : World) (serverId : string) (error : string)
    (server : ServerRecord) :
  store w !! serverId = Some server →
  Manager.on_error serverId error w =
    (Ok tt,
     with_registry (delete serverId (runningServers w))
       (with_store (<[serverId := set_status failed server]> (store w)) w),
     [ESave serverId (set_status failed server); ERegistryDelete serverId]).
Proof. intros Hs. handler. rewrite Hs. reflexivity. Qed.

(** When the record is gone, assigning to [server.status] throws and the
    handler's [catch] swallows it: nothing is done. *)
Lemma on_exit_absent (w : World) (serverId : string) (code : option Z) :
  store w !! serverId = None →
  Manager.on_exit serverId code w = (Ok tt, w, []).
Proof. intros Hs. handler. rewrite Hs. reflexivity. Qed.

Lemma on_error_absent (w : World) (serverId : string) (error : string) :
  store w !! serverId = None →
  Manager.on_error serverId error w = (Ok tt, w, []).
Proof. intros Hs. handler. rewrite Hs. reflexivity. Qed.

Lemma getServerStatus_world (w : World) (serverId : string) (ws : nat) :
  world_of (Manager.getServerStatus serverId ws w) = w.
Proof. handler. destruct (store w !! serverId); reflexivity. Qed.

(** C2: what the exit and error events of a child process [p] do, [p]
    carrying the termination handlers installed at spawn time for
    [serverId]. While the record of [serverId] is in the store, the exit
    event with code [code] persists [stopped] when the code is 0 and
    [failed] otherwise, the error event persists [failed], and either
    leaves no Registry entry for [serverId]. When the record has left the
    store while the process ran, the handler reads [null], the assignment
    to [server.status] throws inside the [try] and the [catch] only logs:
    nothing is persisted and, [runningServers.delete] being the last
    statement of the [try], a Registry entry of [serverId] stays where it
    was. *)
Theorem C2_observer_skips_removal (regex_test : string → option (string → bool))
    (w : World) (p : nat) (serverId : string) (code : option Z) (error : string) :
  observers w !! p = Some serverId →
  let on_exit := Manager.step regex_test (Manager.InExit p code) w in
  let on_error := Manager.step regex_test (Manager.InError p error) w in
  (∀ server, store w !! serverId = Some server →
     status <$> store (world_of on_exit) !! serverId =
       Some (if decide (code = Some 0%Z) then stopped else failed) ∧
     runningServers (world_of on_exit) !! serverId = None ∧
     status <$> store (world_of on_error) !! serverId = Some failed ∧
     runningServers (world_of on_error) !! serverId = None) ∧
  (store w !! serverId = None →
     on_exit = (Ok tt, w, []) ∧ on_error = (Ok tt, w, []) ∧
     ∀ q, runningServers w !! serverId = Some q →
          runningServers (world_of on_exit) !! serverId = Some q ∧
          runningServers (world_of on_error) !! serverId = Some q).
Proof.
  intros Hp on_exit on_error. subst on_exit on_error.
  cbn [Manager.step]. unfold Manager.observed. rewrite Hp. split.
  - intros server Hs.
    rewrite (on_exit_present _ _ _ _ Hs), (on_error_present _ _ _ _ Hs).
    cbn. rewrite !lookup_insert_eq, !lookup_delete_eq. cbn.
    destruct (decide (code = Some 0%Z)); auto.
  - intros Hs. rewrite (on_exit_absent _ _ _ Hs), (on_error_absent _ _ _ Hs).
    split; [reflexivity |]. split; [reflexivity |]. intros q Hq. split; exact Hq.
Qed.

(** The owner deletes [srv1] while it runs as process 0; then the process
    exits with code 0. The Registry still holds the entry and no status has
    been persisted. *)
Lemma C2_observer_skips_removal_witness :
  let deleted := world_of (Api.delete_server
                             {| Api.params_id := "srv1"; Api.user := Sample.owner_u1 |}
                             MoreApi.users MoreApi.live_world) in
  let after := world_of (Manager.step Sample.regex_test (Manager.InExit 0 (Some 0%Z))
                           deleted) in
  observers deleted !! 0%nat = Some "srv1" ∧
  runningServers deleted !! "srv1" = Some 0%nat ∧
  runningServers after !! "srv1" = Some 0%nat ∧
  store after !! "srv1" = None ∧
  trace_of (Manager.step Sample.regex_test (Manager.InExit 0 (Some 0%Z)) deleted) = [].
Proof.
  intros deleted after.
  assert (observers deleted !! 0%nat = Some "srv1") as Hobs by reflexivity.
  assert (store deleted !! "srv1" = None) as Hgone by reflexivity.
  assert (runningServers deleted !! "srv1" = Some 0%nat) as Hreg by reflexivity.
  pose proof (C2_observer_skips_removal Sample.regex_test deleted 0 "srv1" (Some 0%Z)
                "ENOENT" Hobs) as H.
  cbv zeta in H. destruct H as [_ H]. destruct (H Hgone) as (Hexit & _ & Hq).
  split; [exact Hobs |]. split; [exact Hreg |].
  split; [exact (proj1 (Hq 0%nat Hreg)) |].
  subst after. rewrite Hexit. split; [exact Hgone | reflexivity].
Defined.

(** ** The credential write path *)

(** Writing the entries of a map one after the other builds the map of the
    written values. *)
Lemma foldl_insert_entries (f : string → string) (entries : list (string * string))
    (acc : gmap string string) :
  NoDup entries.*1 →
  foldl (λ m e, <[e.1 := f e.2]> m) acc entries =
  list_to_map (prod_map id f <$> entries) ∪ acc.
Proof.
  revert acc. induction entries as [| [k v] rest IH]; intros acc Hnd.
  - cbn. by rewrite (left_id_L ∅ (∪)).
  - apply NoDup_cons in Hnd as [Hk Hnd]. cbn. rewrite (IH _ Hnd).
    rewrite <- insert_union_r, insert_union_l; [reflexivity |].
    apply not_elem_of_list_to_map_1. rewrite <- list_fmap_compose.
    cbn in Hk. erewrite list_fmap_ext; [exact Hk |]. by intros ? [].
Qed.

Lemma foldl_insert_map_to_list (f : string → string) (m : gmap string string) :
  foldl (λ acc e, <[e.1 := f e.2]> acc) ∅ (map_to_list m) = f <$> m.
Proof.
  rewrite foldl_insert_entries by apply NoDup_fst_map_to_list.
  rewrite (right_id_L ∅ (∪)), list_to_map_fmap, list_to_map_to_list. reflexivity.
Qed.

Section CodecFacts.

Variable aes : Cipher.

Lemma encrypt_entries_ok (key : option string) (enc : string → string)
    (entries : list (string * string)) (acc : gmap string string) (w : World) :
  (∀ e, e ∈ entries → encrypt aes e.2 key = Ok (enc e.2)) →
  Model.encrypt_entries aes key entries acc w =
    (Ok (foldl (λ m e, <[e.1 := enc e.2]> m) acc entries), w, []).
Proof.
  revert acc. induction entries as [| [name v] rest IH]; intros acc H; [reflexivity |].
  cbn [Model.encrypt_entries foldl]. unfold mbind, M_bind, bind. cbn.
  pose proof (H (name, v) ltac:(by left)) as Hv. cbn in Hv. rewrite Hv. cbn.
  rewrite IH; [reflexivity |]. intros e He. apply H. by right.
Qed.

Lemma decrypt_entries_ok (key : option string)
    (entries : list (string * string)) (acc : gmap string string) (w : World) :
  Model.decrypt_entries aes key entries acc w =
    (Ok (foldl (λ m e, <[e.1 := decrypt_or_empty aes key e.2]> m) acc entries), w, []).
Proof.
  revert acc. induction entries as [| [name c] rest IH]; intros acc; [reflexivity |].
  cbn [Model.decrypt_entries foldl]. unfold mbind, M_bind, bind, try_catch. cbn.
  unfold decrypt_or_empty at 2.
  destruct (decrypt aes c key) as [v | e]; cbn; rewrite IH; reflexivity.
Qed.

(** [getDecryptedApiKeys] never throws: it returns, for every credential,
    the decryption of the stored value, or the empty string when that
    decryption throws. *)
Lemma getDecryptedApiKeys_ok (doc : Model.Document) (w : World) :
  Model.getDecryptedApiKeys aes doc w =
    (Ok (decrypt_or_empty aes (process_env w !! "ENCRYPTION_KEY")
           <$> Model.doc_apiKeys doc), w, []).
Proof.
  unfold Model.getDecryptedApiKeys, mbind, M_bind, bind. cbn.
  rewrite decrypt_entries_ok, foldl_insert_map_to_list. reflexivity.
Qed.

(** The save hook on a document whose non-empty [apiKeys] is marked
    modified: every value is replaced by its encryption. *)
Lemma pre_save_modified (doc : Model.Document) (enc : string → string) (w : World) :
  Model.modified_apiKeys doc = true →
  Model.doc_apiKeys doc ≠ ∅ →
  (∀ name v, Model.doc_apiKeys doc !! name = Some v →
     encrypt aes v (process_env w !! "ENCRYPTION_KEY") = Ok (enc v)) →
  Model.pre_save aes doc w =
    (Ok {| Model._id := Model._id doc;
           Model.fields := set_apiKeys (enc <$> Model.doc_apiKeys doc) (Model.fields doc);
           Model.modified_apiKeys := true |}, w, []).
Proof.
  intros Hm Hne H. unfold Model.pre_save. rewrite Hm.
  rewrite bool_decide_eq_true_2.
  2:{ destruct (decide (size (Model.doc_apiKeys doc) = 0%nat)) as [Hz|Hz]; [| lia].
      apply map_size_empty_iff in Hz. done. }
  cbn. unfold mbind, M_bind, bind. cbn.
  rewrite (encrypt_entries_ok _ enc).
  - rewrite foldl_insert_map_to_list. reflexivity.
  - intros [name v] He. apply elem_of_map_to_list in He. exact (H name v He).
Qed.

(** The save hook leaves a document alone when [apiKeys] is not marked
    modified. *)
Lemma pre_save_clean (doc : Model.Document) (w : World) :
  Model.modified_apiKeys doc = false →
  Model.pre_save aes doc w = (Ok doc, w, []).
Proof. intros Hm. unfold Model.pre_save. rewrite Hm. reflexivity. Qed.

End CodecFacts.


(** ** The cipher of [crypto-js] *)

Module CryptoJSFacts.

Import CryptoJS.

Lemma bxor_cancel (a k : ascii) : bxor (bxor a k) k = a.
Proof.
  destruct a as [a0 a1 a2 a3 a4 a5 a6 a7], k as [k0 k1 k2 k3 k4 k5 k6 k7].
  cbn. f_equal; btauto.
Qed.

Lemma inv_sbox_sbox (a : ascii) : AES.inv_sbox (AES.sbox a) = a.
Proof.
  destruct a as [[] [] [] [] [] [] [] []]; vm_compute; reflexivity.
Qed.

Lemma inv_mix_mix (c : AES.Column) : AES.inv_mix_column (AES.mix_column c) = c.
Proof.
  destruct c as [[[a b] c] d].
  destruct a as [a0 a1 a2 a3 a4 a5 a6 a7], b as [b0 b1 b2 b3 b4 b5 b6 b7],
    c as [c0 c1 c2 c3 c4 c5 c6 c7], d as [d0 d1 d2 d3 d4 d5 d6 d7].
  cbn. repeat f_equal; btauto.
Qed.

Lemma xor_column_cancel (c k : AES.Column) :
  AES.xor_column (AES.xor_column c k) k = c.
Proof.
  destruct c as [[[c0 c1] c2] c3], k as [[[k0 k1] k2] k3]. cbn.
  rewrite !bxor_cancel. reflexivity.
Qed.

Lemma xor_block_cancel (s k : AES.Block) : AES.xor_block (AES.xor_block s k) k = s.
Proof.
  destruct s as [[[s0 s1] s2] s3], k as [[[k0 k1] k2] k3]. cbn.
  rewrite !xor_column_cancel. reflexivity.
Qed.

Lemma inv_sub_bytes_sub_bytes (s : AES.Block) : AES.inv_sub_bytes (AES.sub_bytes s) = s.
Proof.
  destruct s as [[[[[[a0 a1] a2] a3] [[[b0 b1] b2] b3]] [[[c0 c1] c2] c3]] [[[d0 d1] d2] d3]].
  cbn. rewrite !inv_sbox_sbox. reflexivity.
Qed.

Lemma inv_shift_rows_shift_rows (s : AES.Block) :
  AES.inv_shift_rows (AES.shift_rows s) = s.
Proof.
  destruct s as [[[[[[a0 a1] a2] a3] [[[b0 b1] b2] b3]] [[[c0 c1] c2] c3]] [[[d0 d1] d2] d3]].
  reflexivity.
Qed.

Lemma inv_mix_columns_mix_columns (s : AES.Block) :
  AES.inv_mix_columns (AES.mix_columns s) = s.
Proof.
  destruct s as [[[s0 s1] s2] s3]. cbn. rewrite !inv_mix_mix. reflexivity.
Qed.

Lemma inv_round_round (s k : AES.Block) : AES.inv_round k (AES.round s k) = s.
Proof.
  unfold AES.inv_round, AES.round.
  rewrite xor_block_cancel, inv_mix_columns_mix_columns, inv_shift_rows_shift_rows,
    inv_sub_bytes_sub_bytes. reflexivity.
Qed.

Lemma inv_final_round_final_round (s k : AES.Block) :
  AES.inv_final_round k (AES.final_round s k) = s.
Proof.
  unfold AES.inv_final_round, AES.final_round.
  rewrite xor_block_cancel, inv_shift_rows_shift_rows, inv_sub_bytes_sub_bytes.
  reflexivity.
Qed.

Lemma inv_rounds_rounds (ks : list AES.Block) (s : AES.Block) :
  AES.inv_rounds ks (AES.rounds s ks) = s.
Proof.
  revert s. induction ks as [| k rest IH]; intros s; [reflexivity |].
  destruct rest as [| k' rest].
  - apply inv_final_round_final_round.
  - change (AES.inv_round k (AES.inv_rounds (k' :: rest)
                               (AES.rounds (AES.round s k) (k' :: rest))) = s).
    rewrite IH. apply inv_round_round.
Qed.

(** The block cipher: decryption undoes encryption, whatever the round
    keys. *)
Lemma decrypt_block_encrypt_block (ks : list AES.Block) (s : AES.Block) :
  AES.decrypt_block ks (AES.encrypt_block ks s) = s.
Proof.
  destruct ks as [| first rest]; [reflexivity |]. cbn [AES.decrypt_block AES.encrypt_block].
  rewrite inv_rounds_rounds. apply xor_block_cancel.
Qed.

Lemma cbc_decrypt_cbc_encrypt (ks : list AES.Block) (iv : AES.Block) (ps : list AES.Block) :
  cbc_decrypt ks iv (cbc_encrypt ks iv ps) = ps.
Proof.
  revert iv. induction ps as [| p rest IH]; intros iv; [reflexivity |].
  cbn. rewrite decrypt_block_encrypt_block, xor_block_cancel, IH. reflexivity.
Qed.

Lemma cbc_encrypt_length (ks : list AES.Block) (iv : AES.Block) (ps : list AES.Block) :
  length (cbc_encrypt ks iv ps) = length ps.
Proof.
  revert iv. induction ps as [| p rest IH]; intros iv; [reflexivity |].
  cbn. rewrite IH. reflexivity.
Qed.

(** Blocks and bytes *)

Lemma bytes_of_block_length (s : AES.Block) : length (bytes_of_block s) = 16%nat.
Proof.
  destruct s as [[[[[[a0 a1] a2] a3] [[[b0 b1] b2] b3]] [[[c0 c1] c2] c3]] [[[d0 d1] d2] d3]].
  reflexivity.
Qed.

Lemma flat_length (bs : list AES.Block) : length (flat bs) = (16 * length bs)%nat.
Proof.
  unfold flat. induction bs as [| s rest IH]; [reflexivity |].
  cbn [fmap list_fmap concat]. rewrite length_app, bytes_of_block_length.
  cbn [length]. fold (fmap (M:=list) bytes_of_block rest). lia.
Qed.

Lemma blocks_flat (bs : list AES.Block) : blocks (length bs) (flat bs) = bs.
Proof.
  induction bs as [| s rest IH]; [reflexivity |].
  destruct s as [[[[[[a0 a1] a2] a3] [[[b0 b1] b2] b3]] [[[c0 c1] c2] c3]] [[[d0 d1] d2] d3]].
  cbn. f_equal. exact IH.
Qed.

Lemma flat_blocks (n : nat) (l : list ascii) :
  length l = (16 * n)%nat → flat (blocks n l) = l.
Proof.
  revert l. induction n as [| n IH]; intros l Hl.
  - destruct l; [reflexivity | discriminate].
  - do 16 (destruct l as [| ? l]; [cbn [length] in Hl; lia |]).
    cbn [length] in Hl.
    cbn. unfold flat in IH. rewrite IH; [reflexivity |]. rewrite drop_0. lia.
Qed.

Lemma blocks_count (k : nat) : ((16 * k + 15) / 16 = k)%nat.
Proof.
  symmetry. apply (Nat.div_unique _ 16 k 15); lia.
Qed.

(** Padding *)

Lemma pkcs7_pad_length (l : list ascii) :
  length (pkcs7_pad l) = (16 * (length l / 16 + 1))%nat.
Proof.
  unfold pkcs7_pad. cbv zeta. rewrite length_app, length_replicate.
  pose proof (Nat.div_mod_eq (length l) 16) as Hd.
  pose proof (Nat.mod_upper_bound (length l) 16 ltac:(lia)) as Hm.
  lia.
Qed.

Lemma pkcs7_unpad_pad (l : list ascii) : pkcs7_unpad (pkcs7_pad l) = l.
Proof.
  unfold pkcs7_unpad, pkcs7_pad.
  pose proof (Nat.mod_upper_bound (length l) 16 ltac:(lia)) as Hm.
  set (n := (16 - length l mod 16)%nat).
  assert (1 ≤ n ≤ 16)%nat as Hn by (subst n; lia).
  destruct n as [| m] eqn:En; [lia |].
  rewrite replicate_S_end, app_assoc, List.last_last.
  rewrite nat_ascii_embedding by lia.
  rewrite !length_app, length_replicate. cbn [length].
  rewrite <- app_assoc.
  replace (length l + m + 1 - S m)%nat with (length l) by lia.
  apply take_app_length.
Qed.

(** Base64 *)

Lemma list_ind3 {A} (P : list A → Prop) :
  P [] → (∀ x, P [x]) → (∀ x y, P [x; y]) →
  (∀ x y z l, P l → P (x :: y :: z :: l)) →
  ∀ l, P l.
Proof.
  intros H0 H1 H2 H3 l.
  assert (P l ∧ (∀ x, P (x :: l)) ∧ (∀ x y, P (x :: y :: l))) as [H _].
  { induction l as [| a l (IH0 & IH1 & IH2)]; [auto |].
    split; [exact (IH1 a) |]. split; [exact (λ x, IH2 x a) |].
    intros x y. exact (H3 x y a l IH0). }
  exact H.
Qed.

Lemma before_padding_char (b0 b1 b2 b3 b4 b5 : bool) (rest : list ascii) :
  Base64.before_padding
    (Base64.sextet_char (Ascii b0 b1 b2 b3 b4 b5 false false) :: rest) =
  Base64.sextet_char (Ascii b0 b1 b2 b3 b4 b5 false false) :: Base64.before_padding rest.
Proof. destruct b0, b1, b2, b3, b4, b5; reflexivity. Qed.

Lemma units_char (b0 b1 b2 b3 b4 b5 : bool) (rest : list ascii) :
  Base64.units 0 (Base64.sextet_char (Ascii b0 b1 b2 b3 b4 b5 false false) :: rest) =
  Ascii b0 b1 b2 b3 b4 b5 false false :: Base64.units 0 rest.
Proof. destruct b0, b1, b2, b3, b4, b5; reflexivity. Qed.

Lemma parse_stringify (l : list ascii) : Base64.parse (Base64.stringify l) = l.
Proof.
  unfold Base64.parse. induction l as [| x | x y | x y z l IH] using list_ind3.
  - reflexivity.
  - destruct x as [x0 x1 x2 x3 x4 x5 x6 x7].
    cbn [Base64.stringify Base64.group0 Base64.group1 zero].
    rewrite !before_padding_char. cbn [Base64.before_padding Ascii.eqb].
    change (Ascii.eqb "=" "=") with true. cbn iota.
    rewrite !units_char. reflexivity.
  - destruct x as [x0 x1 x2 x3 x4 x5 x6 x7], y as [y0 y1 y2 y3 y4 y5 y6 y7].
    cbn [Base64.stringify Base64.group0 Base64.group1 Base64.group2 zero].
    rewrite !before_padding_char. cbn [Base64.before_padding].
    change (Ascii.eqb "=" "=") with true. cbn iota.
    rewrite !units_char. reflexivity.
  - destruct x as [x0 x1 x2 x3 x4 x5 x6 x7], y as [y0 y1 y2 y3 y4 y5 y6 y7],
      z as [z0 z1 z2 z3 z4 z5 z6 z7].
    cbn [Base64.stringify Base64.group0 Base64.group1 Base64.group2 Base64.group3].
    rewrite !before_padding_char, !units_char.
    cbn [Base64.parse_loop Base64.join1 Base64.join2 Base64.join3].
    rewrite IH. reflexivity.
Qed.

Lemma blocks_length (n : nat) (l : list ascii) : length (blocks n l) = n.
Proof.
  revert l. induction n as [| n IH]; intros l; [reflexivity |].
  cbn. rewrite IH. reflexivity.
Qed.

(** The cipher: decrypting under the passphrase of the encryption gives
    the message back, whatever salt was drawn. *)
Lemma AES_decrypt_AES_encrypt (salt random : Salt) (message passphrase : string) :
  Utf8.well_formed (Utf8.parse message) = true →
  AES_decrypt random (AES_encrypt salt message passphrase) passphrase = Ok message.
Proof.
  intros Hwf. unfold AES_decrypt, AES_encrypt.
  destruct salt as [[[[s0 s1] s2] s3] [[[s4 s5] s6] s7]].
  cbn [salt_bytes bytes_of_column fst snd app].
  destruct (kdf (Utf8.parse passphrase) [s0; s1; s2; s3; s4; s5; s6; s7])
    as [key iv] eqn:Hkdf.
  rewrite list_ascii_of_string_of_list_ascii, parse_stringify.
  change (take 8 (magic ++ ?l)) with magic.
  rewrite bool_decide_eq_true_2 by reflexivity.
  cbn [magic list_ascii_of_string app drop].
  rewrite Hkdf. unfold decrypt_bytes.
  set (padded := pkcs7_pad (Utf8.parse message)).
  set (ks := AES.key_schedule key).
  pose proof (pkcs7_pad_length (Utf8.parse message)) as Hlen. fold padded in Hlen.
  set (k := (length (Utf8.parse message) / 16 + 1)%nat) in Hlen.
  replace (length padded / 16)%nat with k
    by (rewrite Hlen, Nat.mul_comm, Nat.div_mul; lia).
  set (ps := blocks k padded).
  assert (length ps = k) as Hps by apply blocks_length.
  rewrite flat_length, cbc_encrypt_length, Hps, blocks_count.
  pose proof (blocks_flat (cbc_encrypt ks iv ps)) as Hb.
  rewrite cbc_encrypt_length, Hps in Hb. rewrite Hb, cbc_decrypt_cbc_encrypt.
  subst ps. rewrite (flat_blocks k padded Hlen).
  rewrite <- Hlen, firstn_all. subst padded. rewrite pkcs7_unpad_pad.
  unfold Utf8.stringify. rewrite Hwf. unfold Utf8.parse.
  rewrite string_of_list_ascii_of_string. reflexivity.
Qed.

(** Decryption has one way to fail: the bytes it is left with are not the
    UTF-8 form of a string. It looks at the padding no further than its
    last byte, and at the key not at all. *)
Lemma AES_decrypt_outcomes (random : Salt) (ciphertext passphrase : string) :
  (∃ text, AES_decrypt random ciphertext passphrase = Ok text) ∨
  AES_decrypt random ciphertext passphrase = Throw (CipherError "Malformed UTF-8 data").
Proof.
  assert (∀ derived c, (∃ text, decrypt_bytes derived c = Ok text) ∨
                       decrypt_bytes derived c = Throw (CipherError "Malformed UTF-8 data"))
    as Hbytes.
  { intros [key iv] c. unfold decrypt_bytes, Utf8.stringify.
    destruct (Utf8.well_formed _); eauto. }
  unfold AES_decrypt. destruct (bool_decide _); [| apply Hbytes].
  destruct (drop 8 _) as [| s0 [| s1 [| s2 [| s3 [| s4 [| s5 [| s6 [| s7 c]]]]]]]];
    eauto.
Qed.

End CryptoJSFacts.

(** Under another passphrase the cipher need not fail: the ciphertext of
    [secret] under [k1] decrypts to the empty string under [k2] and to the
    text [(] under [key507]. *)
Lemma AES_decrypt_other_key (random : CryptoJS.Salt) :
  CryptoJS.AES_decrypt random (CryptoJS.AES_encrypt CodecSample.salt "secret" "k1") "k2"
    = Ok "" ∧
  CryptoJS.AES_decrypt random (CryptoJS.AES_encrypt CodecSample.salt "secret" "k1") "key507"
    = Ok "(".
Proof. split; vm_compute; reflexivity. Qed.

(** The digest, the block cipher and the container agree with the
    published test vectors: RFC 1321 for MD5, FIPS 197 (appendix C.3) for
    AES-256, and the OpenSSL container of [secret] under the passphrase
    [k1] and the salt [saltsalt]. *)
Lemma MD5_test_vector :
  to_hex (string_of_list_ascii (CryptoJS.MD5.hash (list_ascii_of_string "abc"))) =
  "900150983cd24fb0d6963f7d28e17f72".
Proof. vm_compute. reflexivity. Qed.

Lemma AES_test_vector :
  to_hex (string_of_list_ascii (CryptoJS.bytes_of_block
    (CryptoJS.AES.encrypt_block
       (CryptoJS.AES.key_schedule
          (CryptoJS.block_at (ascii_of_nat <$> seq 0 16),
           CryptoJS.block_at (ascii_of_nat <$> seq 16 16)))
       (CryptoJS.block_at ((λ i, ascii_of_nat (17 * i)) <$> seq 0 16))))) =
  "8ea2b7ca516745bfeafc49904b496089".
Proof. vm_compute. reflexivity. Qed.

Lemma AES_encrypt_test_vector :
  CryptoJS.AES_encrypt CodecSample.salt "secret" "k1" = CodecSample.stored.
Proof. vm_compute. reflexivity. Qed.

(** Under another passphrase the cipher may also throw: the bytes left
    after the padding has been dropped are not the UTF-8 form of a
    string. *)
Lemma AES_decrypt_may_throw :
  CryptoJS.AES_decrypt CodecSample.salt CodecSample.stored "key8" =
  Throw (CipherError "Malformed UTF-8 data").
Proof. vm_compute. reflexivity. Qed.

(** C6, as stated, fails: the credential [secret], saved under the key
    [k1], is stored as the ciphertext [stored]. Decrypting [stored] under
    the key [k2] does not fail, it returns the empty string; under the key
    [key507] it does not fail either, it returns the text [(]; and
    [getDecryptedApiKeys] under [key507] hands that text out as the
    credential. *)
Lemma C6_other_key_counterexample :
  decrypt CodecSample.cryptojs CodecSample.stored (Some "k2") = Ok "" ∧
  decrypt CodecSample.cryptojs CodecSample.stored (Some "key507") = Ok "(" ∧
  ∃ saved,
    result_of (Model.pre_save CodecSample.cryptojs
                 (Sample.fresh_document {[ "TOKEN" := "secret" ]})
                 (Sample.api_world ∅ "k1")) = Ok saved ∧
    Model.doc_apiKeys saved = {[ "TOKEN" := CodecSample.stored ]} ∧
    result_of (Model.getDecryptedApiKeys CodecSample.cryptojs saved
                 (Sample.api_world ∅ "key507")) = Ok {[ "TOKEN" := "(" ]}.
Proof.
  split; [vm_compute; reflexivity |].
  split; [vm_compute; reflexivity |].
  eexists. split; [vm_compute; reflexivity |].
  split; vm_compute; reflexivity.
Qed.

(** C6 (amended): for every credential value [v] (a string, held in its
    UTF-8 form) and every key [k], whatever salt the cipher draws,
    decrypting the encryption of [v] under [k] with [k] gives [v]; so what
    the save hook stores under the key of the environment,
    [getDecryptedApiKeys] returns as it was written under that key. Under a
    key other than [k], decryption need not fail: it may return the empty
    string or some other text in place of [v], and its only failure is
    that the bytes it is left with are not the UTF-8 form of a string.
    [getDecryptedApiKeys] never fails under any key: it returns, for every
    credential, what the cipher makes of the stored value, and the empty
    string where the cipher throws. *)
Theorem C6_codec_round_trip (salt : string → CryptoJS.Salt) (random : CryptoJS.Salt)
    (doc : Model.Document) (w : World) (k : string) :
  process_env w !! "ENCRYPTION_KEY" = Some k →
  Model.modified_apiKeys doc = true →
  Model.doc_apiKeys doc ≠ ∅ →
  (∀ name v, Model.doc_apiKeys doc !! name = Some v →
     CryptoJS.Utf8.well_formed (CryptoJS.Utf8.parse v) = true) →
  (∀ s v key,
     CryptoJS.Utf8.well_formed (CryptoJS.Utf8.parse v) = true →
     CryptoJS.AES_decrypt random (CryptoJS.AES_encrypt s v key) key = Ok v) ∧
  (∃ s v key key' text,
     key' ≠ key ∧ text ≠ v ∧
     CryptoJS.AES_decrypt random (CryptoJS.AES_encrypt s v key) key' = Ok text) ∧
  (∀ c key',
     (∃ text, CryptoJS.AES_decrypt random c key' = Ok text) ∨
     CryptoJS.AES_decrypt random c key' = Throw (CipherError "Malformed UTF-8 data")) ∧
  ∃ saved,
    Model.pre_save (CryptoJS.cipher salt random) doc w = (Ok saved, w, []) ∧
    Model.doc_apiKeys saved =
      (λ v, CryptoJS.AES_encrypt (salt v) v k) <$> Model.doc_apiKeys doc ∧
    Model.getDecryptedApiKeys (CryptoJS.cipher salt random) saved w =
      (Ok (Model.doc_apiKeys doc), w, []) ∧
    ∀ w',
      Model.getDecryptedApiKeys (CryptoJS.cipher salt random) saved w' =
        (Ok (decrypt_or_empty (CryptoJS.cipher salt random)
               (process_env w' !! "ENCRYPTION_KEY") <$> Model.doc_apiKeys saved),
         w', []).
Proof.
  intros Hk Hm Hne Hwf.
  split; [intros s v key Hv; apply CryptoJSFacts.AES_decrypt_AES_encrypt, Hv |].
  split.
  { exists CodecSample.salt, "secret", "k1", "key507", "(".
    split; [discriminate |]. split; [discriminate |].
    apply (AES_decrypt_other_key random). }
  split; [intros c key'; apply CryptoJSFacts.AES_decrypt_outcomes |].
  eexists. split.
  { apply (pre_save_modified (CryptoJS.cipher salt random) doc
             (λ v, CryptoJS.AES_encrypt (salt v) v k) w Hm Hne).
    intros name v Hv. rewrite Hk. reflexivity. }
  split; [reflexivity |]. split.
  - rewrite getDecryptedApiKeys_ok. unfold Model.doc_apiKeys at 1. cbn.
    rewrite <- map_fmap_compose.
    rewrite (map_fmap_ext _ id (Model.doc_apiKeys doc)), map_fmap_id; [reflexivity |].
    intros name v Hv. cbn. unfold decrypt_or_empty. rewrite Hk. cbn.
    rewrite CryptoJSFacts.AES_decrypt_AES_encrypt; [reflexivity |].
    exact (Hwf name v Hv).
  - intros w'. apply getDecryptedApiKeys_ok.
Qed.

Lemma C6_codec_round_trip_witness :
  ∃ saved,
    Model.pre_save CodecSample.cryptojs (Sample.fresh_document {[ "TOKEN" := "secret" ]})
      (Sample.api_world ∅ "k1") = (Ok saved, Sample.api_world ∅ "k1", []) ∧
    Model.doc_apiKeys saved = {[ "TOKEN" := CodecSample.stored ]} ∧
    Model.getDecryptedApiKeys CodecSample.cryptojs saved (Sample.api_world ∅ "k1") =
      (Ok {[ "TOKEN" := "secret" ]}, Sample.api_world ∅ "k1", []).
Proof.
  assert (∀ name v,
            Model.doc_apiKeys (Sample.fresh_document {[ "TOKEN" := "secret" ]}) !! name
              = Some v →
            CryptoJS.Utf8.well_formed (CryptoJS.Utf8.parse v) = true) as Hwf.
  { intros name v Hv.
    change (Model.doc_apiKeys _) with ({[ "TOKEN" := "secret" ]} : gmap string string) in Hv.
    apply lookup_singleton_Some in Hv as [_ <-]. reflexivity. }
  assert (Model.doc_apiKeys (Sample.fresh_document {[ "TOKEN" := "secret" ]}) ≠ ∅) as Hne.
  { intros Heq. apply (f_equal (λ m : gmap string string, m !! "TOKEN")) in Heq.
    vm_compute in Heq. discriminate. }
  destruct (C6_codec_round_trip (λ _, CodecSample.salt) CodecSample.salt
              (Sample.fresh_document {[ "TOKEN" := "secret" ]})
              (Sample.api_world ∅ "k1") "k1" eq_refl eq_refl Hne Hwf)
    as (_ & _ & _ & saved & H1 & H2 & H3 & _).
  exists saved. split; [exact H1 |]. split; [| exact H3].
  rewrite H2. vm_compute. reflexivity.
Defined.

Section WritePath.

Variable aes : Cipher.

(** What [PUT /:id/apikey] does when the request is valid, the caller may
    modify the server, and the submitted value changes the credentials:
    the save hook encrypts every value of the new object, the ones the
    document already held included. *)
Lemma put_apikey_saves (req : Routes.ApiKeyRequest) (w : World) (key value : string)
    (server : ServerRecord) (enc : string → string) :
  Routes.body_key req = Some key →
  Routes.body_value req = Some value →
  Routes.trims_to_empty key = false →
  Routes.trims_to_empty value = false →
  store w !! Routes.params_id req = Some server →
  Routes.not_authorized server (Routes.user req) = false →
  default ∅ (apiKeys server) !! key ≠ Some value →
  (∀ name x, <[key := value]> (default ∅ (apiKeys server)) !! name = Some x →
     encrypt aes x (process_env w !! "ENCRYPTION_KEY") = Ok (enc x)) →
  let saved :=
    set_apiKeys (enc <$> <[key := value]> (default ∅ (apiKeys server))) server in
  Routes.put_apikey aes req w =
    (Ok {| Routes.http_code := 200; Routes.success := true;
           Routes.message := "API key saved successfully" |},
     with_store (<[Routes.params_id req := saved]> (store w)) w,
     [ESave (Routes.params_id req) saved]).
Proof.
  intros Hk Hv Hkt Hvt Hs Hauth Hnew Henc saved. subst saved.
  unfold Routes.put_apikey, Routes.validateApiKey. rewrite Hk, Hv, Hkt, Hvt.
  unfold try_catch, mbind, M_bind, bind, Model.findById. rewrite Hs. cbn.
  rewrite Hauth. unfold Model.save, mbind, M_bind, bind.
  set (doc := {| Model._id := Routes.params_id req; Model.fields := server;
                 Model.modified_apiKeys := false |}).
  change (Model.doc_apiKeys doc) with (default ∅ (apiKeys server)).
  unfold Model.assign_apiKeys.
  change (Model.doc_apiKeys doc) with (default ∅ (apiKeys server)).
  destruct (decide (default ∅ (apiKeys server)
                    = <[key := value]> (default ∅ (apiKeys server)))) as [Heq | _].
  { exfalso. apply Hnew. rewrite Heq. apply lookup_insert_eq. }
  rewrite (pre_save_modified aes _ enc w); cbn.
  - reflexivity.
  - reflexivity.
  - apply insert_non_empty.
  - exact Henc.
Qed.

(** C7, on the code: a [PUT /:id/apikey] that sets the credential [key]
    stores, for every other credential [other] the record already held, the
    encryption of the stored value: a value that was ciphertext is encrypted
    a second time. *)
Theorem C7_stored_value_is_encrypted_again (req : Routes.ApiKeyRequest) (w : World)
    (key value other c : string) (server : ServerRecord) (enc : string → string) :
  Routes.body_key req = Some key →
  Routes.body_value req = Some value →
  Routes.trims_to_empty key = false →
  Routes.trims_to_empty value = false →
  store w !! Routes.params_id req = Some server →
  Routes.not_authorized server (Routes.user req) = false →
  default ∅ (apiKeys server) !! key ≠ Some value →
  (∀ name x, <[key := value]> (default ∅ (apiKeys server)) !! name = Some x →
     encrypt aes x (process_env w !! "ENCRYPTION_KEY") = Ok (enc x)) →
  other ≠ key →
  default ∅ (apiKeys server) !! other = Some c →
  ∃ saved,
    store (world_of (Routes.put_apikey aes req w)) !! Routes.params_id req = Some saved ∧
    default ∅ (apiKeys saved) !! other = Some (enc c) ∧
    default ∅ (apiKeys saved) !! key = Some (enc value).
Proof.
  intros Hk Hv Hkt Hvt Hs Hauth Hnew Henc Hne Hc.
  rewrite (put_apikey_saves req w key value server enc Hk Hv Hkt Hvt Hs Hauth Hnew Henc).
  eexists. cbn. rewrite lookup_insert_eq. split; [reflexivity |]. cbn.
  rewrite !lookup_fmap, lookup_insert_eq, lookup_insert_ne by done.
  rewrite Hc. split; reflexivity.
Qed.

(** A save that follows a change of [status] alone leaves the stored
    credentials of every document as they were. *)
Lemma put_status_keeps_apiKeys (req : Routes.StatusRequest) (w : World)
    (id : string) (server : ServerRecord) :
  store w !! id = Some server →
  apiKeys <$> store (world_of (Routes.put_status aes req w)) !! id = Some (apiKeys server).
Proof.
  intros Hs. unfold Routes.put_status, try_catch.
  destruct (Routes.body_status req) as [s|]; [| cbn; rewrite Hs; reflexivity].
  destruct (if decide (s = "running") then Some running
            else if decide (s = "stopped") then Some stopped else None) as [st|];
    [| cbn; rewrite Hs; reflexivity].
  unfold mbind, M_bind, bind, Model.findById.
  destruct (store w !! Routes.status_params_id req) as [r|] eqn:Hr; cbn;
    [| rewrite Hs; reflexivity].
  destruct (Routes.not_authorized r (Routes.status_user req)); cbn;
    [rewrite Hs; reflexivity |].
  unfold mbind, M_bind, bind, mret, M_ret, ret, Model.write. cbn.
  destruct (decide (Routes.status_params_id req = id)) as [Heq | Hne].
  - rewrite Heq in *. rewrite lookup_insert_eq. cbn. congruence.
  - rewrite lookup_insert_ne by done. rewrite Hs. reflexivity.
Qed.

End WritePath.

(** Two writes in a row: the credential [A] is encrypted when it is written
    and once more when [B] is written; read back, it is the ciphertext of
    the first write, not the value that was submitted. *)
Lemma put_apikey_twice_example :
  let w1 := world_of (Routes.put_apikey Sample.cipher (Sample.put "A" "a")
                        (Sample.api_world ∅ "k1")) in
  let w2 := world_of (Routes.put_apikey Sample.cipher (Sample.put "B" "b") w1) in
  (apiKeys <$> store w1 !! "srv1") = Some (Some {[ "A" := "k1:a" ]}) ∧
  (apiKeys <$> store w2 !! "srv1") = Some (Some {[ "A" := "k1:k1:a"; "B" := "k1:b" ]}) ∧
  (∀ doc, result_of (Model.findById "srv1" w2) = Ok (Some doc) →
     result_of (Model.getDecryptedApiKeys Sample.cipher doc w2)
       = Ok {[ "A" := "k1:a"; "B" := "b" ]}).
Proof.
  cbv zeta. split; [vm_compute; reflexivity |]. split; [vm_compute; reflexivity |].
  intros doc Hdoc. vm_compute in Hdoc. injection Hdoc as <-. vm_compute. reflexivity.
Qed.

Lemma C7_stored_value_is_encrypted_again_witness :
  ∃ saved,
    store (world_of (Routes.put_apikey Sample.cipher (Sample.put "B" "b")
                       (Sample.api_world {[ "A" := "k1:a" ]} "k1"))) !! "srv1" = Some saved ∧
    default ∅ (apiKeys saved) !! "A" = Some "k1:k1:a" ∧
    default ∅ (apiKeys saved) !! "B" = Some "k1:b".
Proof.
  assert (∀ name x,
            <[ "B" := "b" ]> ({[ "A" := "k1:a" ]} : gmap string string) !! name = Some x →
            encrypt Sample.cipher x
              (process_env (Sample.api_world {[ "A" := "k1:a" ]} "k1") !! "ENCRYPTION_KEY")
              = Ok ("k1:" +:+ x)) as Henc.
  { intros name x _. reflexivity. }
  assert (default ∅ (apiKeys (set_apiKeys {[ "A" := "k1:a" ]}
                               (Sample.record "github" creating None))) !! "B"
          ≠ Some "b") as Hnew.
  { vm_compute. discriminate. }
  assert ("A" ≠ "B") as Hne by discriminate.
  exact (C7_stored_value_is_encrypted_again Sample.cipher (Sample.put "B" "b")
           (Sample.api_world {[ "A" := "k1:a" ]} "k1") "B" "b" "A" "k1:a"
           (set_apiKeys {[ "A" := "k1:a" ]} (Sample.record "github" creating None))
           (λ x, "k1:" +:+ x)
           eq_refl eq_refl eq_refl eq_refl eq_refl eq_refl Hnew Henc Hne eq_refl).
Defined.

(** * Further properties of the manager *)

(** ** Starting a server *)

Lemma launch_filesystem (serverId : string) (server : ServerRecord) (cfg : Config)
    (w : World) :
  type server = "filesystem" →
  config server = Some cfg →
  Manager.launch serverId server w =
    (Ok (Some (next_process w)), spawned serverId w,
     [ESpawn (next_process w) "npx"
        (["-y"; "@modelcontextprotocol/server-filesystem"]
           ++ default ["/tmp"] (allowedDirectories cfg))]).
Proof.
  intros Hty Hcfg. unfold Manager.launch. rewrite Hty.
  destruct (decide ("filesystem" = "brave-search")); [discriminate |].
  destruct (decide ("filesystem" = "github")); [discriminate |].
  destruct (decide ("filesystem" = "filesystem")); [| congruence].
  unfold Manager.startFilesystemServer, Manager.read_config, mbind, M_bind, bind.
  rewrite Hcfg. reflexivity.
Qed.

Lemma startServer_filesystem (w : World) (serverId : string) (ws : nat)
    (server : ServerRecord) (cfg : Config) :
  store w !! serverId = Some server →
  runningServers w !! serverId = None →
  type server = "filesystem" →
  config server = Some cfg →
  Manager.startServer serverId ws w =
    (Ok tt, started serverId server w,
     [ESpawn (next_process w) "npx"
        (["-y"; "@modelcontextprotocol/server-filesystem"]
           ++ default ["/tmp"] (allowedDirectories cfg));
      ERegistrySet serverId (next_process w);
      ESave serverId (set_status running server);
      ESend ws (Reply true "Server started successfully")]).
Proof.
  intros Hs Hr Hty Hcfg. handler. rewrite Hs, (registry_has_None _ _ Hr).
  rewrite (launch_filesystem serverId server cfg w Hty Hcfg). reflexivity.
Qed.

(** X1: starting a stored filesystem server that is not running and has a
    configuration spawns [npx -y @modelcontextprotocol/server-filesystem]
    followed by the allowed directories of the configuration, or by [/tmp]
    alone when it names none; then registers the new process under the
    identity, persists [running] and answers success, in that order. *)
Theorem X1_start_filesystem (w : World) (serverId : string) (ws : nat)
    (server : ServerRecord) (cfg : Config) :
  store w !! serverId = Some server →
  runningServers w !! serverId = None →
  type server = "filesystem" →
  config server = Some cfg →
  let out := Manager.startServer serverId ws w in
  trace_of out =
    [ESpawn (next_process w) "npx"
       (["-y"; "@modelcontextprotocol/server-filesystem"]
          ++ default ["/tmp"] (allowedDirectories cfg));
     ERegistrySet serverId (next_process w);
     ESave serverId (set_status running server);
     ESend ws (Reply true "Server started successfully")] ∧
  runningServers (world_of out) !! serverId = Some (next_process w) ∧
  observers (world_of out) !! next_process w = Some serverId ∧
  status <$> store (world_of out) !! serverId = Some running ∧
  next_process (world_of out) = S (next_process w).
Proof.
  intros Hs Hr Hty Hcfg out. subst out.
  rewrite (startServer_filesystem w serverId ws server cfg Hs Hr Hty Hcfg).
  cbn. rewrite !lookup_insert_eq. auto.
Qed.

Lemma X1_start_filesystem_witness :
  trace_of (Manager.startServer "srv1" 2 Sample.stopped_world) =
    [ESpawn 0 "npx" ["-y"; "@modelcontextprotocol/server-filesystem"; "/tmp"];
     ERegistrySet "srv1" 0;
     ESave "srv1" (set_status running (Sample.record "filesystem" stopped (Some Sample.no_config)));
     ESend 2 (Reply true "Server started successfully")].
Proof.
  pose proof (X1_start_filesystem Sample.stopped_world "srv1" 2
                (Sample.record "filesystem" stopped (Some Sample.no_config))
                Sample.no_config eq_refl eq_refl eq_refl eq_refl) as H.
  cbv zeta in H. destruct H as [H _]. exact H.
Defined.

(** The launchers of the three types that read [process.env] inside the
    declaration of [process] throw before [spawn] is reached. *)
Lemma launch_reads_own_process (serverId : string) (server : ServerRecord) (w : World) :
  reads_own_process (type server) →
  ∃ e, Manager.launch serverId server w = (Throw e, w, []).
Proof.
  intros Hty.
  destruct (launch_cases serverId server w) as [H | [H | (c & argv & H)]]; [exact H | |].
  - exfalso. unfold Manager.launch in H.
    destruct (decide (type server = "brave-search")).
    { unfold Manager.startBraveSearchServer, mbind, M_bind, bind in H.
      rewrite getDecryptedApiKey_empty in H. discriminate. }
    destruct (decide (type server = "github")).
    { unfold Manager.startGithubServer, mbind, M_bind, bind in H.
      rewrite getDecryptedApiKey_empty in H. discriminate. }
    destruct (decide (type server = "filesystem")) as [Hfs|].
    { destruct Hty as [Hty | [Hty | Hty]]; congruence. }
    destruct (decide (type server = "custom")).
    { destruct Hty as [Hty | [Hty | Hty]]; congruence || idtac.
      unfold Manager.startCustomServer, Manager.read_config,
        Manager.Object_entries, mbind, M_bind, bind in H.
      destruct (config server) as [cfg|]; cbn in H; [| discriminate].
      destruct (apiKeys server) as [keys|]; cbn in H; [| discriminate].
      destruct (decrypt_entries_pure server (map_to_list keys) ∅ w) as [m Hm].
      rewrite Hm in H. discriminate. }
    destruct Hty as [Hty | [Hty | Hty]]; congruence.
  - exfalso. unfold Manager.launch in H.
    destruct (decide (type server = "brave-search")).
    { unfold Manager.startBraveSearchServer, mbind, M_bind, bind in H.
      rewrite getDecryptedApiKey_empty in H. discriminate. }
    destruct (decide (type server = "github")).
    { unfold Manager.startGithubServer, mbind, M_bind, bind in H.
      rewrite getDecryptedApiKey_empty in H. discriminate. }
    destruct (decide (type server = "filesystem")) as [Hfs|].
    { destruct Hty as [Hty | [Hty | Hty]]; congruence. }
    destruct (decide (type server = "custom")).
    { unfold Manager.startCustomServer, Manager.read_config,
        Manager.Object_entries, mbind, M_bind, bind in H.
      destruct (config server) as [cfg|]; cbn in H; [| discriminate].
      destruct (apiKeys server) as [keys|]; cbn in H; [| discriminate].
      destruct (decrypt_entries_pure server (map_to_list keys) ∅ w) as [m Hm].
      rewrite Hm in H. discriminate. }
    destruct Hty as [Hty | [Hty | Hty]]; congruence.
Qed.

(** X2: a stored server of type [brave-search], [github] or [custom] that is
    not running cannot be started: [startServer] answers
    [{success: false, message: "Failed to start server", error}], spawns
    nothing and leaves the world, Registry and stored record included, as
    it was. The same holds for a [filesystem] server whose [config] is
    undefined. *)
Theorem X2_start_fails_before_spawn (w : World) (serverId : string) (ws : nat)
    (server : ServerRecord) :
  store w !! serverId = Some server →
  runningServers w !! serverId = None →
  reads_own_process (type server) ∨
    (type server = "filesystem" ∧ config server = None) →
  ∃ error,
    Manager.startServer serverId ws w =
      (Ok tt, w, [ESend ws (ReplyError "Failed to start server" error)]).
Proof.
  intros Hs Hr Hty.
  assert (∃ e, Manager.launch serverId server w = (Throw e, w, [])) as [e He].
  { destruct Hty as [Hty | [Hty Hcfg]]; [exact (launch_reads_own_process _ _ _ Hty) |].
    unfold Manager.launch. rewrite Hty.
    destruct (decide ("filesystem" = "brave-search")); [discriminate |].
    destruct (decide ("filesystem" = "github")); [discriminate |].
    destruct (decide ("filesystem" = "filesystem")); [| congruence].
    unfold Manager.startFilesystemServer, Manager.read_config, mbind, M_bind, bind.
    rewrite Hcfg. cbn. eauto. }
  exists (message_of e). handler. rewrite Hs, (registry_has_None _ _ Hr), He. reflexivity.
Qed.

Lemma X2_start_fails_before_spawn_witness :
  ∃ error,
    Manager.startServer "srv1" 0 More.github_world =
      (Ok tt, More.github_world, [ESend 0 (ReplyError "Failed to start server" error)]).
Proof.
  apply (X2_start_fails_before_spawn More.github_world "srv1" 0
           (Sample.record "github" creating (Some Sample.no_config)));
    [reflexivity | reflexivity | left; right; left; reflexivity].
Defined.

(** X3: a start, stop or status command for an identity in the form in
    which the database prints one (24 hexadecimal digits in lower case) that
    is not in the store is answered
    [{success: false, message: "Server not found"}] and changes nothing,
    whatever the Registry holds for that identity. *)
Theorem X3_unknown_identity (w : World) (serverId : string) (ws : nat) :
  ObjectId_cast serverId = Some serverId →
  store w !! serverId = None →
  Manager.startServer serverId ws w = (Ok tt, w, [ESend ws (Reply false "Server not found")]) ∧
  Manager.stopServer serverId ws w = (Ok tt, w, [ESend ws (Reply false "Server not found")]) ∧
  Manager.getServerStatus serverId ws w =
    (Ok tt, w, [ESend ws (Reply false "Server not found")]).
Proof.
  intros _ Hs. repeat split; handler; rewrite Hs; reflexivity.
Qed.

Lemma X3_unknown_identity_witness :
  ObjectId_cast "64b7f0c2a1d3e4f5a6b7c8da" = Some "64b7f0c2a1d3e4f5a6b7c8da" ∧
  Manager.getServerStatus "64b7f0c2a1d3e4f5a6b7c8da" 0 Sample.running_world =
    (Ok tt, Sample.running_world, [ESend 0 (Reply false "Server not found")]).
Proof.
  pose proof (X3_unknown_identity Sample.running_world "64b7f0c2a1d3e4f5a6b7c8da" 0
                eq_refl eq_refl) as (_ & _ & H).
  split; [reflexivity | exact H].
Defined.

(** X4: starting a stored server that is not running and whose type is none
    of [brave-search], [github], [filesystem], [custom] is answered
    [{success: false, message: "Unsupported server type"}]; nothing is
    spawned and the world is unchanged. *)
Theorem X4_unsupported_type (w : World) (serverId : string) (ws : nat)
    (server : ServerRecord) :
  store w !! serverId = Some server →
  runningServers w !! serverId = None →
  type server ≠ "brave-search" → type server ≠ "github" →
  type server ≠ "filesystem" → type server ≠ "custom" →
  Manager.startServer serverId ws w =
    (Ok tt, w, [ESend ws (Reply false "Unsupported server type")]).
Proof.
  intros Hs Hr H1 H2 H3 H4. handler. rewrite Hs, (registry_has_None _ _ Hr).
  unfold Manager.launch.
  destruct (decide (type server = "brave-search")); [done |].
  destruct (decide (type server = "github")); [done |].
  destruct (decide (type server = "filesystem")); [done |].
  destruct (decide (type server = "custom")); [done |].
  reflexivity.
Qed.

Lemma X4_unsupported_type_witness :
  Manager.startServer "srv1" 0
    (Sample.world (Sample.record "gitlab" creating None) ∅) =
    (Ok tt, Sample.world (Sample.record "gitlab" creating None) ∅,
     [ESend 0 (Reply false "Unsupported server type")]).
Proof.
  apply (X4_unsupported_type (Sample.world (Sample.record "gitlab" creating None) ∅)
           "srv1" 0 (Sample.record "gitlab" creating None));
    [reflexivity | reflexivity | discriminate | discriminate | discriminate | discriminate].
Defined.

(** ** The status reply *)

(** X5: for a stored server, the [status] field of the reply to a status
    command is ["running"] exactly when the Registry holds an entry for the
    identity, whatever the persisted status says; the [server] object carries
    the stored name, type, request count and last activity. *)
Theorem X5_status_reports_registry (w : World) (serverId : string) (ws : nat)
    (server : ServerRecord) :
  store w !! serverId = Some server →
  ∃ st,
    trace_of (Manager.getServerStatus serverId ws w) =
      [ESend ws
         (ReplyStatus st
            {| info_id := serverId; info_name := name server;
               info_type := type server;
               info_requestCount := requestCount server;
               info_lastActivity := lastActivity server |})] ∧
    (st = "running" ↔ is_Some (runningServers w !! serverId)) ∧
    (st = "stopped" ↔ runningServers w !! serverId = None).
Proof.
  intros Hs. handler. rewrite Hs. cbn.
  destruct (runningServers w !! serverId) as [p|] eqn:Hr.
  - exists "running". rewrite bool_decide_eq_true_2 by eauto.
    split; [reflexivity |]. split; split; intros; eauto; discriminate.
  - exists "stopped". rewrite bool_decide_eq_false_2 by (apply is_Some_None).
    split; [reflexivity |]. split; split; intros H; try done.
Qed.

Lemma X5_status_reports_registry_witness :
  ∃ info,
    trace_of (Manager.getServerStatus "srv1" 0
                (Sample.world (Sample.record "filesystem" stopped None) {[ "srv1" := 7 ]})) =
      [ESend 0 (ReplyStatus "running" info)].
Proof.
  destruct (X5_status_reports_registry
              (Sample.world (Sample.record "filesystem" stopped None) {[ "srv1" := 7 ]})
              "srv1" 0 (Sample.record "filesystem" stopped None) eq_refl)
    as (st & Htrace & Hrun & _).
  assert (st = "running") as -> by (apply Hrun; vm_compute; eauto).
  eexists. exact Htrace.
Defined.

(** ** What an event can do to the world *)

Lemma startServer_shape (w : World) (serverId : string) (ws : nat) :
  step_shape w (world_of (Manager.startServer serverId ws w)).
Proof.
  handler. destruct (store w !! serverId) as [server|] eqn:Hs; [| constructor].
  destruct (runningServers w !! serverId) as [p|] eqn:Hr.
  { rewrite bool_decide_eq_true_2 by eauto. constructor. }
  rewrite bool_decide_eq_false_2 by apply is_Some_None.
  destruct (launch_cases serverId server w) as [[e H] | [H | (c & argv & H)]];
    rewrite H; try constructor.
  exact (shape_started w serverId server Hs Hr).
Qed.

Lemma stopServer_shape (w : World) (serverId : string) (ws : nat) :
  step_shape w (world_of (Manager.stopServer serverId ws w)).
Proof.
  destruct (store w !! serverId) as [server|] eqn:Hs.
  - destruct (runningServers w !! serverId) as [p|] eqn:Hr.
    + rewrite (stopServer_running _ _ _ _ _ Hs Hr).
      exact (shape_ended w serverId server stopped Hs ltac:(discriminate)).
    + rewrite (stopServer_not_running _ _ _ _ Hs Hr). constructor.
  - handler. rewrite Hs. constructor.
Qed.

Lemma on_message_shape (w : World) (ws : nat) (message : Manager.Frame) :
  step_shape w (world_of (Manager.on_message ws message w)).
Proof.
  destruct message as [detail | | d]; channel; try constructor.
  destruct (decide (Manager.data_command d = Some "start")).
  { pose proof (startServer_shape w (Manager.data_serverId d) ws) as H.
    destruct (Manager.startServer _ ws w) as [[[[]|err] w'] t]; exact H. }
  destruct (decide (Manager.data_command d = Some "stop")).
  { pose proof (stopServer_shape w (Manager.data_serverId d) ws) as H.
    destruct (Manager.stopServer _ ws w) as [[[[]|err] w'] t]; exact H. }
  destruct (decide (Manager.data_command d = Some "status")); [| constructor].
  pose proof (getServerStatus_world w (Manager.data_serverId d) ws) as H.
  destruct (Manager.getServerStatus _ ws w) as [[[[]|err] w'] t];
    cbn in H |- *; subst w'; constructor.
Qed.

Lemma on_exit_shape (w : World) (serverId : string) (code : option Z) :
  step_shape w (world_of (Manager.on_exit serverId code w)).
Proof.
  destruct (store w !! serverId) as [server|] eqn:Hs.
  - rewrite (on_exit_present _ _ _ _ Hs). cbn zeta.
    apply (shape_ended w serverId server _ Hs).
    destruct (decide (code = Some 0%Z)); discriminate.
  - rewrite (on_exit_absent _ _ _ Hs). constructor.
Qed.

Lemma on_error_shape (w : World) (serverId : string) (error : string) :
  step_shape w (world_of (Manager.on_error serverId error w)).
Proof.
  destruct (store w !! serverId) as [server|] eqn:Hs.
  - rewrite (on_error_present _ _ _ _ Hs).
    exact (shape_ended w serverId server failed Hs ltac:(discriminate)).
  - rewrite (on_error_absent _ _ _ Hs). constructor.
Qed.

Lemma registry_sound_shape (w w' : World) :
  step_shape w w' → registry_sound w → registry_sound w'.
Proof.
  intros Hshape Hinv.
  destruct Hshape as [| id server Hs Hr | id server s Hs Hne | id server n t Hs Hst];
    [exact Hinv | | |]; intros id' p Hp; cbn in *.
  - destruct (decide (id = id')) as [<-|Hid].
    + rewrite lookup_insert_eq in Hp. injection Hp as <-.
      rewrite !lookup_insert_eq. split; [reflexivity |]. split; [lia |]. eauto.
    + rewrite lookup_insert_ne in Hp by done.
      destruct (Hinv id' p Hp) as (Ho & Hlt & Hst).
      rewrite lookup_insert_ne by lia. rewrite lookup_insert_ne by done.
      split; [exact Ho |]. split; [lia | exact Hst].
  - destruct (decide (id = id')) as [<-|Hid].
    + rewrite lookup_delete_eq in Hp. discriminate.
    + rewrite lookup_delete_ne in Hp by done. rewrite lookup_insert_ne by done.
      exact (Hinv id' p Hp).
  - destruct (Hinv id' p Hp) as (Ho & Hlt & Hst').
    split; [exact Ho |]. split; [exact Hlt |].
    destruct (decide (id = id')) as [<-|Hid].
    + rewrite lookup_insert_eq. eauto.
    + rewrite lookup_insert_ne by done. exact Hst'.
Qed.

Section MoreRuns.

Variable regex_test : string → option (string → bool).

Lemma mcp_route_shape (req : Manager.McpRequest) (now : Z) (w : World) :
  step_shape w (world_of (Manager.mcp_route regex_test req now w)).
Proof.
  unfold Manager.mcp_route, Manager.verifyServerAuth.
  destruct (Manager.X_Server_Key req) as [key|]; [| constructor].
  destruct (decide (key = "")); [constructor |].
  rewrite mcp_handler_cases.
  destruct (resolved regex_test req w) as [| |id server] eqn:Hres;
    [constructor | constructor |].
  destruct (decide (status server ≠ running)) as [|Hrun]; [constructor |].
  destruct (runningServers w !! id); [| constructor].
  apply (shape_counted w id server (requestCount server + 1) now).
  - apply (resolved_in_store regex_test req w id server Hres).
  - destruct (decide (status server = running)); [assumption | contradiction].
Qed.

Lemma step_shape_step (i : Manager.Input) (w : World) :
  step_shape w (world_of (Manager.step regex_test i w)).
Proof.
  destruct i as [ws message | p code | p error | req now]; cbn.
  - apply on_message_shape.
  - unfold Manager.observed. destruct (observers w !! p); [| constructor].
    apply on_exit_shape.
  - unfold Manager.observed. destruct (observers w !! p); [| constructor].
    apply on_error_shape.
  - pose proof (mcp_route_shape req now w) as H.
    unfold mbind, M_bind, bind.
    destruct (Manager.mcp_route regex_test req now w) as [[[r|err] w'] t]; exact H.
Qed.

Lemma reachable_registry_sound (w : World) :
  Manager.reachable regex_test w → registry_sound w.
Proof.
  intros (documents & penv & inputs & ->).
  assert (registry_sound (Manager.boot documents penv)) as Hboot.
  { intros id p H. cbn in H. rewrite lookup_empty in H. discriminate. }
  revert Hboot. generalize (Manager.boot documents penv).
  induction inputs as [| i rest IH]; intros w Hinv; [exact Hinv |].
  cbn. apply IH. exact (registry_sound_shape _ _ (step_shape_step i w) Hinv).
Qed.

(** X7: in every world the manager can reach, no child process is
    registered under two identities. *)
Theorem X7_one_identity_per_process (w : World) (id1 id2 : string) (p : nat) :
  Manager.reachable regex_test w →
  runningServers w !! id1 = Some p →
  runningServers w !! id2 = Some p →
  id1 = id2.
Proof.
  intros Hreach H1 H2.
  destruct (reachable_registry_sound w Hreach id1 p H1) as (Ho1 & _).
  destruct (reachable_registry_sound w Hreach id2 p H2) as (Ho2 & _).
  congruence.
Qed.

End MoreRuns.

Lemma X7_one_identity_per_process_witness :
  let w := Manager.run Sample.regex_test [Manager.InMessage 0 Sample.start_frame]
             (Manager.boot Sample.documents ∅) in
  runningServers w !! "srv1" = Some 0%nat ∧ "srv1" = "srv1".
Proof.
  intros w.
  assert (Manager.reachable Sample.regex_test w) as Hreach.
  { exists Sample.documents, ∅, [Manager.InMessage 0 Sample.start_frame]. reflexivity. }
  assert (runningServers w !! "srv1" = Some 0%nat) as Hr by reflexivity.
  split; [exact Hr |].
  exact (X7_one_identity_per_process Sample.regex_test w "srv1" "srv1" 0 Hreach Hr Hr).
Defined.

(** ** Stop, restart and the late exit event *)

Section Races.

Variable regex_test : string → option (string → bool).

(** X8: when a running server is stopped and the exit event of the signalled
    process then arrives without an exit code, the exit handler overwrites
    the [stopped] that the stop persisted: the record ends up [failed]. *)
Theorem X8_stop_then_signal_exit (w : World) (serverId : string) (ws p : nat) :
  Manager.reachable regex_test w →
  runningServers w !! serverId = Some p →
  let w1 := world_of (Manager.stopServer serverId ws w) in
  let w2 := world_of (Manager.step regex_test (Manager.InExit p None) w1) in
  status <$> store w1 !! serverId = Some stopped ∧
  status <$> store w2 !! serverId = Some failed ∧
  runningServers w2 !! serverId = None.
Proof.
  intros Hreach Hr w1 w2. subst w1 w2.
  destruct (reachable_registry_sound regex_test w Hreach serverId p Hr)
    as (Ho & _ & server & Hs & _).
  rewrite (stopServer_running _ _ _ _ _ Hs Hr). cbn [world_of fst snd].
  split; [cbn; rewrite lookup_insert_eq; reflexivity |].
  cbn [Manager.step]. unfold Manager.observed. cbn [observers with_store with_registry].
  rewrite Ho.
  rewrite (on_exit_present _ _ _ (set_status stopped server))
    by (cbn; apply lookup_insert_eq).
  cbn. rewrite lookup_insert_eq, lookup_delete_eq. auto.
Qed.

(** X9: the exit handler removes the Registry entry by identity, not by
    process. When a running filesystem server is stopped and started again,
    the Registry holds the new process; the exit event of the old process
    then removes that entry and persists the old process's outcome, though
    the new process has not ended. *)
Theorem X9_late_exit_unregisters_restart (w : World) (serverId : string) (ws p : nat)
    (server : ServerRecord) (cfg : Config) (code : option Z) :
  Manager.reachable regex_test w →
  runningServers w !! serverId = Some p →
  store w !! serverId = Some server →
  type server = "filesystem" →
  config server = Some cfg →
  let w1 := world_of (Manager.stopServer serverId ws w) in
  let w2 := world_of (Manager.startServer serverId ws w1) in
  let w3 := world_of (Manager.step regex_test (Manager.InExit p code) w2) in
  runningServers w2 !! serverId = Some (next_process w) ∧
  next_process w ≠ p ∧
  observers w2 !! next_process w = Some serverId ∧
  runningServers w3 !! serverId = None ∧
  status <$> store w3 !! serverId =
    Some (if decide (code = Some 0%Z) then stopped else failed).
Proof.
  intros Hreach Hr Hs Hty Hcfg w1 w2 w3. subst w1 w2 w3.
  destruct (reachable_registry_sound regex_test w Hreach serverId p Hr)
    as (Ho & Hlt & _).
  rewrite (stopServer_running _ _ _ _ _ Hs Hr). cbn [world_of fst snd].
  set (w1 := with_store _ _).
  assert (store w1 !! serverId = Some (set_status stopped server)) as Hs1.
  { subst w1. cbn. apply lookup_insert_eq. }
  assert (runningServers w1 !! serverId = None) as Hr1.
  { subst w1. cbn. apply lookup_delete_eq. }
  rewrite (startServer_filesystem w1 serverId ws (set_status stopped server) cfg
             Hs1 Hr1 Hty Hcfg).
  cbn [world_of fst snd].
  assert (next_process w1 = next_process w) as Hnp by reflexivity.
  split; [cbn; apply lookup_insert_eq |]. split; [lia |].
  split; [cbn; apply lookup_insert_eq |].
  cbn [Manager.step]. unfold Manager.observed.
  assert (observers (started serverId (set_status stopped server) w1) !! p = Some serverId)
    as Ho2.
  { cbn. rewrite lookup_insert_ne by lia. exact Ho. }
  rewrite Ho2.
  rewrite (on_exit_present _ _ _ (set_status running (set_status stopped server)))
    by (cbn; apply lookup_insert_eq).
  cbn. rewrite lookup_insert_eq, lookup_delete_eq. cbn.
  destruct (decide (code = Some 0%Z)); auto.
Qed.

End Races.

Lemma X8_stop_then_signal_exit_witness :
  let w := Manager.run Sample.regex_test [Manager.InMessage 0 Sample.start_frame]
             (Manager.boot Sample.documents ∅) in
  let w1 := world_of (Manager.stopServer "srv1" 0 w) in
  let w2 := world_of (Manager.step Sample.regex_test (Manager.InExit 0 None) w1) in
  status <$> store w1 !! "srv1" = Some stopped ∧
  status <$> store w2 !! "srv1" = Some failed.
Proof.
  intros w.
  assert (Manager.reachable Sample.regex_test w) as Hreach.
  { exists Sample.documents, ∅, [Manager.InMessage 0 Sample.start_frame]. reflexivity. }
  assert (runningServers w !! "srv1" = Some 0%nat) as Hr by reflexivity.
  pose proof (X8_stop_then_signal_exit Sample.regex_test w "srv1" 0 0 Hreach Hr) as H.
  cbv zeta in H. destruct H as (H1 & H2 & _). split; [exact H1 | exact H2].
Defined.

Lemma X9_late_exit_unregisters_restart_witness :
  let w := Manager.run Sample.regex_test [Manager.InMessage 0 Sample.start_frame]
             (Manager.boot Sample.documents ∅) in
  let w1 := world_of (Manager.stopServer "srv1" 0 w) in
  let w2 := world_of (Manager.startServer "srv1" 0 w1) in
  let w3 := world_of (Manager.step Sample.regex_test (Manager.InExit 0 None) w2) in
  runningServers w2 !! "srv1" = Some 1%nat ∧
  runningServers w3 !! "srv1" = None.
Proof.
  intros w.
  assert (Manager.reachable Sample.regex_test w) as Hreach.
  { exists Sample.documents, ∅, [Manager.InMessage 0 Sample.start_frame]. reflexivity. }
  assert (runningServers w !! "srv1" = Some 0%nat) as Hr by reflexivity.
  pose proof (X9_late_exit_unregisters_restart Sample.regex_test w "srv1" 0 0
                (set_status running (Sample.record "filesystem" creating (Some Sample.no_config)))
                Sample.no_config None Hreach Hr eq_refl eq_refl eq_refl) as H.
  cbv zeta in H. destruct H as (H1 & _ & _ & H3 & _). split; [exact H1 | exact H3].
Defined.

(** ** One reply per frame *)

(** A handler outcome that ends with exactly one frame sent on [ws], after
    effects none of which touches a connection. *)
Lemma one_reply_intro (w' : World) (ws : nat) (pre : list Effect) (r : Response) :
  Forall (λ e, on_connection e = false) pre →
  ∃ w'' pre' r',
    (Ok tt, w', pre ++ [ESend ws r]) = (Ok tt, w'', pre' ++ [ESend ws r']) ∧
    Forall (λ e, on_connection e = false) pre'.
Proof. intros H. exists w', pre, r. split; [reflexivity | exact H]. Qed.

Lemma startServer_one_reply (w : World) (serverId : string) (ws : nat) :
  ∃ w' pre r,
    Manager.startServer serverId ws w = (Ok tt, w', pre ++ [ESend ws r]) ∧
    Forall (λ e, on_connection e = false) pre.
Proof.
  handler. destruct (store w !! serverId) as [server|] eqn:Hs;
    [| apply (one_reply_intro w ws []); constructor].
  destruct (bool_decide (is_Some (runningServers w !! serverId)));
    [apply (one_reply_intro w ws []); constructor |].
  destruct (launch_cases serverId server w) as [[e H] | [H | (c & argv & H)]];
    rewrite H.
  - apply (one_reply_intro w ws []); constructor.
  - apply (one_reply_intro w ws []); constructor.
  - cbn. eexists _, [_; _; _], _. split; [reflexivity |]. repeat constructor.
Qed.

Lemma stopServer_one_reply (w : World) (serverId : string) (ws : nat) :
  ∃ w' pre r,
    Manager.stopServer serverId ws w = (Ok tt, w', pre ++ [ESend ws r]) ∧
    Forall (λ e, on_connection e = false) pre.
Proof.
  destruct (store w !! serverId) as [server|] eqn:Hs.
  - destruct (runningServers w !! serverId) as [p|] eqn:Hr.
    + rewrite (stopServer_running _ _ _ _ _ Hs Hr).
      eexists _, [_; _; _], _. split; [reflexivity |]. repeat constructor.
    + rewrite (stopServer_not_running _ _ _ _ Hs Hr).
      apply (one_reply_intro w ws []); constructor.
  - handler. rewrite Hs. apply (one_reply_intro w ws []); constructor.
Qed.

Lemma getServerStatus_one_reply (w : World) (serverId : string) (ws : nat) :
  ∃ w' pre r,
    Manager.getServerStatus serverId ws w = (Ok tt, w', pre ++ [ESend ws r]) ∧
    Forall (λ e, on_connection e = false) pre.
Proof.
  handler. destruct (store w !! serverId) as [server|];
    apply (one_reply_intro w ws []); constructor.
Qed.

(** X10: whatever the frame and whatever the world, the message handler
    does not throw, and the calls it makes end with exactly one frame sent
    on the connection the message came from; before it, nothing is sent or
    closed on any connection. *)
Theorem X10_one_reply_per_frame (w : World) (ws : nat) (message : Manager.Frame) :
  ∃ w' pre r,
    Manager.on_message ws message w = (Ok tt, w', pre ++ [ESend ws r]) ∧
    Forall (λ e, on_connection e = false) pre.
Proof.
  destruct message as [detail | | d]; channel;
    try (apply (one_reply_intro w ws []); constructor).
  destruct (decide (Manager.data_command d = Some "start")).
  { destruct (startServer_one_reply w (Manager.data_serverId d) ws)
      as (w' & pre & r & -> & Hpre). eauto. }
  destruct (decide (Manager.data_command d = Some "stop")).
  { destruct (stopServer_one_reply w (Manager.data_serverId d) ws)
      as (w' & pre & r & -> & Hpre). eauto. }
  destruct (decide (Manager.data_command d = Some "status")).
  { destruct (getServerStatus_one_reply w (Manager.data_serverId d) ws)
      as (w' & pre & r & -> & Hpre). eauto. }
  apply (one_reply_intro w ws []); constructor.
Qed.

(** ** The request router's guard *)

(** X11: a proxied request without an [X-Server-Key] header, or with an
    empty one, is answered 401 "Authentication required" before any lookup:
    the world is unchanged and nothing is saved, even when the addressed
    server is running. *)
Theorem X11_router_requires_server_key (regex_test : string → option (string → bool))
    (req : Manager.McpRequest) (now : Z) (w : World) :
  Manager.X_Server_Key req = None ∨ Manager.X_Server_Key req = Some "" →
  Manager.mcp_route regex_test req now w =
    (Ok {| Manager.code := 401;
           Manager.body := Manager.ErrorBody "Authentication required" |}, w, []).
Proof.
  intros [H | H]; unfold Manager.mcp_route, Manager.verifyServerAuth; rewrite H;
    reflexivity.
Qed.

Lemma X11_router_requires_server_key_witness :
  Manager.mcp_route Sample.regex_test
    {| Manager.X_Server_Key := None; Manager.userId := "u1";
       Manager.req_serverId := "e1" |} 1000 Sample.running_world =
    (Ok {| Manager.code := 401;
           Manager.body := Manager.ErrorBody "Authentication required" |},
     Sample.running_world, []).
Proof.
  apply (X11_router_requires_server_key Sample.regex_test
           {| Manager.X_Server_Key := None; Manager.userId := "u1";
              Manager.req_serverId := "e1" |} 1000 Sample.running_world).
  left. reflexivity.
Defined.

(** ** Credentials in the manager *)

(** X12: in the manager, [getDecryptedApiKey] returns the empty string for
    every server and every key, stored credential or not: the [crypto]
    it calls is Node's own module, reading [crypto.AES.decrypt] throws, and
    the handler substitutes the empty string. It has no effect on the
    world. *)
Theorem X12_manager_never_decrypts (server : ServerRecord) (key : string) (w : World) :
  Manager.getDecryptedApiKey server key w = (Ok "", w, []).
Proof.
  unfold Manager.getDecryptedApiKey.
  destruct (apiKeys server) as [keys|]; [| reflexivity].
  destruct (keys !! key) as [value|]; [| reflexivity].
  destruct (decide (value = "")); [reflexivity |].
  unfold try_catch, mbind, M_bind, bind, global_process_env, member_AES.
  reflexivity.
Qed.

(** * Further properties of the API *)

(** ** Ownership *)

Section Ownership.

Variable aes : Cipher.

(** X13: a caller who neither owns a stored server nor has the role
    [admin] changes nothing through the routes on [/:id]: reading the
    server, reading its configuration and deleting it are answered 403, the
    two writes (credential, status) are not answered 200, and in every case
    the store, and the users for a delete, are as before. *)
Theorem X13_strangers_change_nothing (w : World) (id : string)
    (server : ServerRecord) (u : Routes.User) (users : gmap string Api.UserRecord)
    (key value status : option string) :
  store w !! id = Some server →
  owner server ≠ Routes.id u →
  Routes.role u ≠ "admin" →
  let req := {| Api.params_id := id; Api.user := u |} in
  (∃ reason,
     Api.get_server req w = (Ok {| Api.code := 403; Api.body := Api.Message false reason |}, w, [])) ∧
  (∃ reason,
     Api.get_config req w = (Ok {| Api.code := 403; Api.body := Api.Message false reason |}, w, [])) ∧
  (∃ reason,
     Api.delete_server req users w =
       (Ok ({| Api.code := 403; Api.body := Api.Message false reason |}, users), w, [])) ∧
  (∃ r, Routes.put_apikey aes
          {| Routes.params_id := id; Routes.body_key := key;
             Routes.body_value := value; Routes.user := u |} w = (Ok r, w, []) ∧
        Routes.http_code r ≠ 200%nat) ∧
  (∃ r, Routes.put_status aes
          {| Routes.status_params_id := id; Routes.body_status := status;
             Routes.status_user := u |} w = (Ok r, w, []) ∧
        Routes.http_code r ≠ 200%nat).
Proof.
  intros Hs Ho Hr req. subst req.
  assert (Routes.not_authorized server u = true) as Hna.
  { unfold Routes.not_authorized. rewrite !bool_decide_eq_true_2 by done. reflexivity. }
  repeat split.
  - unfold Api.get_server, try_catch, mbind, M_bind, bind, Model.findById. cbn.
    rewrite Hs. cbn. rewrite Hna. eauto.
  - unfold Api.get_config, try_catch, mbind, M_bind, bind, Model.findById. cbn.
    rewrite Hs. cbn. rewrite Hna. eauto.
  - unfold Api.delete_server, try_catch, mbind, M_bind, bind, Model.findById. cbn.
    rewrite Hs. cbn. rewrite Hna. eauto.
  - unfold Routes.put_apikey, Routes.validateApiKey. cbn.
    destruct key as [k|]; [| eexists; split; [reflexivity | discriminate]].
    destruct value as [v|].
    + destruct (Routes.trims_to_empty k); [eexists; split; [reflexivity | discriminate] |].
      destruct (Routes.trims_to_empty v); [eexists; split; [reflexivity | discriminate] |].
      unfold try_catch, mbind, M_bind, bind, Model.findById. cbn.
      rewrite Hs. cbn. rewrite Hna. eexists; split; [reflexivity | discriminate].
    + destruct (Routes.trims_to_empty k); eexists; split; try reflexivity; discriminate.
  - unfold Routes.put_status, try_catch.
    cbn [Routes.body_status Routes.status_params_id Routes.status_user].
    destruct status as [s|]; [| eexists; split; [reflexivity | discriminate]].
    destruct (if decide (s = "running") then Some running
              else if decide (s = "stopped") then Some stopped else None) as [st|];
      [| eexists; split; [reflexivity | discriminate]].
    unfold mbind, M_bind, bind, Model.findById. cbn.
    rewrite Hs. cbn. rewrite Hna. eexists; split; [reflexivity | discriminate].
Qed.

End Ownership.

Lemma X13_strangers_change_nothing_witness :
  ∃ reason,
    Api.delete_server {| Api.params_id := "srv1"; Api.user := MoreApi.stranger |}
      MoreApi.users Sample.running_world =
      (Ok ({| Api.code := 403; Api.body := Api.Message false reason |}, MoreApi.users),
       Sample.running_world, []).
Proof.
  pose proof (X13_strangers_change_nothing Sample.cipher Sample.running_world "srv1"
                (Sample.record "filesystem" running (Some Sample.no_config))
                MoreApi.stranger MoreApi.users None None None eq_refl
                ltac:(discriminate) ltac:(discriminate)) as H.
  cbv zeta in H. destruct H as (_ & _ & H & _). exact H.
Defined.

(** X14: the configuration route discloses a server's key only to its owner
    or to an admin: whenever it answers with a configuration, the server is
    in the store, the caller owns it or is an admin, and the configuration
    is the one generated from that record, a single [curl -s endpoint]
    entry under the server's type with [SERVER_KEY] in its environment. *)
Theorem X14_config_only_for_owner (req : Api.IdRequest) (w : World)
    (mcpServers : gmap string Api.McpServerEntry) (c : nat) :
  result_of (Api.get_config req w) = Ok {| Api.code := c; Api.body := Api.WithConfig mcpServers |} →
  ∃ server,
    store w !! Api.params_id req = Some server ∧
    (owner server = Routes.id (Api.user req) ∨ Routes.role (Api.user req) = "admin") ∧
    c = 200%nat ∧
    mcpServers !! type server =
      Some {| Api.entry_command := "curl";
              Api.entry_args := ["-s"; endpoint server];
              Api.entry_env := {[ "SERVER_KEY" := serverKey server ]} |} ∧
    ∀ ty, ty ≠ type server → mcpServers !! ty = None.
Proof.
  unfold Api.get_config, try_catch, mbind, M_bind, bind, Model.findById. cbn.
  destruct (store w !! Api.params_id req) as [server|] eqn:Hs; cbn; [| discriminate].
  destruct (Routes.not_authorized server (Api.user req)) eqn:Hna; cbn; [discriminate |].
  intros H. injection H as <- <-. exists server. split; [reflexivity |]. split.
  - unfold Routes.not_authorized in Hna. apply andb_false_iff in Hna as [H | H];
      apply bool_decide_eq_false in H.
    + left. destruct (decide (owner server = Routes.id (Api.user req))); [done | contradiction].
    + right. destruct (decide (Routes.role (Api.user req) = "admin")); [done | contradiction].
  - split; [reflexivity |]. unfold Api.generateClaudeConfig. split.
    + apply lookup_singleton_eq.
    + intros ty Hty. apply lookup_singleton_ne. congruence.
Qed.

Lemma X14_config_only_for_owner_witness :
  ∃ server,
    store Sample.running_world !! "srv1" = Some server ∧
    (owner server = "u1" ∨ "user" = "admin").
Proof.
  destruct (X14_config_only_for_owner
              {| Api.params_id := "srv1"; Api.user := Sample.owner_u1 |}
              Sample.running_world
              (Api.generateClaudeConfig
                 (Sample.record "filesystem" running (Some Sample.no_config)))
              200 eq_refl) as (server & Hs & Ho & _).
  exists server. split; [exact Hs | exact Ho].
Defined.

(** ** Deleting a server that is running *)

(** X15: when its owner or an admin deletes a server that is running, the
    record leaves the store and the identity leaves the owner's list, but the
    manager is told nothing: no termination signal is sent and the Registry
    keeps the entry. From then on a stop command for the identity is
    answered "Server not found" without signalling the process, and the exit
    event of the process changes nothing, so the Registry entry stays. *)
Theorem X15_delete_leaves_process (w : World) (id : string) (server : ServerRecord)
    (u : Routes.User) (users : gmap string Api.UserRecord) (p ws : nat)
    (code : option Z) :
  store w !! id = Some server →
  owner server = Routes.id u ∨ Routes.role u = "admin" →
  runningServers w !! id = Some p →
  let out := Api.delete_server {| Api.params_id := id; Api.user := u |} users w in
  let w1 := world_of out in
  result_of out =
    Ok ({| Api.code := 200; Api.body := Api.Message true "Server deleted successfully" |},
        Api.pull_server (owner server) id users) ∧
  trace_of out = [] ∧
  store w1 !! id = None ∧
  runningServers w1 !! id = Some p ∧
  (∀ o, Api.pull_server (owner server) id users !! owner server = Some o →
        id ∉ Api.servers o) ∧
  Manager.stopServer id ws w1 = (Ok tt, w1, [ESend ws (Reply false "Server not found")]) ∧
  Manager.on_exit id code w1 = (Ok tt, w1, []).
Proof.
  intros Hs Hauth Hr out w1. subst w1 out.
  assert (Routes.not_authorized server u = false) as Hna.
  { unfold Routes.not_authorized. apply andb_false_iff.
    destruct Hauth as [H | H]; [left | right]; apply bool_decide_eq_false;
      intros Hn; exact (Hn H). }
  unfold Api.delete_server, try_catch, mbind, M_bind, bind, Model.findById. cbn.
  rewrite Hs. cbn. rewrite Hna. cbn.
  split; [reflexivity |]. split; [reflexivity |].
  assert (delete id (store w) !! id = None) as Hgone by apply lookup_delete_eq.
  split; [exact Hgone |]. split; [exact Hr |]. split.
  - intros o Ho. unfold Api.pull_server in Ho. rewrite lookup_alter_eq in Ho.
    destruct (users !! owner server) as [u0|]; [| discriminate].
    cbn in Ho. injection Ho as <-. cbn. intros Hin.
    apply list_elem_of_filter in Hin as [Hne _]. done.
  - split.
    + handler. cbn. rewrite Hgone. reflexivity.
    + apply on_exit_absent. exact Hgone.
Qed.

Lemma X15_delete_leaves_process_witness :
  let out := Api.delete_server {| Api.params_id := "srv1"; Api.user := Sample.owner_u1 |}
               MoreApi.users MoreApi.live_world in
  store (world_of out) !! "srv1" = None ∧
  runningServers (world_of out) !! "srv1" = Some 0%nat ∧
  Manager.on_exit "srv1" (Some 0%Z) (world_of out) = (Ok tt, world_of out, []).
Proof.
  pose proof (X15_delete_leaves_process MoreApi.live_world "srv1"
                (Sample.record "filesystem" running (Some Sample.no_config))
                Sample.owner_u1 MoreApi.users 0 0 (Some 0%Z) eq_refl
                (or_introl eq_refl) eq_refl) as H.
  cbv zeta in H. destruct H as (_ & _ & H1 & H2 & _ & _ & H3).
  split; [exact H1 |]. split; [exact H2 | exact H3].
Defined.

(** ** Writing a credential *)

Section Credentials.

Variable aes : Cipher.

(** X16: a credential whose name or value is missing, empty or made of
    white space only is refused with 400 before the server is looked up:
    nothing is read, encrypted or saved. *)
Theorem X16_blank_credential_refused (req : Routes.ApiKeyRequest) (w : World) :
  Routes.missing (Routes.body_key req) = true ∨
  Routes.missing (Routes.body_value req) = true →
  ∃ reason,
    Routes.put_apikey aes req w =
      (Ok {| Routes.http_code := 400; Routes.success := false;
             Routes.message := reason |}, w, []) ∧
    (reason = "API key name is required" ↔ Routes.missing (Routes.body_key req) = true).
Proof.
  intros H. unfold Routes.put_apikey, Routes.validateApiKey, Routes.missing in *.
  destruct (Routes.body_key req) as [k|], (Routes.body_value req) as [v|];
    try destruct (Routes.trims_to_empty k) eqn:Hk;
    try destruct (Routes.trims_to_empty v) eqn:Hv;
    try (destruct H; discriminate);
    eexists; (split; [reflexivity |]); split; intros; try done; discriminate.
Qed.

Lemma encrypt_entries_throws (key : option string) (entries : list (string * string))
    (acc : gmap string string) (w : World) :
  Exists (λ e, ∃ ex, encrypt aes e.2 key = Throw ex) entries →
  ∃ ex, Model.encrypt_entries aes key entries acc w = (Throw ex, w, []).
Proof.
  revert acc. induction entries as [| [name v] rest IH]; intros acc H.
  - inversion H.
  - cbn [Model.encrypt_entries]. unfold mbind, M_bind, bind. cbn.
    destruct (encrypt aes v key) as [c | ex] eqn:Hv; cbn; [| eauto].
    apply Exists_cons in H as [[ex Hex] | H]; [cbn in Hex; congruence |].
    destruct (IH (<[name := c]> acc) H) as [ex ->]. eauto.
Qed.

(** X17: when the cipher throws on one of the values of the new
    credentials object (as it does on every value when no encryption key is
    set), the route answers 500 "Failed to update API key" and the store is
    unchanged: no credential is written, encrypted or in the clear. *)
Theorem X17_failed_encryption_stores_nothing (req : Routes.ApiKeyRequest) (w : World)
    (key value name x : string) (server : ServerRecord) (ex : Exn) :
  Routes.body_key req = Some key →
  Routes.body_value req = Some value →
  Routes.trims_to_empty key = false →
  Routes.trims_to_empty value = false →
  store w !! Routes.params_id req = Some server →
  Routes.not_authorized server (Routes.user req) = false →
  default ∅ (apiKeys server) !! key ≠ Some value →
  <[key := value]> (default ∅ (apiKeys server)) !! name = Some x →
  encrypt aes x (process_env w !! "ENCRYPTION_KEY") = Throw ex →
  Routes.put_apikey aes req w =
    (Ok {| Routes.http_code := 500; Routes.success := false;
           Routes.message := "Failed to update API key" |}, w, []).
Proof.
  intros Hk Hv Hkt Hvt Hs Hauth Hnew Hx Hthrow.
  unfold Routes.put_apikey, Routes.validateApiKey. rewrite Hk, Hv, Hkt, Hvt.
  unfold try_catch, mbind, M_bind, bind, Model.findById. rewrite Hs. cbn.
  rewrite Hauth. unfold Model.save, mbind, M_bind, bind.
  set (doc := {| Model._id := Routes.params_id req; Model.fields := server;
                 Model.modified_apiKeys := false |}).
  change (Model.doc_apiKeys doc) with (default ∅ (apiKeys server)).
  unfold Model.assign_apiKeys.
  change (Model.doc_apiKeys doc) with (default ∅ (apiKeys server)).
  destruct (decide (default ∅ (apiKeys server)
                    = <[key := value]> (default ∅ (apiKeys server)))) as [Heq | _].
  { exfalso. apply Hnew. rewrite Heq. apply lookup_insert_eq. }
  unfold Model.pre_save. cbn [Model.modified_apiKeys andb].
  rewrite bool_decide_eq_true_2.
  2:{ cbn. destruct (decide (size (<[key := value]> (default ∅ (apiKeys server))) = 0%nat))
        as [Hz|Hz]; [| lia].
      apply map_size_empty_iff in Hz. by apply insert_non_empty in Hz. }
  unfold mbind, M_bind, bind. cbn.
  destruct (encrypt_entries_throws (process_env w !! "ENCRYPTION_KEY")
              (map_to_list (<[key := value]> (default ∅ (apiKeys server)))) ∅ w)
    as [ex' ->]; [| reflexivity].
  apply Exists_exists. exists (name, x). split.
  - apply elem_of_map_to_list. exact Hx.
  - cbn. eauto.
Qed.

End Credentials.

Lemma X16_blank_credential_refused_witness :
  Routes.put_apikey Sample.cipher
    {| Routes.params_id := "srv1"; Routes.body_key := Some MoreApi.no_break_space;
       Routes.body_value := None; Routes.user := Sample.owner_u1 |}
    (Sample.api_world ∅ "k1") =
    (Ok {| Routes.http_code := 400; Routes.success := false;
           Routes.message := "API key name is required" |}, Sample.api_world ∅ "k1", []).
Proof.
  destruct (X16_blank_credential_refused Sample.cipher
              {| Routes.params_id := "srv1"; Routes.body_key := Some MoreApi.no_break_space;
                 Routes.body_value := None; Routes.user := Sample.owner_u1 |}
              (Sample.api_world ∅ "k1") (or_intror eq_refl)) as (reason & H & Hiff).
  rewrite H. rewrite (proj2 Hiff eq_refl). reflexivity.
Defined.

Lemma X17_failed_encryption_stores_nothing_witness :
  Routes.put_apikey Sample.cipher (Sample.put "A" "a") MoreApi.keyless_world =
    (Ok {| Routes.http_code := 500; Routes.success := false;
           Routes.message := "Failed to update API key" |}, MoreApi.keyless_world, []).
Proof.
  assert (default ∅ (apiKeys (set_apiKeys ∅ (Sample.record "github" creating None))) !! "A"
          ≠ Some "a") as Hnew.
  { vm_compute. discriminate. }
  exact (X17_failed_encryption_stores_nothing Sample.cipher (Sample.put "A" "a")
           MoreApi.keyless_world "A" "a" "A" "a"
           (set_apiKeys ∅ (Sample.record "github" creating None))
           (TypeError "Cannot read properties of undefined")
           eq_refl eq_refl eq_refl eq_refl eq_refl eq_refl Hnew eq_refl eq_refl).
Defined.

(** ** The status route *)

(** X18: the status route accepts only [running] and [stopped]. For those,
    on behalf of the owner or an admin, it saves the record with that
    status and does nothing else: credentials and counters are saved as
    they were, no process is spawned or signalled, and the Registry is left
    alone, so the persisted status may say [running] for a server that has
    no process. Any other status, or none, is answered 400 and changes
    nothing. *)
Theorem X18_status_route_only_persists (aes : Cipher) (w : World) (id : string)
    (server : ServerRecord) (u : Routes.User) :
  store w !! id = Some server →
  owner server = Routes.id u ∨ Routes.role u = "admin" →
  let put s := Routes.put_status aes
                 {| Routes.status_params_id := id; Routes.body_status := s;
                    Routes.status_user := u |} w in
  (∀ s st, (s = "running" ∧ st = running) ∨ (s = "stopped" ∧ st = stopped) →
     ∃ r, put (Some s) =
            (Ok r, with_store (<[id := set_status st server]> (store w)) w,
             [ESave id (set_status st server)]) ∧
          Routes.http_code r = 200%nat ∧
          runningServers (world_of (put (Some s))) = runningServers w ∧
          apiKeys (set_status st server) = apiKeys server) ∧
  (∀ s, s ≠ "running" → s ≠ "stopped" →
     put (Some s) =
       (Ok {| Routes.http_code := 400; Routes.success := false;
              Routes.message := "Valid status is required (running/stopped)" |}, w, [])) ∧
  put None =
    (Ok {| Routes.http_code := 400; Routes.success := false;
           Routes.message := "Valid status is required (running/stopped)" |}, w, []).
Proof.
  intros Hs Hauth put. subst put. cbv beta.
  assert (Routes.not_authorized server u = false) as Hna.
  { unfold Routes.not_authorized. apply andb_false_iff.
    destruct Hauth as [H | H]; [left | right]; apply bool_decide_eq_false;
      intros Hn; exact (Hn H). }
  split; [| split].
  - intros s st Hst.
    assert ((if decide (s = "running") then Some running
             else if decide (s = "stopped") then Some stopped else None) = Some st) as Hdec.
    { destruct Hst as [[-> ->] | [-> ->]].
      - destruct (decide ("running" = "running")); congruence.
      - destruct (decide ("stopped" = "running")); [discriminate |].
        destruct (decide ("stopped" = "stopped")); congruence. }
    unfold Routes.put_status, try_catch.
    cbn [Routes.body_status Routes.status_params_id Routes.status_user].
    rewrite Hdec. unfold mbind, M_bind, bind, Model.findById. rewrite Hs. cbn.
    rewrite Hna. cbn. eexists. split; [reflexivity |]. auto.
  - intros s H1 H2. unfold Routes.put_status, try_catch.
    cbn [Routes.body_status].
    destruct (decide (s = "running")); [done |].
    destruct (decide (s = "stopped")); [done |]. reflexivity.
  - reflexivity.
Qed.

Lemma X18_status_route_only_persists_witness :
  let out := Routes.put_status Sample.cipher
               {| Routes.status_params_id := "srv1"; Routes.body_status := Some "running";
                  Routes.status_user := Sample.owner_u1 |} Sample.stopped_world in
  status <$> store (world_of out) !! "srv1" = Some running ∧
  runningServers (world_of out) !! "srv1" = None.
Proof.
  pose proof (X18_status_route_only_persists Sample.cipher Sample.stopped_world "srv1"
                (Sample.record "filesystem" stopped (Some Sample.no_config))
                Sample.owner_u1 eq_refl (or_introl eq_refl)) as H.
  cbv zeta in H. destruct H as (H & _).
  destruct (H "running" running (or_introl (conj eq_refl eq_refl))) as (r & Heq & _).
  cbv zeta. rewrite Heq. split; reflexivity.
Defined.

(** ** Creation and launch *)

(** X19: the creation validator lets a request through exactly when its
    name is not blank and its type is one of [brave-search], [github],
    [filesystem], [custom]; and for a record of any type it lets through,
    the manager's launch never falls to "Unsupported server type". *)
Theorem X19_created_types_are_supported (body_name body_type : option string) :
  (Api.validateServerCreation body_name body_type = None ↔
   Routes.missing body_name = false ∧
   ∃ ty, body_type = Some ty ∧
         (ty = "brave-search" ∨ ty = "github" ∨ ty = "filesystem" ∨ ty = "custom")) ∧
  (Api.validateServerCreation body_name body_type = None →
   ∀ serverId server w,
     Some (type server) = body_type →
     result_of (Manager.launch serverId server w) ≠ Ok None).
Proof.
  assert (Api.validateServerCreation body_name body_type = None →
          Routes.missing body_name = false ∧
          ∃ ty, body_type = Some ty ∧
                (ty = "brave-search" ∨ ty = "github" ∨ ty = "filesystem" ∨ ty = "custom"))
    as Hfwd.
  { unfold Api.validateServerCreation.
    destruct (Routes.missing body_name); [discriminate |].
    destruct body_type as [ty|]; [| discriminate].
    destruct (decide _) as [[_ Hin] | _]; [| discriminate].
    intros _. split; [reflexivity |]. exists ty. split; [reflexivity |].
    repeat (apply elem_of_cons in Hin as [-> | Hin]; [tauto |]).
    apply elem_of_nil in Hin. contradiction. }
  split; [split; [exact Hfwd |] |].
  - intros (Hn & ty & -> & Hty). unfold Api.validateServerCreation. rewrite Hn.
    destruct (decide _) as [_ | Hno]; [reflexivity |].
    exfalso. apply Hno. split.
    + destruct Hty as [-> | [-> | [-> | ->]]]; discriminate.
    + rewrite !elem_of_cons. destruct Hty as [-> | [-> | [-> | ->]]]; auto 10.
  - intros Hv serverId server w Hty.
    destruct (Hfwd Hv) as (_ & ty & -> & Hin). injection Hty as Hty.
    destruct (launch_cases serverId server w) as [[e H] | [H | (c & argv & H)]];
      rewrite H; cbn; try discriminate.
    exfalso. unfold Manager.launch in H.
    destruct (decide (type server = "brave-search")).
    { unfold Manager.startBraveSearchServer, mbind, M_bind, bind in H.
      rewrite getDecryptedApiKey_empty in H. discriminate. }
    destruct (decide (type server = "github")).
    { unfold Manager.startGithubServer, mbind, M_bind, bind in H.
      rewrite getDecryptedApiKey_empty in H. discriminate. }
    destruct (decide (type server = "filesystem")).
    { unfold Manager.startFilesystemServer, Manager.read_config, mbind, M_bind, bind in H.
      destruct (config server); discriminate. }
    destruct (decide (type server = "custom")).
    { unfold Manager.startCustomServer, Manager.read_config,
        Manager.Object_entries, mbind, M_bind, bind in H.
      destruct (config server) as [cfg|]; cbn in H; [| discriminate].
      destruct (apiKeys server) as [keys|]; cbn in H; [| discriminate].
      destruct (decrypt_entries_pure server (map_to_list keys) ∅ w) as [m Hm].
      rewrite Hm in H. discriminate. }
    destruct Hin as [? | [? | [? | ?]]]; congruence.
Qed.

Lemma X19_created_types_are_supported_witness :
  Api.validateServerCreation (Some "files") (Some "filesystem") = None ∧
  Api.validateServerCreation (Some MoreApi.wide_blank) (Some "filesystem") ≠ None ∧
  result_of (Manager.launch "srv1" (Sample.record "filesystem" creating None)
               Sample.stopped_world) ≠ Ok None.
Proof.
  pose proof (X19_created_types_are_supported (Some "files") (Some "filesystem")) as [_ H].
  pose proof (X19_created_types_are_supported (Some MoreApi.wide_blank)
                (Some "filesystem")) as [Hiff _].
  split; [reflexivity |]. split.
  - intros Hnone. apply (proj1 Hiff) in Hnone as [Hblank _]. discriminate Hblank.
  - exact (H eq_refl "srv1" (Sample.record "filesystem" creating None)
             Sample.stopped_world eq_refl).
Defined.

(** ** Authentication *)

Lemma substring_all (s : string) : substring 0 (String.length s) s = s.
Proof. induction s as [| c s IH]; cbn; [reflexivity | by rewrite IH]. Qed.

Lemma substring_after (p s : string) :
  substring (String.length p) (String.length (p +:+ s) - String.length p) (p +:+ s) = s.
Proof.
  induction p as [| c p IH]; cbn.
  - rewrite Nat.sub_0_r. apply substring_all.
  - exact IH.
Qed.

Lemma prefix_append (p s : string) : String.prefix p (p +:+ s) = true.
Proof.
  induction p as [| c p IH]; simpl; [by destruct s |].
  destruct (Ascii.ascii_dec c c); [exact IH | contradiction].
Qed.

Section AuthenticateFacts.

Variable jwt_verify : string → option string → Result Api.Token.

(** X20: [authenticate] answers 401 and leaves the world untouched unless
    the [Authorization] header, with its first ["Bearer "] cut out, is a
    non-empty token that verifies under [JWT_SECRET] for a user who exists
    and is active; only then does the rest of the chain run, with [req.user]
    made of the identity and the role that the token carries. A header
    ["Bearer t"] is read as the token [t]. *)
Theorem X20_authenticate_guards (authorization : option string)
    (users : gmap string Api.UserRecord) (next : Routes.User → M Api.Response)
    (w : World) :
  ((∃ reason,
      Api.authenticate jwt_verify authorization users next w =
        (Ok {| Api.code := 401; Api.body := Api.Message false reason |}, w, [])) ∨
   (∃ header decoded u,
      authorization = Some header ∧
      Api.remove_first "Bearer " header ≠ "" ∧
      jwt_verify (Api.remove_first "Bearer " header) (process_env w !! "JWT_SECRET")
        = Ok decoded ∧
      users !! Api.token_id decoded = Some u ∧
      Api.active u = true ∧
      Api.authenticate jwt_verify authorization users next w =
        next {| Routes.id := Api.token_id decoded;
                Routes.role := Api.token_role decoded |} w)) ∧
  ∀ t, Api.remove_first "Bearer " ("Bearer " +:+ t) = t.
Proof.
  split.
  - unfold Api.authenticate.
    destruct authorization as [header|]; cbn [fmap option_fmap option_map]; [| eauto].
    destruct (decide (Api.remove_first "Bearer " header = "")) as [| Hne]; [eauto |].
    unfold try_catch, mbind, M_bind, bind, global_process_env, lift.
    destruct (jwt_verify (Api.remove_first "Bearer " header)
                (process_env w !! "JWT_SECRET")) as [decoded | e] eqn:Hjwt;
      [| left; cbn; eauto].
    destruct (users !! Api.token_id decoded) as [u|] eqn:Hu; [| left; cbn; eauto].
    destruct (Api.active u) eqn:Ha; [| left; cbn; eauto].
    right. exists header, decoded, u. repeat (split; [done |]). cbn.
    destruct (next _ w) as [[r w'] t]. reflexivity.
  - intros t. unfold Api.remove_first.
    destruct ("Bearer " +:+ t) eqn:Heq; [discriminate |].
    rewrite <- Heq. rewrite prefix_append. apply substring_after.
Qed.

End AuthenticateFacts.

(** ** The rate limiter *)

Lemma rateLimiter_known (maxRequests : Z) (uid : string) (s : Api.Limiter)
    (u : Api.UserRecord) :
  Api.users s !! uid = Some u →
  Api.rateLimiter maxRequests uid s =
    if (maxRequests <? Api.apiRequestCount u + 1)%Z then
      (Some {| Api.code := 429;
               Api.body := Api.Message false "Rate limit exceeded. Please try again later." |},
       {| Api.users := <[uid := Api.set_count (Api.apiRequestCount u + 1) u]> (Api.users s);
          Api.timers := Api.timers s |})
    else
      (None,
       {| Api.users := <[uid := Api.set_count (Api.apiRequestCount u + 1) u]> (Api.users s);
          Api.timers := Api.timers s
                        ++ [{| Api.timer_user := uid;
                               Api.timer_count := (Api.apiRequestCount u + 1)%Z |}] |}).
Proof. intros H. unfold Api.rateLimiter. rewrite H. reflexivity. Qed.

Lemma requests_burst (maxRequests : Z) (uid : string) (n : nat) (s : Api.Limiter)
    (u : Api.UserRecord) :
  Api.users s !! uid = Some u →
  (Api.apiRequestCount u + Z.of_nat n ≤ maxRequests)%Z →
  Api.requests maxRequests uid n s =
    {| Api.users :=
         <[uid := Api.set_count (Api.apiRequestCount u + Z.of_nat n) u]> (Api.users s);
       Api.timers := Api.timers s ++ Api.burst_timers uid (Api.apiRequestCount u) n |}.
Proof.
  revert s u. induction n as [| n IH]; intros s u Hu Hle.
  - cbn. rewrite Z.add_0_r, app_nil_r. destruct s as [us ts]. cbn in *. f_equal.
    symmetry. apply insert_id. rewrite Hu. destruct u. reflexivity.
  - cbn [Api.requests]. rewrite (rateLimiter_known maxRequests uid s u Hu).
    destruct (maxRequests <? Api.apiRequestCount u + 1)%Z eqn:Hlt; [lia |]. cbn [snd].
    rewrite (IH _ (Api.set_count (Api.apiRequestCount u + 1) u)).
    + cbn. rewrite insert_insert_eq, <- app_assoc. cbn.
      replace (Api.apiRequestCount u + 1 + Z.of_nat n)%Z
        with (Api.apiRequestCount u + Z.of_nat (S n))%Z by lia.
      reflexivity.
    + cbn. apply lookup_insert_eq.
    + cbn. lia.
Qed.

Lemma fire_all_burst (uid : string) (c : Z) (n : nat)
    (us : gmap string Api.UserRecord) (u : Api.UserRecord) :
  us !! uid = Some u →
  Api.fire_all (S n) {| Api.users := us; Api.timers := Api.burst_timers uid c (S n) |} =
    {| Api.users := <[uid := Api.set_count (c + Z.of_nat n) u]> us; Api.timers := [] |}.
Proof.
  revert c us u. induction n as [| n IH]; intros c us u Hu.
  - cbn. rewrite Z.add_0_r. f_equal.
    apply map_eq. intros k. rewrite lookup_alter.
    destruct (decide (uid = k)) as [<-|Hne].
    + rewrite lookup_insert_eq, Hu. cbn. f_equal. unfold Api.set_count. f_equal. lia.
    + rewrite lookup_insert_ne by done. reflexivity.
  - change (Api.fire_all (S (S n)) ?s) with (Api.fire_all (S n) (Api.fire s)).
    cbn [Api.burst_timers Api.fire Api.timers Api.users Api.timer_user Api.timer_count].
    rewrite (IH (c + 1)%Z _ (Api.set_count (c + 1 - 1) u)).
    + f_equal. apply map_eq. intros k.
      destruct (decide (uid = k)) as [<-|Hne].
      * rewrite !lookup_insert_eq. f_equal. unfold Api.set_count. cbn. f_equal. lia.
      * rewrite !lookup_insert_ne by done. rewrite lookup_alter_ne by done. reflexivity.
    + rewrite lookup_alter_eq, Hu. reflexivity.
Qed.

(** X21: the timers do not undo a burst. When a user whose count is [c]
    and who has no timer pending makes [n ≥ 1] requests in a row that are
    all let through, and the [n] timers then fire in the order of the
    requests, the stored count is [c + n - 1], not [c]: each callback writes
    the count its own request saw, less one. *)
Theorem X21_burst_leaves_count_raised (maxRequests : Z) (uid : string) (n : nat)
    (s : Api.Limiter) (u : Api.UserRecord) :
  Api.users s !! uid = Some u →
  Api.timers s = [] →
  (Api.apiRequestCount u + Z.of_nat (S n) ≤ maxRequests)%Z →
  let after_requests := Api.requests maxRequests uid (S n) s in
  let after_timers := Api.fire_all (S n) after_requests in
  Api.apiRequestCount <$> Api.users after_requests !! uid
    = Some (Api.apiRequestCount u + Z.of_nat (S n))%Z ∧
  length (Api.timers after_requests) = S n ∧
  Api.apiRequestCount <$> Api.users after_timers !! uid
    = Some (Api.apiRequestCount u + Z.of_nat n)%Z ∧
  Api.timers after_timers = [].
Proof.
  intros Hu Ht Hle after_requests after_timers. subst after_requests after_timers.
  rewrite (requests_burst maxRequests uid (S n) s u Hu Hle), Ht. cbn [app].
  split; [cbn; rewrite lookup_insert_eq; reflexivity |]. split.
  { cbn. f_equal. clear. generalize (Api.apiRequestCount u + 1)%Z.
    induction n as [| n IH]; intros c; cbn; [reflexivity | by rewrite IH]. }
  rewrite (fire_all_burst uid _ n _ (Api.set_count (Api.apiRequestCount u + Z.of_nat (S n)) u))
    by apply lookup_insert_eq.
  cbn. rewrite lookup_insert_eq. split; reflexivity.
Qed.

Lemma X21_burst_leaves_count_raised_witness :
  let s := {| Api.users := MoreApi.users; Api.timers := [] |} in
  Api.apiRequestCount <$>
    Api.users (Api.fire_all 3 (Api.requests 100 "u1" 3 s)) !! "u1" = Some 2%Z.
Proof.
  pose proof (X21_burst_leaves_count_raised 100 "u1" 2
                {| Api.users := MoreApi.users; Api.timers := [] |}
                {| Api.servers := ["srv0"; "srv1"]; Api.active := true;
                   Api.apiRequestCount := 0 |} eq_refl eq_refl ltac:(cbn; lia)) as H.
  cbv zeta in H. destruct H as (_ & _ & H & _). exact H.
Defined.

(** X22: a user whose count has reached the limit while no timer is
    pending is locked out: every further request is answered 429, raises the
    count by one and schedules no timer, so nothing ever lowers the count
    again. *)
Theorem X22_lockout_is_permanent (maxRequests : Z) (uid : string) (n : nat)
    (s : Api.Limiter) (u : Api.UserRecord) :
  Api.users s !! uid = Some u →
  Api.timers s = [] →
  (maxRequests ≤ Api.apiRequestCount u)%Z →
  let later := Api.requests maxRequests uid n s in
  Api.apiRequestCount <$> Api.users later !! uid
    = Some (Api.apiRequestCount u + Z.of_nat n)%Z ∧
  Api.timers later = [] ∧
  Api.fire later = later ∧
  ∃ s', Api.rateLimiter maxRequests uid later =
          (Some {| Api.code := 429;
                   Api.body := Api.Message false
                                 "Rate limit exceeded. Please try again later." |}, s').
Proof.
  revert s u. induction n as [| n IH]; intros s u Hu Ht Hle later; subst later.
  - cbn [Api.requests]. rewrite Hu, Z.add_0_r. split; [reflexivity |].
    split; [exact Ht |]. split; [unfold Api.fire; rewrite Ht; reflexivity |].
    rewrite (rateLimiter_known maxRequests uid s u Hu).
    destruct (maxRequests <? Api.apiRequestCount u + 1)%Z eqn:Hlt; [eauto | lia].
  - cbn [Api.requests]. rewrite (rateLimiter_known maxRequests uid s u Hu).
    destruct (maxRequests <? Api.apiRequestCount u + 1)%Z eqn:Hlt; [| lia]. cbn [snd].
    specialize (IH {| Api.users :=
                        <[uid := Api.set_count (Api.apiRequestCount u + 1) u]> (Api.users s);
                      Api.timers := Api.timers s |}
                  (Api.set_count (Api.apiRequestCount u + 1) u)
                  ltac:(cbn; apply lookup_insert_eq) Ht ltac:(cbn; lia)).
    cbv zeta in IH. destruct IH as (H1 & H2 & H3 & H4).
    split; [| auto].
    rewrite H1. cbn. f_equal. lia.
Qed.

Lemma X22_lockout_is_permanent_witness :
  let s := {| Api.users := MoreApi.users; Api.timers := [] |} in
  Api.apiRequestCount <$> Api.users (Api.requests 0 "u1" 5 s) !! "u1" = Some 5%Z ∧
  Api.timers (Api.requests 0 "u1" 5 s) = [].
Proof.
  pose proof (X22_lockout_is_permanent 0 "u1" 5
                {| Api.users := MoreApi.users; Api.timers := [] |}
                {| Api.servers := ["srv0"; "srv1"]; Api.active := true;
                   Api.apiRequestCount := 0 |} eq_refl eq_refl ltac:(cbn; lia)) as H.
  cbv zeta in H. destruct H as (H1 & H2 & _). split; [exact H1 | exact H2].
Defined.

(** ** Reading the credentials back *)

(** X23: [getDecryptedApiKeys] never throws and changes nothing. It returns
    one entry for every stored credential, under the same name: the
    decryption of the stored value, or the empty string when decrypting that
    value throws, so that one bad credential does not take the others with
    it. *)
Theorem X23_decrypt_all_never_fails (aes : Cipher) (doc : Model.Document) (w : World) :
  ∃ decrypted,
    Model.getDecryptedApiKeys aes doc w = (Ok decrypted, w, []) ∧
    dom decrypted = dom (Model.doc_apiKeys doc) ∧
    ∀ name c, Model.doc_apiKeys doc !! name = Some c →
      decrypted !! name =
        Some (match decrypt aes c (process_env w !! "ENCRYPTION_KEY") with
              | Ok v => v
              | Throw _ => ""
              end).
Proof.
  eexists. split; [apply getDecryptedApiKeys_ok |]. split.
  - apply dom_fmap_L.
  - intros name c Hc. rewrite lookup_fmap, Hc. reflexivity.
Qed.
